(** * napari-1d / napari-plot: layer models and their properties

    A shallow embedding of the parts of the plugin that carry logic of
    their own:

    - [Region] (src/napari_1d/layers/region/region.py): the [edge_width] and
      [z_index] setters, [add] / [_add_regions] / [_add_regions_to_view],
      [_initialize_color] and [_compute_vertices_and_box];
    - [Centroids] (src/napari_plot/layers/centroids/centroids.py):
      [_initialize_color] and the [data] / [color] setters;
    - [_QtMainWindow] (src/napari_plot/_qt/qt_main_window.py): the wiring of
      the cursor-position event through the status throttler;
    - the development widgets (src/napari_plot/_qt/widgets/qt_dev.py):
      [path_to_module], [get_parent_module] and the loops of [QtReload];
    - more of [Region]: [move_to_front], [move_to_back], the [data] and
      [current_edge_width] setters, [_finish_drawing], [_init_regions] and
      [block_thumbnail_update].

    Conventions.  A Python method that mutates [self] and may raise is a
    function [S -> outcome A * S]: the state that comes back with [Raises] is
    the object as the exception left it.  Python floats are only stored,
    copied and compared here, never computed with; they are carried by [Q].
    Python ints are [Z], lengths and indices that cannot be negative are
    [nat].  A two-dimensional numpy array is a list of rows together with
    its number of columns, so that the shapes (0, 2) and (0, 4) differ. *)

From Stdlib Require Import ZArith QArith List Lia Ascii.
From stdpp Require Import base list gmap strings.

Open Scope Z_scope.

(** ** Python exceptions and a state-and-exception monad *)

Module Py.

Inductive exn :=
| ValueError (msg : string)
| IndexError
| TypeError
| AttributeError
| SystemExit
| KeyboardInterrupt.

(** [isinstance(e, Exception)]: SystemExit and KeyboardInterrupt derive
    from BaseException only, so [except Exception] lets them through. *)
Definition is_exception (e : exn) : bool :=
  match e with
  | SystemExit | KeyboardInterrupt => false
  | _ => true
  end.

Inductive outcome (A : Type) :=
| Returns (a : A)
| Raises (e : exn).
Arguments Returns {A} a.
Arguments Raises {A} e.

(** A method body: runs on the object's state, returns or raises, and
    hands back the (possibly mutated) state either way. *)
Definition M (S A : Type) : Type := S -> outcome A * S.

Definition ret {S A} (a : A) : M S A := fun s => (Returns a, s).

Definition raise {S A} (e : exn) : M S A := fun s => (Raises e, s).

Definition bind {S A B} (m : M S A) (k : A -> M S B) : M S B :=
  fun s =>
    match m s with
    | (Returns a, s') => k a s'
    | (Raises e, s') => (Raises e, s')
    end.

Definition get {S} : M S S := fun s => (Returns s, s).

Definition gets {S A} (f : S -> A) : M S A := fun s => (Returns (f s), s).

Definition put {S} (s : S) : M S unit := fun _ => (Returns tt, s).

Definition modify {S} (f : S -> S) : M S unit := fun s => (Returns tt, f s).

(** Lift a computation that cannot touch the state. *)
Definition lift {S A} (o : outcome A) : M S A := fun s => (o, s).

(** [with contextlib.suppress(IndexError): body] *)
Definition suppress_IndexError {S} (body : M S unit) : M S unit :=
  fun s =>
    match body s with
    | (Raises IndexError, s') => (Returns tt, s')
    | r => r
    end.

(** [for x in l: body(x)] *)
Fixpoint for_each {S A} (l : list A) (body : A -> M S unit) : M S unit :=
  match l with
  | [] => ret tt
  | x :: l' => bind (body x) (fun _ => for_each l' body)
  end.

(** [enumerate(l)], counting from [k]. *)
Fixpoint enumerate_from {A} (k : nat) (l : list A) : list (nat * A) :=
  match l with
  | [] => []
  | x :: l' => (k, x) :: enumerate_from (S k) l'
  end.

Definition enumerate {A} (l : list A) : list (nat * A) := enumerate_from 0 l.

(** A value that is either a Python list or something that is not a list
    ([isinstance(x, list)] tells them apart). *)
Inductive scalar_or_list (A : Type) :=
| Scalar (a : A)
| PyList (l : list A).
Arguments Scalar {A} a.
Arguments PyList {A} l.

End Py.

Import Py.

Declare Scope py_scope.
Delimit Scope py_scope with py.
Notation "x <~ m ;; k" := (Py.bind m (fun x => k))
  (at level 100, m at next level, right associativity) : py_scope.
Notation "m ;;; k" := (Py.bind m (fun _ => k))
  (at level 100, right associativity) : py_scope.

(** ** Two-dimensional numpy arrays *)

Module Np.

Record ndarray := mk_array {
  ncols : nat;
  rows : list (list Q)
}.

Definition nrows (a : ndarray) : nat := length (rows a).

(** [a.shape] *)
Definition shape (a : ndarray) : nat * nat := (nrows a, ncols a).

(** Every row has [ncols] entries. *)
Definition well_shaped (a : ndarray) : Prop :=
  Forall (fun r => length r = ncols a) (rows a).

(** [np.empty((0, c))] *)
Definition empty0 (c : nat) : ndarray := mk_array c [].

(** [a[:n]] *)
Definition slice_to (n : nat) (a : ndarray) : ndarray :=
  mk_array (ncols a) (take n (rows a)).

(** [a[-1]]: the last row; IndexError on an array without rows. *)
Definition last_row (a : ndarray) : outcome (list Q) :=
  match last (rows a) with
  | Some r => Returns r
  | None => Raises IndexError
  end.

(** [a[idx]] for a list of row indices [idx] (all of them non-negative
    here): IndexError as soon as one index is out of bounds. *)
Fixpoint take_rows (idx : list nat) (a : ndarray) : outcome (list (list Q)) :=
  match idx with
  | [] => Returns []
  | i :: idx' =>
      match rows a !! i with
      | None => Raises IndexError
      | Some r =>
          match take_rows idx' a with
          | Returns rs => Returns (r :: rs)
          | Raises e => Raises e
          end
      end
  end.

Definition index_rows (idx : list nat) (a : ndarray) : outcome ndarray :=
  match take_rows idx a with
  | Returns rs => Returns (mk_array (ncols a) rs)
  | Raises e => Raises e
  end.

(** [a[:, ::-1]]: every row reversed. *)
Definition reverse_columns (a : ndarray) : ndarray :=
  mk_array (ncols a) (map (@rev Q) (rows a)).

(** [np.full((d, c), fill_value=row)] for a one-dimensional [row]: the
    row is broadcast to each of the [d] rows when it has [c] entries (or
    one entry, which is stretched); any other length cannot be broadcast
    and numpy raises ValueError. *)
Definition full (d c : nat) (row : list Q) : outcome ndarray :=
  if decide (length row = c) then Returns (mk_array c (replicate d row))
  else match row with
       | [x] => Returns (mk_array c (replicate d (replicate c x)))
       | _ => Raises (ValueError "could not broadcast input array")
       end.

(** [np.concatenate([a, b])] along axis 0: the column counts must agree. *)
Definition concatenate (a b : ndarray) : outcome ndarray :=
  if decide (ncols a = ncols b)
  then Returns (mk_array (ncols a) (rows a ++ rows b))
  else Raises (ValueError "all the input array dimensions except for the concatenation axis must match exactly").

(** [np.tile(row, (n, 1))] for a one-dimensional [row]. *)
Definition tile (row : list Q) (n : nat) : ndarray :=
  mk_array (length row) (replicate n row).

End Np.

Import Np.

(** ** Colours: the host's colour utilities and [_initialize_color] *)

(** What a caller may pass where a colour is expected. *)
Inductive ColorInput :=
| ColorName (name : string)        (* "red", "#ff0000" *)
| ColorTuple (rgba : list Q)       (* one colour as a tuple or 1-D array *)
| ColorArray (a : ndarray).        (* an (N, 4) array of colours *)

(** [napari.layers.utils.color_transformations], a module of the host
    application: [transform_color_with_defaults(num_entries, colors,
    elem_name, default)] and [normalize_and_broadcast_colors(num_entries,
    colors)].  The layers call them; their code is the host's. *)
Class ColorTransformations := {
  transform_color_with_defaults : nat -> ColorInput -> string -> string -> ndarray;
  normalize_and_broadcast_colors : nat -> ndarray -> ndarray
}.

(** An (N, 4) array of RGBA rows with channels in [0, 1]. *)
Definition rgba_row (r : list Q) : Prop :=
  length r = 4%nat /\ Forall (fun x => (0 <= x)%Q /\ (x <= 1)%Q) r.

Definition rgba_array (a : ndarray) : Prop :=
  ncols a = 4%nat /\ Forall rgba_row (rows a).

(** What the host documents about the two functions, as far as the layers
    rely on it. *)
Class ColorTransformationsSpec (H : ColorTransformations) : Prop := {
  (** the parsed colours are an RGBA array of one row or of [num_entries]
      rows (anything else is replaced by the one-row default) *)
  transform_rgba : forall n c elem dflt,
    rgba_array (transform_color_with_defaults n c elem dflt);
  transform_rows : forall n c elem dflt,
    nrows (transform_color_with_defaults n c elem dflt) = 1%nat \/
    nrows (transform_color_with_defaults n c elem dflt) = n;
  (** one RGBA tuple parses to the one-row array holding it *)
  transform_tuple : forall n r elem dflt,
    rgba_row r ->
    transform_color_with_defaults n (ColorTuple r) elem dflt = mk_array 4 [r];
  (** an RGBA array of one row or of [num_entries] rows parses to itself *)
  transform_array : forall n a elem dflt,
    rgba_array a -> nrows a = 1%nat \/ nrows a = n ->
    transform_color_with_defaults n (ColorArray a) elem dflt = a;
  (** colours that already have [num_entries] rows are returned as they are *)
  broadcast_same : forall n a,
    nrows a = n -> normalize_and_broadcast_colors n a = a;
  (** a single colour is tiled to [num_entries] rows *)
  broadcast_one : forall n a r,
    rows a = [r] -> n <> 1%nat ->
    normalize_and_broadcast_colors n a = mk_array (length r) (replicate n r)
}.

Module Region_color.

(** [Region._initialize_color(self, color, attribute, n_regions)];
    [attribute] is not used by the body. *)
Definition _initialize_color `{ColorTransformations}
    (color : ColorInput) (attribute : string) (n_regions : nat) : ndarray :=
  if decide (0 < n_regions)%nat then
    let transformed_color :=
      transform_color_with_defaults n_regions color "face_color" "white" in
    normalize_and_broadcast_colors n_regions transformed_color
  else empty0 4.

End Region_color.

Module Centroids_color.

(** [Centroids._initialize_color(color, n_lines)] (a static method). *)
Definition _initialize_color `{ColorTransformations}
    (color : ColorInput) (n_lines : nat) : ndarray :=
  if decide (0 < n_lines)%nat then
    let transformed_color :=
      transform_color_with_defaults n_lines color "color" "white" in
    normalize_and_broadcast_colors n_lines transformed_color
  else empty0 4.

End Centroids_color.

(** A stand-in for the host's colour utilities that can be run: names
    parse through a small table, a tuple is one colour, an array is taken as
    it is; whatever is not RGBA, or has neither one row nor [num_entries]
    rows, falls back to the default. *)
Module SampleColors.

Definition named (name : string) : option (list Q) :=
  if decide (name = "white") then Some [1; 1; 1; 1]%Q
  else if decide (name = "black") then Some [0; 0; 0; 1]%Q
  else if decide (name = "red") then Some [1; 0; 0; 1]%Q
  else None.

Definition channel_ok (x : Q) : bool :=
  match Qcompare 0 x, Qcompare x 1 with
  | Gt, _ => false
  | _, Gt => false
  | _, _ => true
  end.

Definition rgba_row_b (r : list Q) : bool :=
  Nat.eqb (length r) 4 && forallb channel_ok r.

Definition rgba_array_b (a : ndarray) : bool :=
  Nat.eqb (ncols a) 4 && forallb rgba_row_b (rows a).

Definition white : ndarray := mk_array 4 [[1; 1; 1; 1]%Q].

Definition transform_color (c : ColorInput) : option ndarray :=
  match c with
  | ColorName s =>
      match named s with
      | Some r => Some (mk_array 4 [r])
      | None => None
      end
  | ColorTuple r => if rgba_row_b r then Some (mk_array 4 [r]) else None
  | ColorArray a => if rgba_array_b a then Some a else None
  end.

Definition transform_with_defaults
    (n : nat) (c : ColorInput) (elem dflt : string) : ndarray :=
  match transform_color c with
  | Some a =>
      if Nat.eqb (nrows a) 1 || Nat.eqb (nrows a) n then a
      else default (white) (transform_color (ColorName dflt))
  | None => default (white) (transform_color (ColorName dflt))
  end.

Definition normalize_and_broadcast (n : nat) (a : ndarray) : ndarray :=
  if Nat.eqb (nrows a) n then a
  else match rows a with
       | [r] => mk_array (length r) (replicate n r)
       | _ => mk_array 4 (replicate n [1; 1; 1; 1]%Q)
       end.

#[export] Instance sample_colors : ColorTransformations := {
  transform_color_with_defaults := transform_with_defaults;
  normalize_and_broadcast_colors := normalize_and_broadcast
}.

End SampleColors.

(** ** The Region layer *)

(** [_region_constants.Orientation] and [_region_constants.Mode]. *)
Inductive Orientation := VERTICAL | HORIZONTAL.

Inductive Mode := ADD | MOVE | SELECT | PAN_ZOOM.

#[export] Instance Mode_eq_dec : EqDecision Mode.
Proof. solve_decision. Defined.

(** Modelled from the spec: [RegionList] (napari_1d/layers/region/
    _region_list.py) is not among the sources.  The spec describes the
    layers' per-item attributes as "color arrays, widths, z-indices" that are
    pushed to the visuals; the list below keeps exactly those, one entry per
    region, behind the operations [Region] calls: [regions], [edge_widths],
    [z_indices], [_z_index], [_edge_color], [_face_color],
    [update_edge_width], [update_z_index] and [add].  The triangulated mesh
    and its draw order ([_update_z_order]) are rendering state and are left
    out. *)
Module RegionList.

Record region := mk_region {
  data : ndarray;
  orientation : Orientation;
  edge_width : Q;
  z_index : Z
}.

Record t := mk {
  regions : list region;
  _z_index : list Z;
  _edge_color : ndarray;
  _face_color : ndarray
}.

(** [RegionList()] *)
Definition new : t := mk [] [] (empty0 4) (empty0 4).

Definition edge_widths (rl : t) : list Q := map edge_width (regions rl).

Definition z_indices (rl : t) : list Z := map z_index (regions rl).

Definition set_edge_width (w : Q) (r : region) : region :=
  mk_region (data r) (orientation r) w (z_index r).

Definition set_z_index (z : Z) (r : region) : region :=
  mk_region (data r) (orientation r) (edge_width r) z.

(** [update_edge_width(index, edge_width)]: [regions[index].edge_width =
    edge_width]; an index past the end raises IndexError. *)
Definition update_edge_width (index : nat) (w : Q) : M t unit :=
  fun rl =>
    match regions rl !! index with
    | None => (Raises IndexError, rl)
    | Some r =>
        (Returns tt,
         mk (<[index := set_edge_width w r]> (regions rl))
            (_z_index rl) (_edge_color rl) (_face_color rl))
    end.

(** [update_z_index(index, z_index)]: the region's z-index and the entry
    of [_z_index] are both set. *)
Definition update_z_index (index : nat) (z : Z) : M t unit :=
  fun rl =>
    match regions rl !! index with
    | None => (Raises IndexError, rl)
    | Some r =>
        (Returns tt,
         mk (<[index := set_z_index z r]> (regions rl))
            (<[index := z]> (_z_index rl)) (_edge_color rl) (_face_color rl))
    end.

(** [add(region, edge_color=, face_color=, z_refresh=False)]: the region,
    its z-index and its two colour rows are appended. *)
Definition add (r : region) (ec fc : list Q) : M t unit :=
  fun rl =>
    match concatenate (_edge_color rl) (mk_array (length ec) [ec]),
          concatenate (_face_color rl) (mk_array (length fc) [fc]) with
    | Returns ecs, Returns fcs =>
        (Returns tt, mk (regions rl ++ [r]) (_z_index rl ++ [z_index r]) ecs fcs)
    | Raises e, _ => (Raises e, rl)
    | _, Raises e => (Raises e, rl)
    end.

End RegionList.

(** Helpers of the repository that are not among the sources
    ([_region_utils]): [extract_region_orientation(data, orientation)] turns
    what the caller passed into the list of region windows (and the
    orientations found in the data), [preprocess_region(d, orientation)]
    turns one window into the vertices of its region. *)
Class RegionUtils := {
  RawData : Type;
  extract_region_orientation :
    RawData -> scalar_or_list Orientation ->
    outcome (list (list Q) * scalar_or_list Orientation);
  preprocess_region : list Q -> Orientation -> ndarray
}.

(** [napari.layers.shapes]: the index lists of [_shapes_constants.Box] and
    [_shapes_utils.create_box], both of the host application.  [create_box]
    is handed [_drag_box], which may still be [None]. *)
Class ShapesHost := {
  Box_WITH_HANDLE : list nat;
  Box_LINE_HANDLE : list nat;
  Box_LINE : list nat;
  create_box : option ndarray -> outcome ndarray
}.

Module Region.

(** The attributes of a [Region] that the methods below read or write.
    [events] is the sequence of events emitted so far.  [_highlight_color]
    is read by [_compute_vertices_and_box] and assigned nowhere in [Region]:
    it is what the host's [Layer], the base class, provides under that
    name, if anything. *)
Record t := mk {
  _data_view : RegionList.t;
  _current_edge_width : Q;
  _current_edge_color : list Q;
  _current_face_color : list Q;
  _mode : Mode;
  _value : option nat * option nat;
  _selected_data : gset nat;
  _selected_box : option ndarray;
  _drag_box : option ndarray;
  _is_selecting : bool;
  _highlight_color : option ColorInput;
  events : list string
}.

Definition with_data_view (dv : RegionList.t) (s : t) : t :=
  mk dv (_current_edge_width s) (_current_edge_color s)
     (_current_face_color s) (_mode s) (_value s) (_selected_data s)
     (_selected_box s) (_drag_box s) (_is_selecting s) (_highlight_color s)
     (events s).

Definition emit (name : string) : M t unit :=
  modify (fun s =>
    mk (_data_view s) (_current_edge_width s) (_current_edge_color s)
       (_current_face_color s) (_mode s) (_value s) (_selected_data s)
       (_selected_box s) (_drag_box s) (_is_selecting s) (_highlight_color s)
       (events s ++ [name])).

(** Run a method of [self._data_view] on the layer. *)
Definition on_data_view {A} (m : M RegionList.t A) : M t A :=
  fun s =>
    match m (_data_view s) with
    | (o, dv) => (o, with_data_view dv s)
    end.

(** [n_regions]: [len(self._data_view.regions)] *)
Definition n_regions (s : t) : nat := length (RegionList.regions (_data_view s)).

(** The [edge_width] property. *)
Definition edge_width (s : t) : list Q := RegionList.edge_widths (_data_view s).

(** The [z_index] property. *)
Definition z_index (s : t) : list Z := RegionList.z_indices (_data_view s).

Definition length_error : exn :=
  ValueError "Length of list does not match number of orientations.".

(** The [edge_width] setter. *)
Definition set_edge_width (width : scalar_or_list Q) : M t unit :=
  (widths <~ (fun s =>
      match width with
      | PyList l =>
          if negb (Nat.eqb (length l) (n_regions s))
          then raise length_error s
          else ret l s
      | Scalar w => ret (replicate (n_regions s) w) s
      end) ;;
   for_each (enumerate widths)
     (fun '(i, width) => on_data_view (RegionList.update_edge_width i width)))%py.

(** The [z_index] setter. *)
Definition set_z_index (z_index : scalar_or_list Z) : M t unit :=
  (z_indices <~ (fun s =>
      match z_index with
      | PyList l =>
          if negb (Nat.eqb (length l) (n_regions s))
          then raise length_error s
          else ret l s
      | Scalar z => ret (replicate (n_regions s) z) s
      end) ;;
   for_each (enumerate z_indices)
     (fun '(i, z_idx) => on_data_view (RegionList.update_z_index i z_idx)))%py.

(** [ensure_iterable(x)] of the host: a list is iterated, anything else is
    repeated for ever; [item x i] is the [i]-th value it yields. *)
Definition item {A} (x : scalar_or_list A) (i : nat) : option A :=
  match x with
  | Scalar a => Some a
  | PyList l => l !! i
  end.

(** [max(l, default=d)] *)
Definition max_default (l : list Z) (d : Z) : Z :=
  match l with
  | [] => d
  | x :: l' => fold_left Z.max l' x
  end.

(** [z_index or dflt]: [None], [0] and the empty list are falsy. *)
Definition z_index_or (z_index : option (scalar_or_list Z)) (dflt : Z)
    : scalar_or_list Z :=
  match z_index with
  | None => Scalar dflt
  | Some (Scalar v) => if Z.eqb v 0 then Scalar dflt else Scalar v
  | Some (PyList []) => Scalar dflt
  | Some (PyList l) => PyList l
  end.

(** [max(self._data_view._z_index, default=-1) + 1] *)
Definition next_z_index (s : t) : Z :=
  max_default (RegionList._z_index (_data_view s)) (-1) + 1.

(** [_get_new_region_color(adding, attribute)]:
    [np.tile(self._current_<attribute>_color, (adding, 1))]. *)
Definition _get_new_region_color (adding : nat) (attribute : string) (s : t)
    : ndarray :=
  let current_face_color :=
    if decide (attribute = "edge") then _current_edge_color s
    else _current_face_color s in
  tile current_face_color adding.

Definition region_input : Type :=
  list Q * Orientation * Q * list Q * list Q * Z.

(** [zip(data, ensure_iterable(orientation), ensure_iterable(edge_width),
    transformed_edge_color, transformed_face_color,
    ensure_iterable(z_index))]: stops at the first input that runs out. *)
Fixpoint zip_inputs (i : nat) (data : list (list Q))
    (orientation : scalar_or_list Orientation) (edge_width : scalar_or_list Q)
    (edge_color face_color : ndarray) (z_index : scalar_or_list Z)
    : list region_input :=
  match data with
  | [] => []
  | d :: data' =>
      match item orientation i, item edge_width i,
            rows edge_color !! i, rows face_color !! i, item z_index i with
      | Some ot, Some ew, Some ec, Some fc, Some z =>
          (d, ot, ew, ec, fc, z)
            :: zip_inputs (S i) data' orientation edge_width
                 edge_color face_color z_index
      | _, _, _, _, _ => []
      end
  end.

(** [_add_regions_to_view(shape_inputs, data_view)] *)
Definition _add_regions_to_view `{RegionUtils}
    (shape_inputs : list region_input) : M RegionList.t unit :=
  for_each shape_inputs
    (fun '(d, ot, ew, ec, fc, z) =>
       let d := preprocess_region d ot in
       let region := RegionList.mk_region d ot ew z in
       RegionList.add region ec fc).

(** [Layer._update_dims()], of the host application.  [_add_regions]
    ends with it, after storing copies of the host's [_dims_order] and
    [_ndisplay] (region.py 609-611); the [data] setter calls it as well. *)
Class Dims := {
  _update_dims : M t unit
}.

(** [_update_dims] brings the displayed dimensions up to date and
    redraws: it returns, it leaves the data view alone, and what it does to
    the events is to emit some. *)
Class DimsSpec (H : Dims) : Prop := {
  dims_returns : forall s, fst (_update_dims s) = Returns tt;
  dims_data_view : forall s, _data_view (snd (_update_dims s)) = _data_view s;
  dims_events : forall s,
    exists emitted, events (snd (_update_dims s)) = events s ++ emitted
}.

(** [_add_regions(data, orientation=, edge_width=, edge_color=,
    face_color=, z_index=)].  [self._data_view] is a [RegionList] from the
    constructor on, so the branch for a missing data view is never taken. *)
Definition _add_regions `{RegionUtils} `{ColorTransformations} `{Dims}
    (data : list (list Q)) (orientation : scalar_or_list Orientation)
    (edge_width : option (scalar_or_list Q))
    (edge_color face_color : option ColorInput)
    (z_index : option (scalar_or_list Z)) : M t unit :=
  (edge_width <~ match edge_width with
                 | None => gets (fun s => Scalar (_current_edge_width s))
                 | Some w => ret w
                 end ;;
   edge_color <~ match edge_color with
                 | None => gets (fun s => ColorTuple (_current_edge_color s))
                 | Some c => ret c
                 end ;;
   face_color <~ match face_color with
                 | None => gets (fun s => ColorTuple (_current_face_color s))
                 | Some c => ret c
                 end ;;
   z_index <~ gets (fun s => z_index_or z_index (next_z_index s)) ;;
   (if decide (0 < length data)%nat then
     let transformed_ec :=
       transform_color_with_defaults (length data) edge_color "edge_color" "white" in
     let transformed_edge_color :=
       normalize_and_broadcast_colors (length data) transformed_ec in
     let transformed_fc :=
       transform_color_with_defaults (length data) face_color "face_color" "white" in
     let transformed_face_color :=
       normalize_and_broadcast_colors (length data) transformed_fc in
     let region_inputs :=
       zip_inputs 0 data orientation edge_width
         transformed_edge_color transformed_face_color z_index in
     on_data_view (_add_regions_to_view region_inputs)
   else ret tt) ;;;
   _update_dims)%py.

(** [add(data, orientation=, edge_width=None, edge_color=None,
    face_color=None, z_index=None)] *)
Definition add `{RegionUtils} `{ColorTransformations} `{Dims}
    (data : RawData) (orientation : scalar_or_list Orientation)
    (edge_width : option (scalar_or_list Q))
    (edge_color face_color : option ColorInput)
    (z_index : option (scalar_or_list Z)) : M t unit :=
  (extracted <~ lift (extract_region_orientation data orientation) ;;
   let data := fst extracted in
   edge_width <~ match edge_width with
                 | None => gets (fun s => Scalar (_current_edge_width s))
                 | Some w => ret w
                 end ;;
   let n_new_shapes := length data in
   edge_color <~ match edge_color with
                 | None => gets (fun s =>
                     ColorArray (_get_new_region_color n_new_shapes "edge" s))
                 | Some c => ret c
                 end ;;
   face_color <~ match face_color with
                 | None => gets (fun s =>
                     ColorArray (_get_new_region_color n_new_shapes "face" s))
                 | Some c => ret c
                 end ;;
   z_index <~ gets (fun s => z_index_or z_index (next_z_index s)) ;;
   if decide (0 < n_new_shapes)%nat then
     (_add_regions data orientation (Some edge_width) (Some edge_color)
        (Some face_color) (Some z_index) ;;;
      emit "data")
   else ret tt)%py.

(** What [_compute_vertices_and_box] returns. *)
Record highlight := mk_highlight {
  vertices : ndarray;
  face_color : ColorInput;
  edge_color : ColorInput;
  pos : option ndarray;
  width : Q
}.

(** [_compute_vertices_and_box()]: reads the layer, changes nothing.
    Subscripting [_selected_box] while it is still [None] is a TypeError;
    reading [_highlight_color] where the base class provides none is an
    AttributeError. *)
Definition _compute_vertices_and_box `{ShapesHost} (s : t) : outcome highlight :=
  if decide (0 < size (_selected_data s))%nat then
    if decide (_mode s = SELECT) then
      match _selected_box s with
      | None => Raises TypeError
      | Some selected_box =>
          match index_rows Box_WITH_HANDLE selected_box with
          | Raises e => Raises e
          | Returns box =>
              match _highlight_color s with
              | None => Raises AttributeError
              | Some highlight_color =>
                  let face_color :=
                    match _value s with
                    | (None, _) => ColorName "white"
                    | (Some _, None) => ColorName "white"
                    | (Some _, Some _) => highlight_color
                    end in
                  let edge_color := highlight_color in
                  let vertices := reverse_columns box in
                  match index_rows Box_LINE_HANDLE box with
                  | Raises e => Raises e
                  | Returns line =>
                      Returns (mk_highlight vertices face_color edge_color
                                 (Some (reverse_columns line)) 1.5)
                  end
              end
          end
      end
    else
      Returns (mk_highlight (empty0 2) (ColorName "white") (ColorName "white")
                 None 0)
  else if _is_selecting s then
    match _highlight_color s with
    | None => Raises AttributeError
    | Some highlight_color =>
        match create_box (_drag_box s) with
        | Raises e => Raises e
        | Returns box =>
            match index_rows Box_LINE box with
            | Raises e => Raises e
            | Returns line =>
                Returns (mk_highlight (empty0 2) (ColorName "white")
                           highlight_color (Some (reverse_columns line)) 1.5)
            end
        end
    end
  else
    Returns (mk_highlight (empty0 2) (ColorName "white") (ColorName "white")
               None 0).

(** [x] yields at least [k] values when iterated through
    [ensure_iterable]. *)
Definition covers {A} (x : scalar_or_list A) (k : nat) : Prop :=
  match x with
  | Scalar _ => True
  | PyList l => (k <= length l)%nat
  end.

(** The two colour rows of one tuple of inputs. *)
Definition input_edge_color (i : region_input) : list Q := snd (fst (fst i)).
Definition input_face_color (i : region_input) : list Q := snd (fst i).

Definition white : ColorInput := ColorName "white".

(** Both components of [_value] are set. *)
Definition value_is_set (v : option nat * option nat) : bool :=
  match v with
  | (Some _, Some _) => true
  | _ => false
  end.

(** The region built from one tuple of inputs. *)
Definition region_of `{RegionUtils} (i : region_input) : RegionList.region :=
  let '(d, ot, ew, ec, fc, z) := i in
  RegionList.mk_region (preprocess_region d ot) ot ew z.

End Region.

(** ** The Centroids layer *)

Module Centroids.

(** The attributes of a [Centroids] layer that the [data] and [color]
    properties read or write; [events] is the sequence of events emitted
    so far. *)
Record t := mk {
  _data : ndarray;
  _color : ndarray;
  events : list string
}.

(** What the layer takes from code of the repository that is not among
    the sources: [_centroids_utils.parse_centroids_data(value)], which
    turns what the caller passed into the (N, 2) or (N, 3) array of
    centroids, and [BaseLayer._emit_new_data()]. *)
Class Helpers := {
  RawData : Type;
  parse_centroids_data : RawData -> outcome ndarray;
  _emit_new_data : M t unit
}.

(** [_emit_new_data] announces the new data; it returns, and it leaves
    the data and the colours alone. *)
Class HelpersSpec (H : Helpers) : Prop := {
  emit_new_data_returns : forall s, fst (_emit_new_data s) = Returns tt;
  emit_new_data_data : forall s, _data (snd (_emit_new_data s)) = _data s;
  emit_new_data_color : forall s, _color (snd (_emit_new_data s)) = _color s
}.

Definition emit (name : string) : M t unit :=
  modify (fun s => mk (_data s) (_color s) (events s ++ [name])).

(** The [color] property. *)
Definition color (s : t) : ndarray := _color s.

(** The [color] setter. *)
Definition set_color `{ColorTransformations} (value : ColorInput) : M t unit :=
  (modify (fun s =>
     mk (_data s)
        (Centroids_color._initialize_color value (nrows (_data s)))
        (events s)) ;;;
   emit "color")%py.

(** The [data] setter. *)
Definition set_data `{Helpers} `{ColorTransformations} (value : RawData)
    : M t unit :=
  (data <~ lift (parse_centroids_data value) ;;
   color0 <~ gets color ;;
   n <~ gets (fun s => nrows (_data s)) ;;
   let n_new := nrows data in
   color1 <~ (if decide (n_new < n)%nat then
                gets (fun s => slice_to n_new (color s))
              else if decide (n < n_new)%nat then
                let n_difference := (n_new - n)%nat in
                (new_color <~ (fun s => (last_row (color s), s)) ;;
                 filler <~ lift (full n_difference 4 new_color) ;;
                 lift (concatenate color0 filler))
              else ret color0) ;;
   modify (fun s => mk data (_color s) (events s)) ;;;
   set_color (ColorArray color1) ;;;
   _emit_new_data)%py.

(** [Centroids(data, color=...)]: what the constructor leaves in [_data]
    and [_color]. *)
Definition init `{Helpers} `{ColorTransformations}
    (data : RawData) (color : ColorInput) : outcome t :=
  match parse_centroids_data data with
  | Raises e => Raises e
  | Returns data =>
      Returns (mk data (Centroids_color._initialize_color color (nrows data)) [])
  end.

(** The layer's invariant: one colour row per centroid, each an RGBA row. *)
Definition color_per_centroid (s : t) : Prop :=
  nrows (_color s) = nrows (_data s) /\ rgba_array (_color s).

(** The last three statements of the [data] setter, once the new colours
    [c1] are chosen. *)
Definition store_data_and_color `{H : Helpers} `{HC : ColorTransformations}
    (data c1 : ndarray) : M t unit :=
  (modify (fun s => mk data (_color s) (events s)) ;;;
   set_color (ColorArray c1) ;;;
   _emit_new_data)%py.

(** [update_color(index, color)] for a colour given as a row of numbers:
    [self._color[index] = color], then the [color] event.  An index past the
    end is an IndexError, a row that cannot be broadcast to the columns of
    the array a ValueError.  The row is stored as it is given.  The method
    ends with [_update_thumbnail()], which paints the thumbnail of the base
    class; [t] holds none of the attributes it reads or writes. *)
Definition update_color (index : nat) (color : list Q) : M t unit :=
  ((fun s =>
      match rows (_color s) !! index with
      | None => (Raises IndexError, s)
      | Some _ =>
          if decide (length color = ncols (_color s)) then
            (Returns tt,
             mk (_data s)
                (mk_array (ncols (_color s)) (<[index := color]> (rows (_color s))))
                (events s))
          else
            match color with
            | [x] =>
                (Returns tt,
                 mk (_data s)
                    (mk_array (ncols (_color s))
                       (<[index := replicate (ncols (_color s)) x]> (rows (_color s))))
                    (events s))
            | _ => (Raises (ValueError "could not broadcast input array"), s)
            end
      end) ;;;
   emit "color")%py.

(** The layers a program can hold: what the constructor returns, and what
    the [data] setter, the [color] setter and [update_color] leave behind,
    whether they return or raise. *)
Inductive reachable `{H : Helpers} `{HC : ColorTransformations} : t -> Prop :=
| reach_init (data : RawData) (c : ColorInput) (s : t) :
    init data c = Returns s -> reachable s
| reach_set_data (value : RawData) (s : t) :
    reachable s -> reachable (snd (set_data value s))
| reach_set_color (c : ColorInput) (s : t) :
    reachable s -> reachable (snd (set_color c s))
| reach_update_color (index : nat) (c : list Q) (s : t) :
    reachable s -> reachable (snd (update_color index c s)).

End Centroids.


(** ** The main window: cursor position and the status bar *)

Module QtMainWindow.

(** The callbacks that matter here. *)
Inductive callback :=
| update_status_bar_from_cursor       (* viewer._update_status_bar_from_cursor *)
| status_throttler_throttle           (* self.status_throttler.throttle *)
| other_callback (name : string).

#[export] Instance callback_eq_dec : EqDecision callback.
Proof. solve_decision. Defined.

(** [self.status_throttler]: a [QSignalThrottler] with its timeout in
    milliseconds and the slots connected to its [triggered] signal. *)
Record throttler := mk_throttler {
  timeout : Z;
  triggered : list callback
}.

(** The window's part in this: the callbacks connected to
    [viewer.cursor.events.position] and the throttler, once created. *)
Record t := mk {
  position : list callback;
  status_throttler : option throttler
}.

(** The host's event emitter ([connect], [disconnect]) and the timeout a
    freshly made [QSignalThrottler] starts with. *)
Class EventHost := {
  connect : callback -> list callback -> list callback;
  disconnect : callback -> list callback -> outcome (list callback);
  initial_timeout : Z
}.

(** [connect] adds the callback and keeps the others; [disconnect]
    removes the callback and keeps the others, and when it raises, it is
    IndexError for a callback that was not connected. *)
Class EventHostSpec (H : EventHost) : Prop := {
  connect_elem : forall cb l c, c ∈ connect cb l <-> c = cb \/ c ∈ l;
  disconnect_returns : forall cb l l',
    disconnect cb l = Returns l' ->
    (cb ∉ l') /\ (forall c, c <> cb -> (c ∈ l' <-> c ∈ l));
  disconnect_raises : forall cb l e,
    disconnect cb l = Raises e -> e = IndexError /\ cb ∉ l
}.

Definition set_position (l : list callback) (w : t) : t :=
  mk l (status_throttler w).

(** [self.status_throttler.setTimeout(ms)]; the attribute must exist. *)
Definition setTimeout (ms : Z) : M t unit :=
  fun w =>
    match status_throttler w with
    | None => (Raises AttributeError, w)
    | Some th => (Returns tt, mk (position w) (Some (mk_throttler ms (triggered th))))
    end.

(** [self.status_throttler.triggered.connect(slot)] *)
Definition triggered_connect (slot : callback) : M t unit :=
  fun w =>
    match status_throttler w with
    | None => (Raises AttributeError, w)
    | Some th =>
        (Returns tt,
         mk (position w) (Some (mk_throttler (timeout th) (triggered th ++ [slot]))))
    end.

(** [_throttle_cursor_to_status_connection(viewer)] *)
Definition _throttle_cursor_to_status_connection `{EventHost} : M t unit :=
  (suppress_IndexError
     (fun w =>
        match disconnect update_status_bar_from_cursor (position w) with
        | Returns l => (Returns tt, set_position l w)
        | Raises e => (Raises e, w)
        end) ;;;
   modify (fun w => set_position (connect status_throttler_throttle (position w)) w) ;;;
   triggered_connect update_status_bar_from_cursor)%py.

(** The end of [_QtMainWindow.__init__]: the throttler is made, its
    timeout set, and the cursor connection replaced.  What comes before
    builds widgets and does not touch these attributes. *)
Definition init_status_throttler `{EventHost} : M t unit :=
  (modify (fun w => mk (position w) (Some (mk_throttler initial_timeout []))) ;;;
   setTimeout 50 ;;;
   _throttle_cursor_to_status_connection)%py.

(** The callbacks a cursor-position event invokes at once. *)
Definition fires_directly (w : t) : list callback := position w.

(** The callbacks a cursor-position event reaches through the throttler,
    with the delay they wait for at most. *)
Definition fires_throttled (w : t) : list (callback * Z) :=
  match status_throttler w with
  | Some th =>
      if decide (status_throttler_throttle ∈ position w)
      then map (fun c => (c, timeout th)) (triggered th)
      else []
  | None => []
  end.

(** A host that can be run: callbacks are kept in a list without
    repetition, [disconnect] of a callback that is not connected raises
    IndexError. *)
Module Sample.

Definition connect_list (cb : callback) (l : list callback) : list callback :=
  if decide (cb ∈ l) then l else cb :: l.

Definition disconnect_list (cb : callback) (l : list callback)
    : outcome (list callback) :=
  if decide (cb ∈ l) then Returns (filter (fun c => c <> cb) l)
  else Raises IndexError.

#[export] Instance sample_host : EventHost := {
  connect := connect_list;
  disconnect := disconnect_list;
  initial_timeout := 0
}.

End Sample.

End QtMainWindow.

(** * Sample layers and stand-ins for the helpers

    Concrete layers, windows and executable stand-ins for the functions that
    the models take as parameters; the examples and the instances of the
    theorems below run on them. *)

Module Samples.

Import Region.

(** A small layer used in the examples: two regions, widths 1 and 2,
    z-indices 0 and 3. *)
Definition two_regions : Region.t :=
  Region.mk
    (RegionList.mk
       [RegionList.mk_region (mk_array 2 []) VERTICAL 1 0;
        RegionList.mk_region (mk_array 2 []) HORIZONTAL 2 3]
       [0; 3]
       (mk_array 4 [[1; 0; 0; 1]; [1; 0; 0; 1]]%Q)
       (mk_array 4 [[1; 1; 1; 1]; [1; 1; 1; 1]]%Q))
    1 [1; 0; 0; 1]%Q [1; 1; 1; 1]%Q PAN_ZOOM (None, None) ∅ None None false
    (Some (ColorTuple [0; 0.6; 1; 1]%Q)) [].

(** Helpers that can be run: the caller passes the list of windows
    itself, and a window is its own (one-row) vertex array. *)
Definition sample_utils : RegionUtils := {|
  RawData := list (list Q);
  extract_region_orientation := fun data orientation => Returns (data, orientation);
  preprocess_region := fun d _ => mk_array (length d) [d]
|}.

(** [Region(None)]: a layer without regions, with the default colours. *)
Definition empty_layer : Region.t :=
  Region.mk RegionList.new 1 [1; 0; 0; 1]%Q [1; 1; 1; 1]%Q PAN_ZOOM
    (None, None) ∅ None None false (Some (ColorTuple [0; 0.6; 1; 1]%Q)) [].

(** A stand-in for the host's [_update_dims] that can be run: it
    announces the redraw. *)
Definition sample_dims : Dims := {|
  _update_dims := emit "set_data"
|}.

Definition sample_add :=
  add (H := sample_utils) (H0 := SampleColors.sample_colors)
    (H1 := sample_dims).

(** A stand-in for the host's shape utilities that can be run: the index
    lists pick nine of the ten vertices of an interaction box, the outline
    with the rotation handle, and the plain outline; [create_box] returns
    the corners and edge midpoints of the bounding box of its argument,
    then the centre. *)
Module SampleShapes.

Definition qmin (x y : Q) : Q := if Qle_bool x y then x else y.
Definition qmax (x y : Q) : Q := if Qle_bool x y then y else x.
Definition mid (x y : Q) : Q := Qred ((x + y) / 2).

Definition column (j : nat) (a : ndarray) : list Q :=
  omap (fun r : list Q => r !! j) (rows a).

Definition fold1 (f : Q -> Q -> Q) (l : list Q) : option Q :=
  match l with
  | [] => None
  | x :: l' => Some (fold_left f l' x)
  end.

Definition bounding_box (a : option ndarray) : outcome ndarray :=
  match a with
  | None => Raises AttributeError
  | Some a =>
      match fold1 qmin (column 0 a), fold1 qmax (column 0 a),
            fold1 qmin (column 1 a), fold1 qmax (column 1 a) with
      | Some x0, Some x1, Some y0, Some y1 =>
          Returns (mk_array 2
            [[x0; y0]; [mid x0 x1; y0]; [x1; y0]; [x1; mid y0 y1];
             [x1; y1]; [mid x0 x1; y1]; [x0; y1]; [x0; mid y0 y1];
             [mid x0 x1; mid y0 y1]])
      | _, _, _, _ =>
          Raises (ValueError "zero-size array to reduction operation")
      end
  end.

Definition sample_shapes : ShapesHost := {|
  Box_WITH_HANDLE := [0; 1; 2; 3; 4; 5; 6; 7; 9]%nat;
  Box_LINE_HANDLE := [7; 6; 4; 2; 0; 7; 8]%nat;
  Box_LINE := [0; 2; 4; 6; 0]%nat;
  create_box := bounding_box
|}.

End SampleShapes.

(** The interaction box of the unit square, with its rotation handle. *)
Definition unit_box : ndarray :=
  mk_array 2 [[0; 0]; [0.5; 0]; [1; 0]; [1; 0.5]; [1; 1];
              [0.5; 1]; [0; 1]; [0; 0.5]; [0.5; 0.5]; [0.5; -1]]%Q.

Definition with_selection (sel : gset nat) (mode : Mode)
    (box : option ndarray) (s : Region.t) : Region.t :=
  Region.mk (_data_view s) (_current_edge_width s) (_current_edge_color s)
    (_current_face_color s) mode (_value s) sel box (_drag_box s)
    (_is_selecting s) (_highlight_color s) (events s).

Definition with_drag (drag : option ndarray) (s : Region.t) : Region.t :=
  Region.mk (_data_view s) (_current_edge_width s) (_current_edge_color s)
    (_current_face_color s) (_mode s) (_value s) (_selected_data s)
    (_selected_box s) drag true (_highlight_color s) (events s).

(** The first region selected in SELECT mode, interaction box in place. *)
Definition selected_with_box : Region.t :=
  with_selection {[0%nat]} SELECT (Some unit_box) two_regions.

(** The same selection on a layer whose [_selected_box] is still what
    the constructor left there: [None]. *)
Definition selected_without_box : Region.t :=
  with_selection {[0%nat]} SELECT None two_regions.

(** A drag selection under way, nothing selected. *)
Definition dragging : Region.t :=
  with_drag (Some (mk_array 2 [[0; 0]; [2; 4]]%Q)) two_regions.

(** Helpers that can be run: the caller passes the array of centroids
    itself, and [_emit_new_data] emits the [data] event. *)
Definition sample_helpers : Centroids.Helpers := {|
  Centroids.RawData := ndarray;
  Centroids.parse_centroids_data := fun value => Returns value;
  Centroids._emit_new_data := Centroids.emit "data"
|}.

Definition sample_set_data :=
  Centroids.set_data (H := sample_helpers) (H0 := SampleColors.sample_colors).

(** [Centroids(np.empty((0, 2)))] *)
Definition no_centroids : Centroids.t :=
  Centroids.mk (empty0 2) (empty0 4) [].

(** Three centroids, coloured red, white and black. *)
Definition three_centroids : Centroids.t :=
  Centroids.mk
    (mk_array 2 [[1; 10]; [2; 20]; [3; 30]]%Q)
    (mk_array 4 [[1; 0; 0; 1]; [1; 1; 1; 1]; [0; 0; 0; 1]]%Q)
    [].

(** [three_centroids] after [update_color(1, [2, 0, 0, 1])]. *)
Definition painted : Centroids.t :=
  snd (Centroids.update_color 1 [2; 0; 0; 1]%Q three_centroids).

(** The viewer as the window finds it: the status bar update is connected
    to the cursor position directly, next to some other callback. *)
Definition direct_connection : QtMainWindow.t :=
  QtMainWindow.mk [QtMainWindow.update_status_bar_from_cursor;
   QtMainWindow.other_callback "draw"] None.

End Samples.

(** * More of the code: the development widgets

    [path_to_module] and [get_parent_module] of
    src/napari_plot/_qt/widgets/qt_dev.py, on Python strings as lists of
    characters. *)

Module PyStr.

Definition str : Type := list ascii.

(** A string literal. *)
Definition lit (s : string) : str := String.list_ascii_of_string s.

(** What is left of [s] after its prefix [p], if [s] starts with [p]. *)
Fixpoint after_prefix (p s : str) : option str :=
  match p, s with
  | [], _ => Some s
  | a :: p', b :: s' => if decide (a = b) then after_prefix p' s' else None
  | _ :: _, [] => None
  end.

(** [s.split(sep)] for a non-empty [sep], scanning from the left: where
    [sep] starts, a piece ends and the scan goes on behind [sep].  Every
    step uses up a character, so [length s] steps are enough. *)
Fixpoint split_go (fuel : nat) (sep s : str) : list str :=
  match fuel with
  | O => [s]
  | S fuel' =>
      match after_prefix sep s with
      | Some rest => [] :: split_go fuel' sep rest
      | None =>
          match s with
          | [] => [[]]
          | c :: s' =>
              match split_go fuel' sep s' with
              | piece :: pieces => (c :: piece) :: pieces
              | [] => [[c]]
              end
          end
      end
  end.

(** [s.split(sep)]; an empty separator is a ValueError. *)
Definition split (sep s : str) : outcome (list str) :=
  match sep with
  | [] => Raises (ValueError "empty separator")
  | _ :: _ => Returns (split_go (length s) sep s)
  end.

(** [s.replace(old, new)] for a non-empty [old]: the occurrences of [old]
    found by the same scan are replaced. *)
Fixpoint replace_go (fuel : nat) (old new s : str) : str :=
  match fuel with
  | O => s
  | S fuel' =>
      match after_prefix old s with
      | Some rest => new ++ replace_go fuel' old new rest
      | None =>
          match s with
          | [] => []
          | c :: s' => c :: replace_go fuel' old new s'
          end
      end
  end.

(** [s.replace("", new)]: [new] before every character and at the end. *)
Fixpoint interleave (new s : str) : str :=
  match s with
  | [] => new
  | c :: s' => new ++ c :: interleave new s'
  end.

(** [s.replace(old, new)] *)
Definition replace (old new s : str) : str :=
  match old with
  | [] => interleave new s
  | _ :: _ => replace_go (length s) old new s
  end.

(** [sep.join(pieces)] *)
Fixpoint join (sep : str) (pieces : list str) : str :=
  match pieces with
  | [] => []
  | [p] => p
  | p :: ps => p ++ sep ++ join sep ps
  end.

(** [sep in s] *)
Definition occurs (sep s : str) : Prop := exists a b, s = a ++ sep ++ b.

(** The first occurrence of [sep] in [s] starts right after the prefix
    [a]. *)
Definition first_at (sep a s : str) : Prop :=
  (exists b, s = a ++ sep ++ b) /\
  (forall a' b', s = a' ++ sep ++ b' -> (length a <= length a')%nat).

End PyStr.

Module QtDev.

Import PyStr.

(** The character ["."]. *)
Definition dot : ascii := "."%char.

(** The character written ["\\"] in the source. *)
Definition backslash : ascii := ascii_of_nat 92.

(** ["napari_plot\\"] *)
Definition package_sep : str := lit "napari_plot" ++ [backslash].

(** [path_to_module(path)] *)
Definition path_to_module (path : str) : outcome str :=
  match split package_sep path with
  | Raises e => Raises e
  | Returns parts =>
      match parts !! 1%nat with
      | None => Raises IndexError
      | Some module =>
          Returns (lit "napari_plot."
                     ++ replace (lit ".py") (lit "")
                          (replace [backslash] (lit ".") module))
      end
  end.

(** [get_parent_module(module)] *)
Definition get_parent_module (module : str) : outcome str :=
  match split (lit ".") module with
  | Raises e => Raises e
  | Returns parts => Returns (join (lit ".") (removelast parts))
  end.

(** A path below the package, given by the names on the way to the
    module file: [directory + "napari_plot\\" + "\\".join(names) + ".py"]. *)
Definition module_path (directory : str) (names : list str) : str :=
  directory ++ package_sep ++ join [backslash] names ++ lit ".py".

End QtDev.

(** * More of the code: the Region layer

    What [add] hands to [_add_regions_to_view], [move_to_front] and
    [move_to_back], and the [data] setter, of
    src/napari_1d/layers/region/region.py. *)

Module RegionInputs.

Import Region.

(** The edge width and the z-index of one tuple of inputs. *)
Definition input_edge_width (i : region_input) : Q := snd (fst (fst (fst i))).
Definition input_z_index (i : region_input) : Z := snd i.

(** The arguments of [add] once the defaults are filled in. *)
Definition edge_width_or_current (edge_width : option (scalar_or_list Q))
    (s : Region.t) : scalar_or_list Q :=
  match edge_width with
  | None => Scalar (_current_edge_width s)
  | Some w => w
  end.

Definition color_or_current (color : option ColorInput) (adding : nat)
    (attribute : string) (s : Region.t) : ColorInput :=
  match color with
  | None => ColorArray (_get_new_region_color adding attribute s)
  | Some c => c
  end.

(** The colour array [_add_regions] makes of a colour argument. *)
Definition transformed_color `{ColorTransformations}
    (n : nat) (color : ColorInput) (elem_name : string) : ndarray :=
  normalize_and_broadcast_colors n
    (transform_color_with_defaults n color elem_name "white").

(** The tuples that [add], through [_add_regions], hands to
    [_add_regions_to_view] for the extracted windows [data]. *)
Definition add_inputs `{ColorTransformations}
    (data : list (list Q)) (orientation : scalar_or_list Orientation)
    (edge_width : option (scalar_or_list Q))
    (edge_color face_color : option ColorInput)
    (z_index : option (scalar_or_list Z)) (s : Region.t) : list region_input :=
  zip_inputs 0 data orientation (edge_width_or_current edge_width s)
    (transformed_color (length data)
       (color_or_current edge_color (length data) "edge" s) "edge_color")
    (transformed_color (length data)
       (color_or_current face_color (length data) "face" s) "face_color")
    (z_index_or z_index (next_z_index s)).

(** The data view after the regions of [inputs] are appended to it. *)
Definition appended `{RegionUtils} (inputs : list region_input)
    (rl : RegionList.t) : RegionList.t :=
  RegionList.mk
    (RegionList.regions rl ++ map region_of inputs)
    (RegionList._z_index rl ++ map input_z_index inputs)
    (mk_array (ncols (RegionList._edge_color rl))
       (rows (RegionList._edge_color rl) ++ map input_edge_color inputs))
    (mk_array (ncols (RegionList._face_color rl))
       (rows (RegionList._face_color rl) ++ map input_face_color inputs)).

(** The colour arrays of the data view have four columns. *)
Definition four_columns (s : Region.t) : Prop :=
  ncols (RegionList._edge_color (_data_view s)) = 4%nat /\
  ncols (RegionList._face_color (_data_view s)) = 4%nat.

End RegionInputs.

(** More stand-ins that can be run. *)
Module MoreSamples.

Import Region.

(** Helpers that check what they are given: every window must have two
    entries, anything else is a ValueError. *)
Definition checked_utils : RegionUtils := {|
  RawData := list (list Q);
  extract_region_orientation := fun data orientation =>
    if forallb (fun d : list Q => Nat.eqb (length d) 2) data
    then Returns (data, orientation)
    else Raises (ValueError "Region must have two values.");
  preprocess_region := fun d _ => mk_array (length d) [d]
|}.

Definition checked_add :=
  add (H := checked_utils) (H0 := SampleColors.sample_colors)
    (H1 := Samples.sample_dims).

End MoreSamples.

(** [move_to_front] and [move_to_back]. *)
Module RegionOrder.

Import Region.

(** [Layer.refresh()], of the host application. *)
Class LayerHost := {
  refresh : M Region.t unit
}.

(** [refresh] redraws the layer: it returns, and it leaves the data view
    alone. *)
Class LayerHostSpec (H : LayerHost) : Prop := {
  refresh_returns : forall s, fst (refresh s) = Returns tt;
  refresh_data_view : forall s, _data_view (snd (refresh s)) = _data_view s
}.

(** [max(l)] and [min(l)]: ValueError on an empty sequence. *)
Definition py_max (l : list Z) : outcome Z :=
  match l with
  | [] => Raises (ValueError "max() arg is an empty sequence")
  | x :: l' => Returns (fold_left Z.max l' x)
  end.

Definition py_min (l : list Z) : outcome Z :=
  match l with
  | [] => Raises (ValueError "min() arg is an empty sequence")
  | x :: l' => Returns (fold_left Z.min l' x)
  end.

(** [move_to_front()].  [order] is the order in which the loop meets the
    indices of the set [selected_data]. *)
Definition move_to_front `{LayerHost} (order : list nat) : M Region.t unit :=
  fun s =>
    if decide (size (_selected_data s) = 0%nat) then ret tt s
    else
      (m <~ (fun s => (py_max (RegionList._z_index (_data_view s)), s)) ;;
       let new_z_index := m + 1 in
       for_each order
         (fun index => on_data_view (RegionList.update_z_index index new_z_index)) ;;;
       refresh)%py s.

(** [move_to_back()] *)
Definition move_to_back `{LayerHost} (order : list nat) : M Region.t unit :=
  fun s =>
    if decide (size (_selected_data s) = 0%nat) then ret tt s
    else
      (m <~ (fun s => (py_min (RegionList._z_index (_data_view s)), s)) ;;
       let new_z_index := m - 1 in
       for_each order
         (fun index => on_data_view (RegionList.update_z_index index new_z_index)) ;;;
       refresh)%py s.

(** An order in which a loop can meet the selected indices: each of them
    once. *)
Definition iterates (order : list nat) (s : Region.t) : Prop :=
  order ≡ₚ elements (_selected_data s).

(** The selected indices are indices of regions. *)
Definition selection_in_range (s : Region.t) : Prop :=
  forall i, i ∈ _selected_data s -> (i < n_regions s)%nat.

(** The list [_z_index] of the data view holds the z-indices of its
    regions. *)
Definition z_index_in_step (s : Region.t) : Prop :=
  RegionList._z_index (_data_view s) = z_index s.

(** The z-indices after [z] is written at the places [order]. *)
Definition written (z : Z) (order : list nat) (l : list Z) : list Z :=
  foldl (fun l i => <[i := z]> l) l order.

(** A stand-in for the host's [refresh] that can be run. *)
Definition sample_layer_host : LayerHost := {|
  refresh := emit "set_data"
|}.

(** The layer of the examples with its second region selected. *)
Definition second_selected : Region.t :=
  Region.mk (_data_view Samples.two_regions) 1 [1; 0; 0; 1]%Q [1; 1; 1; 1]%Q
    SELECT (None, None) {[1%nat]} None None false
    (Some (ColorTuple [0; 0.6; 1; 1]%Q)) [].

(** The same with the first region selected. *)
Definition first_selected : Region.t :=
  Region.mk (_data_view Samples.two_regions) 1 [1; 0; 0; 1]%Q [1; 1; 1; 1]%Q
    SELECT (None, None) {[0%nat]} None None false
    (Some (ColorTuple [0; 0.6; 1; 1]%Q)) [].

End RegionOrder.

(** The [data] setter. *)
Module RegionData.

Import Region.

(** What the setter takes from code that is not among the sources:
    [extract_region_orientation(data)] called without an orientation (the
    orientations come back as [None] when the data names none),
    [get_default_region_type(orientation)], and the extracted windows seen
    as the [data] argument of [add] again.  The setter also calls
    [self._get_new_shape_color]: [Region] defines no attribute of that name
    (its method is [_get_new_region_color]), so the lookup finds what the
    host's [Layer], the base class, provides under that name, if
    anything. *)
Class DataHelpers `{RegionUtils} := {
  extract_without_orientation :
    RawData -> outcome (list (list Q) * option (list Orientation));
  get_default_region_type : list Orientation -> outcome Orientation;
  as_raw : list (list Q) -> RawData;
  inherited_get_new_shape_color :
    option (nat -> string -> Region.t -> outcome ndarray)
}.

(** [Layer._set_editable()], of the host application; the setter ends
    with it. *)
Class Editable := {
  _set_editable : M Region.t unit
}.


(** The [orientation] property: [self._data_view.orientations]. *)
Definition orientation (s : Region.t) : list Orientation :=
  map RegionList.orientation (RegionList.regions (_data_view s)).

(** The per-region attributes the setter collects for [add]. *)
Record attributes := mk_attributes {
  attr_orientation : list Orientation;
  attr_edge_widths : list Q;
  attr_z_indices : list Z;
  attr_edge_color : ndarray;
  attr_face_color : ndarray
}.

(** The [data] setter.  With more regions than the layer has, the colours
    of the new ones are asked of [self._get_new_shape_color]; where the
    base class has no such attribute either, the lookup raises
    AttributeError. *)
Definition set_data `{DataHelpers} `{ColorTransformations} `{Dims} `{Editable}
    (data : RawData) : M Region.t unit :=
  (extracted <~ lift (extract_without_orientation data) ;;
   let data := fst extracted in
   let n_new_regions := length data in
   orientation <~ match snd extracted with
                  | None => gets orientation
                  | Some o => ret o
                  end ;;
   edge_widths <~ gets edge_width ;;
   edge_color <~ gets (fun s => RegionList._edge_color (_data_view s)) ;;
   face_color <~ gets (fun s => RegionList._face_color (_data_view s)) ;;
   z_indices <~ gets z_index ;;
   n_regions <~ gets n_regions ;;
   attrs <~ (if decide (n_new_regions < n_regions)%nat then
               ret (mk_attributes
                      (take n_new_regions orientation)
                      (take n_new_regions edge_widths)
                      (take n_new_regions z_indices)
                      (slice_to n_new_regions edge_color)
                      (slice_to n_new_regions face_color))
             else if decide (n_regions < n_new_regions)%nat then
               let n_shapes_difference := (n_new_regions - n_regions)%nat in
               (default_type <~ lift (get_default_region_type orientation) ;;
                let orientation :=
                  orientation ++ replicate n_shapes_difference default_type in
                let edge_widths :=
                  edge_widths ++ replicate n_shapes_difference 1%Q in
                let z_indices := z_indices ++ replicate n_shapes_difference 0 in
                match inherited_get_new_shape_color with
                | None => raise AttributeError
                | Some _get_new_shape_color =>
                    (new_edge <~ (fun s =>
                       (_get_new_shape_color n_shapes_difference "edge" s, s)) ;;
                     edge_color <~ lift (concatenate edge_color new_edge) ;;
                     new_face <~ (fun s =>
                       (_get_new_shape_color n_shapes_difference "face" s, s)) ;;
                     face_color <~ lift (concatenate face_color new_face) ;;
                     ret (mk_attributes orientation edge_widths z_indices
                            edge_color face_color))
                end)
             else
               ret (mk_attributes orientation edge_widths z_indices
                      edge_color face_color)) ;;
   modify (with_data_view RegionList.new) ;;;
   add (as_raw data) (PyList (attr_orientation attrs))
     (Some (PyList (attr_edge_widths attrs)))
     (Some (ColorArray (attr_edge_color attrs)))
     (Some (ColorArray (attr_face_color attrs)))
     (Some (PyList (attr_z_indices attrs))) ;;;
   _update_dims ;;;
   emit "data" ;;;
   _set_editable)%py.

(** Helpers that can be run: the caller passes the list of windows, no
    orientations are named, the default region type is the first
    orientation present, VERTICAL on a layer without regions, and the base
    class has no [_get_new_shape_color]. *)
Definition sample_data_helpers : DataHelpers (H := Samples.sample_utils) :=
  Build_DataHelpers Samples.sample_utils
    (fun data : list (list Q) => Returns (data, None))
    (fun o => Returns (List.hd VERTICAL o))
    (fun data : list (list Q) => data)
    None.

(** A stand-in for the host's [_set_editable] that can be run. *)
Definition sample_editable : Editable := {|
  _set_editable := emit "editable"
|}.

Definition sample_set_data :=
  set_data (H := Samples.sample_utils) (H0 := sample_data_helpers)
    (H1 := SampleColors.sample_colors) (H2 := Samples.sample_dims)
    (H3 := sample_editable).

End RegionData.

(** The [current_edge_width] setter. *)
Module RegionCurrent.

Import Region.

(** The setter reads [self._update_properties], which [Region] never
    assigns: the attribute is what the host's [Layer], the base class,
    provides under that name, if anything. *)
Class LayerAttributes := {
  inherited_update_properties : option bool
}.

Definition with_current_edge_width (w : Q) (s : Region.t) : Region.t :=
  Region.mk (_data_view s) w (_current_edge_color s)
    (_current_face_color s) (_mode s) (_value s) (_selected_data s)
    (_selected_box s) (_drag_box s) (_is_selecting s) (_highlight_color s)
    (events s).

(** The [current_edge_width] setter; [order] is the order in which the
    loop meets the indices of the set [selected_data]. *)
Definition set_current_edge_width `{LayerAttributes} (order : list nat)
    (edge_width : Q) : M Region.t unit :=
  (modify (with_current_edge_width edge_width) ;;;
   update_properties <~ lift (match inherited_update_properties with
                              | None => Raises AttributeError
                              | Some b => Returns b
                              end) ;;
   (if update_properties : bool then
      for_each order
        (fun i => on_data_view (RegionList.update_edge_width i edge_width))
    else ret tt) ;;;
   emit "edge_width")%py.

Definition updating : LayerAttributes := {|
  inherited_update_properties := Some true
|}.

Definition not_updating : LayerAttributes := {|
  inherited_update_properties := Some false
|}.

Definition without_attribute : LayerAttributes := {|
  inherited_update_properties := None
|}.

End RegionCurrent.

(** * More of the code: the reload widget

    [QtReload._reload] and the loops over the watched paths, of
    src/napari_plot/_qt/widgets/qt_dev.py. *)

Module QtReload.

Import PyStr.
Import QtDev.

(** [xreload(importlib.import_module(module))]: the import machinery and
    the vendored reloader; what comes back is the value [xreload] returns,
    or the exception one of the two raises. *)
Class ReloadHost := {
  Result : Type;
  reload_module : str -> outcome Result
}.

(** The texts the widget shows and prints, by their parts. *)
Inductive message `{ReloadHost} :=
| Added (n : nat)
| Changed (module : str) (res : Result)
| Failed (path module : str) (e : exn).

(** The text of the label [_info] and what has been printed so far. *)
Record t `{ReloadHost} := mk {
  _info : message;
  printed : list message
}.
Arguments mk {H} _info printed.
Arguments _info {H} t.
Arguments printed {H} t.

(** [_reload(path)]: the module name is computed outside the [try], and
    [except Exception] catches what derives from [Exception]; SystemExit
    and KeyboardInterrupt pass through it. *)
Definition _reload `{ReloadHost} (path : str) : M t unit :=
  (module <~ lift (path_to_module path) ;;
   fun s =>
     match reload_module module with
     | Returns res =>
         (Returns tt,
          mk (Changed module res) (printed s ++ [Changed module res]))
     | Raises e =>
         if is_exception e then
           (Returns tt, mk (_info s) (printed s ++ [Failed path module e]))
         else (Raises e, s)
     end)%py.

(** Importing and reloading the module of [path] raises nothing but
    what derives from [Exception]. *)
Definition raises_exceptions_only `{ReloadHost} (path : str) : Prop :=
  forall module e,
    path_to_module path = Returns module ->
    reload_module module = Raises e ->
    is_exception e = true.

(** [reload()] and [on_reload_directory(path)], for the paths that
    [_get_paths] returns. *)
Definition reload `{ReloadHost} (paths : list str) : M t unit :=
  for_each paths _reload.

(** A stand-in that can be run: the module [napari_plot.layers.region]
    reloads, with changes; every other import fails. *)
Definition sample_reload_host : ReloadHost := {|
  Result := bool;
  reload_module := fun module =>
    if decide (module = lit "napari_plot.layers.region") then Returns true
    else Raises (ValueError "No module of that name")
|}.

Definition watching : t (H := sample_reload_host) :=
  mk (H := sample_reload_host) (Added 2) [].

(** A stand-in where every import is interrupted from the keyboard. *)
Definition interrupted_reload_host : ReloadHost := {|
  Result := bool;
  reload_module := fun _ => Raises KeyboardInterrupt
|}.

Definition interrupted : t (H := interrupted_reload_host) :=
  mk (H := interrupted_reload_host) (Added 2) [].

Definition region_path : str :=
  module_path (lit "C:" ++ [backslash]) [lit "layers"; lit "region"].

Definition other_path : str :=
  module_path (lit "C:" ++ [backslash]) [lit "layers"; lit "other"].

Definition forward_slash_path : str := lit "/src/napari_plot/layers/region.py".

End QtReload.

(** [_finish_drawing]. *)
Module RegionDrawing.

Import Region.

(** The layer together with the attributes that only the drawing code
    writes. *)
Record t := mk {
  layer : Region.t;
  _is_moving : bool;
  _drag_start : option (list Q);
  _moving_value : option nat * option nat
}.

(** [Layer._update_dims()], of the host application. *)
Class DimsHost := {
  _update_dims : M t unit
}.

(** [_update_dims] returns, and it leaves the selection and the drag
    state of the layer alone. *)
Class DimsHostSpec (H : DimsHost) : Prop := {
  update_dims_returns : forall s, fst (_update_dims s) = Returns tt;
  update_dims_selected_data : forall s,
    _selected_data (layer (snd (_update_dims s))) = _selected_data (layer s);
  update_dims_is_selecting : forall s,
    _is_selecting (layer (snd (_update_dims s))) = _is_selecting (layer s)
}.

(** The layer after the assignments of [_finish_drawing]. *)
Definition drawing_reset (s : Region.t) : Region.t :=
  Region.mk (_data_view s) (_current_edge_width s) (_current_edge_color s)
    (_current_face_color s) (_mode s) (None, None) ∅
    (_selected_box s) None false (_highlight_color s) (events s).

(** [_finish_drawing(event=None)] *)
Definition _finish_drawing `{DimsHost} : M t unit :=
  (modify (fun s => mk (drawing_reset (layer s)) false None (None, None)) ;;;
   _update_dims)%py.

(** A stand-in for the host's [_update_dims] that can be run: it
    announces the data. *)
Definition sample_dims_host : DimsHost := {|
  _update_dims := fun s =>
    (Returns tt,
     mk (snd (emit "set_data" (layer s)))
        (_is_moving s) (_drag_start s) (_moving_value s))
|}.

(** A region selected in SELECT mode while its interaction box is still
    [None], in the middle of a move. *)
Definition moving_selection : t :=
  mk Samples.selected_without_box true (Some [10; 20]%Q) (Some 0%nat, None).

End RegionDrawing.

(** [_init_regions] and [block_thumbnail_update]. *)
Module RegionInit.

Import Region.

(** The layer together with the flag that blocks thumbnail updates. *)
Record t := mk {
  layer : Region.t;
  _allow_thumbnail_update : bool
}.

(** Run a method that only works on the attributes of [Region.t]. *)
Definition on_layer {A} (m : M Region.t A) : M t A :=
  fun s =>
    match m (layer s) with
    | (o, l) => (o, mk l (_allow_thumbnail_update s))
    end.

Definition set_allow_thumbnail_update (b : bool) : M t unit :=
  modify (fun s => mk (layer s) b).

(** [with self.block_thumbnail_update(): body].  The generator has no
    [try]/[finally]: when the body raises, the statement after [yield] is
    not run and the exception goes on. *)
Definition block_thumbnail_update {A} (body : M t A) : M t A :=
  (set_allow_thumbnail_update false ;;;
   r <~ body ;;
   set_allow_thumbnail_update true ;;;
   ret r)%py.

(** [_init_regions(data, orientation=, edge_width=, edge_color=,
    face_color=, z_index=)], for the colours the constructor passes.
    [_update_z_order] of the data view only orders the mesh. *)
Definition _init_regions `{RegionUtils} `{ColorTransformations} `{Dims}
    (data : list (list Q)) (orientation : scalar_or_list Orientation)
    (edge_width : option (scalar_or_list Q))
    (edge_color face_color : ColorInput)
    (z_index : option (scalar_or_list Z)) : M t unit :=
  let n_regions := length data in
  let edge_color := Region_color._initialize_color edge_color "edge" n_regions in
  let face_color := Region_color._initialize_color face_color "face" n_regions in
  block_thumbnail_update
    (on_layer
       (_add_regions data orientation edge_width
          (Some (ColorArray edge_color)) (Some (ColorArray face_color))
          z_index)).

(** The layer right before the constructor calls [_init_regions]: no
    regions yet, thumbnail updates allowed. *)
Definition before_init_regions : t := mk Samples.empty_layer true.

Definition sample_init_regions :=
  _init_regions (H := Samples.sample_utils) (H0 := SampleColors.sample_colors)
    (H1 := Samples.sample_dims).

End RegionInit.

(** * Properties *)

Ltac py_unfold :=
  unfold Py.bind, Py.ret, Py.raise, Py.gets, Py.get, Py.put, Py.modify, Py.lift.

(** ** Region: the [edge_width] and [z_index] setters *)

Module RegionSetters.

Import Region.
Import Samples.

Example two_regions_scalar_width :
  edge_width (snd (set_edge_width (Scalar 5%Q) two_regions)) = [5; 5]%Q.
Proof. reflexivity. Qed.

Example two_regions_list_z :
  z_index (snd (set_z_index (PyList [7; 8]) two_regions)) = [7; 8].
Proof. reflexivity. Qed.

Lemma n_regions_edge_width s : length (edge_width s) = n_regions s.
Proof. unfold edge_width, RegionList.edge_widths, n_regions. apply length_map. Qed.

Lemma n_regions_z_index s : length (z_index s) = n_regions s.
Proof. unfold z_index, RegionList.z_indices, n_regions. apply length_map. Qed.

(** One pass of the loop of the [edge_width] setter over the widths that
    are left, starting at region [k]. *)
Lemma edge_width_loop (l : list Q) : forall (k : nat) (s : Region.t),
  (k + length l = n_regions s)%nat ->
  exists s',
    for_each (enumerate_from k l)
      (fun '(i, width) => on_data_view (RegionList.update_edge_width i width)) s
    = (Returns tt, s') /\
    n_regions s' = n_regions s /\
    edge_width s' = take k (edge_width s) ++ l /\
    z_index s' = z_index s.
Proof.
  induction l as [|w l IH]; intros k s Hk; simpl in *.
  - exists s. rewrite app_nil_r, take_ge by (rewrite n_regions_edge_width; lia).
    auto.
  - unfold Py.bind, on_data_view, RegionList.update_edge_width at 1.
    destruct (RegionList.regions (_data_view s) !! k) as [r|] eqn:Hr.
    2:{ apply lookup_ge_None in Hr. unfold n_regions in Hk. lia. }
    set (s1 := with_data_view _ s).
    assert (Hn1 : n_regions s1 = n_regions s).
    { unfold s1, n_regions; simpl. apply length_insert. }
    assert (Hw1 : edge_width s1 = <[k := w]> (edge_width s)).
    { unfold s1, edge_width, RegionList.edge_widths; simpl.
      rewrite list_fmap_insert. reflexivity. }
    assert (Hz1 : z_index s1 = z_index s).
    { unfold s1, z_index, RegionList.z_indices; simpl.
      rewrite list_fmap_insert; simpl.
      apply list_insert_id. rewrite list_lookup_fmap, Hr. reflexivity. }
    destruct (IH (S k) s1) as (s' & Hrun & Hn & Hw & Hz); [lia|].
    exists s'. split; [exact Hrun|]. split; [congruence|]. split; [|congruence].
    rewrite Hw, Hw1.
    assert (Hlt : (k < length (edge_width s))%nat)
      by (rewrite n_regions_edge_width; lia).
    rewrite (take_S_r _ _ w) by (apply list_lookup_insert_eq; exact Hlt).
    rewrite take_insert_ge by lia.
    rewrite <- app_assoc. reflexivity.
Qed.

(** The same for the loop of the [z_index] setter. *)
Lemma z_index_loop (l : list Z) : forall (k : nat) (s : Region.t),
  (k + length l = n_regions s)%nat ->
  exists s',
    for_each (enumerate_from k l)
      (fun '(i, z_idx) => on_data_view (RegionList.update_z_index i z_idx)) s
    = (Returns tt, s') /\
    n_regions s' = n_regions s /\
    z_index s' = take k (z_index s) ++ l /\
    edge_width s' = edge_width s.
Proof.
  induction l as [|z l IH]; intros k s Hk; simpl in *.
  - exists s. rewrite app_nil_r, take_ge by (rewrite n_regions_z_index; lia).
    auto.
  - unfold Py.bind, on_data_view, RegionList.update_z_index at 1.
    destruct (RegionList.regions (_data_view s) !! k) as [r|] eqn:Hr.
    2:{ apply lookup_ge_None in Hr. unfold n_regions in Hk. lia. }
    set (s1 := with_data_view _ s).
    assert (Hn1 : n_regions s1 = n_regions s).
    { unfold s1, n_regions; simpl. apply length_insert. }
    assert (Hz1 : z_index s1 = <[k := z]> (z_index s)).
    { unfold s1, z_index, RegionList.z_indices; simpl.
      rewrite list_fmap_insert. reflexivity. }
    assert (Hw1 : edge_width s1 = edge_width s).
    { unfold s1, edge_width, RegionList.edge_widths; simpl.
      rewrite list_fmap_insert; simpl.
      apply list_insert_id. rewrite list_lookup_fmap, Hr. reflexivity. }
    destruct (IH (S k) s1) as (s' & Hrun & Hn & Hz & Hw); [lia|].
    exists s'. split; [exact Hrun|]. split; [congruence|]. split; [|congruence].
    rewrite Hz, Hz1.
    assert (Hlt : (k < length (z_index s))%nat)
      by (rewrite n_regions_z_index; lia).
    rewrite (take_S_r _ _ z) by (apply list_lookup_insert_eq; exact Hlt).
    rewrite take_insert_ge by lia.
    rewrite <- app_assoc. reflexivity.
Qed.

(** C1.  A list whose length differs from the number of regions, assigned
    to [edge_width] or to [z_index], raises ValueError, and the layer is
    left exactly as it was: the length is checked before the first
    region is updated, so no edge width and no z-index changes. *)
Theorem list_length_mismatch_raises (s : Region.t) :
  (forall ws : list Q,
     length ws <> n_regions s ->
     set_edge_width (PyList ws) s
     = (Raises (ValueError "Length of list does not match number of orientations."), s)) /\
  (forall zs : list Z,
     length zs <> n_regions s ->
     set_z_index (PyList zs) s
     = (Raises (ValueError "Length of list does not match number of orientations."), s)).
Proof.
  split; intros l Hl.
  - unfold set_edge_width, Py.bind.
    destruct (Nat.eqb_spec (length l) (n_regions s)) as [E|E]; [contradiction|].
    reflexivity.
  - unfold set_z_index, Py.bind.
    destruct (Nat.eqb_spec (length l) (n_regions s)) as [E|E]; [contradiction|].
    reflexivity.
Qed.

Lemma list_length_mismatch_raises_witness :
  (length [5%Q] <> n_regions two_regions /\
   edge_width (snd (set_edge_width (PyList [5%Q]) two_regions)) = [1; 2]%Q) /\
  (length [7; 8; 9] <> n_regions two_regions /\
   z_index (snd (set_z_index (PyList [7; 8; 9]) two_regions)) = [0; 3]).
Proof.
  destruct (list_length_mismatch_raises two_regions) as [Hw Hz].
  split; split.
  - vm_compute. lia.
  - rewrite (Hw [5%Q]); [reflexivity | vm_compute; lia].
  - vm_compute. lia.
  - rewrite (Hz [7; 8; 9]); [reflexivity | vm_compute; lia].
Defined.

(** C8.  Assigning a scalar [w] to [edge_width] does exactly what
    assigning the list of [n_regions] copies of [w] does; the assignment
    returns, and afterwards every region's edge width is [w]. *)
Theorem scalar_edge_width_is_repeated_list (s : Region.t) (w : Q) :
  set_edge_width (Scalar w) s
  = set_edge_width (PyList (replicate (n_regions s) w)) s /\
  fst (set_edge_width (Scalar w) s) = Returns tt /\
  edge_width (snd (set_edge_width (Scalar w) s)) = replicate (n_regions s) w /\
  n_regions (snd (set_edge_width (Scalar w) s)) = n_regions s.
Proof.
  assert (Heq : set_edge_width (Scalar w) s
                = set_edge_width (PyList (replicate (n_regions s) w)) s).
  { unfold set_edge_width, Py.bind.
    rewrite length_replicate, Nat.eqb_refl. reflexivity. }
  split; [exact Heq|].
  unfold set_edge_width, Py.bind, Py.ret, enumerate.
  destruct (edge_width_loop (replicate (n_regions s) w) 0 s)
    as (s' & Hrun & Hn & Hw & _).
  { rewrite length_replicate. lia. }
  rewrite Hrun. simpl. rewrite Hw. auto.
Qed.

End RegionSetters.

(** ** Colour initialisation *)

Module ColorInit.

Lemma replicate_rgba (n : nat) (r : list Q) :
  rgba_row r -> rgba_array (mk_array 4 (replicate n r)).
Proof.
  intros Hr. split; [reflexivity|]. simpl.
  apply Forall_forall. intros x Hx.
  apply elem_of_replicate in Hx as [-> _]. exact Hr.
Qed.

Lemma array_eta (a : ndarray) : a = mk_array (ncols a) (rows a).
Proof. destruct a; reflexivity. Qed.

(** The two host calls in sequence, for [n > 0] entries: exactly [n]
    RGBA rows come back, and colours that parsed to a single row are that
    row [n] times. *)
Lemma broadcast_transformed `{H : ColorTransformations}
    (Hspec : ColorTransformationsSpec H)
    (n : nat) (c : ColorInput) (elem dflt : string) :
  let t := transform_color_with_defaults n c elem dflt in
  let a := normalize_and_broadcast_colors n t in
  nrows a = n /\ rgba_array a /\
  (forall r, rows t = [r] -> a = mk_array 4 (replicate n r)).
Proof.
  intros t a.
  pose proof (transform_rgba n c elem dflt) as Hrgba. fold t in Hrgba.
  pose proof (transform_rows n c elem dflt) as Hrows. fold t in Hrows.
  assert (Hsame : nrows t = n ->
            nrows a = n /\ rgba_array a /\
            (forall r, rows t = [r] -> a = mk_array 4 (replicate n r))).
  { intros Hn. unfold a. rewrite (broadcast_same n t Hn).
    split; [exact Hn|]. split; [exact Hrgba|].
    intros r Hr. unfold nrows in Hn. rewrite Hr in Hn. simpl in Hn. subst n.
    rewrite (array_eta t), Hr. destruct Hrgba as [-> _]. reflexivity. }
  destruct Hrows as [H1|Hn]; [|exact (Hsame Hn)].
  destruct (decide (n = 1%nat)) as [->|Hne]; [exact (Hsame H1)|].
  unfold nrows in H1.
  destruct (rows t) as [|r [|r' rs]] eqn:Hr; simpl in H1; try discriminate.
  assert (Hrow : rgba_row r).
  { destruct Hrgba as [_ Hall]. rewrite Hr in Hall.
    apply Forall_cons in Hall as [Hrow _]. exact Hrow. }
  assert (Ha : a = mk_array 4 (replicate n r)).
  { unfold a. rewrite (broadcast_one n t r Hr Hne).
    destruct Hrow as [-> _]. reflexivity. }
  rewrite Ha. split; [apply length_replicate|].
  split; [apply replicate_rgba; exact Hrow|].
  intros r0 Hr0. inversion Hr0; subst. reflexivity.
Qed.

(** The stand-in host functions meet the contract. *)
Section Sample.

Import SampleColors.

Lemma channel_ok_spec (x : Q) :
  channel_ok x = true <-> (0 <= x)%Q /\ (x <= 1)%Q.
Proof.
  unfold channel_ok. rewrite !Qle_alt.
  destruct (0 ?= x)%Q, (x ?= 1)%Q; split;
    try (intros _; split; discriminate);
    try discriminate; try reflexivity;
    intros [A B]; congruence.
Qed.

Lemma rgba_row_b_spec (r : list Q) : rgba_row_b r = true <-> rgba_row r.
Proof.
  unfold rgba_row_b, rgba_row.
  rewrite andb_true_iff, Nat.eqb_eq, forallb_forall, Forall_forall.
  split; intros [A B]; (split; [exact A|]); intros x Hx.
  - apply channel_ok_spec, B, list_elem_of_In, Hx.
  - apply channel_ok_spec, B, list_elem_of_In, Hx.
Qed.

Lemma rgba_array_b_spec (a : ndarray) : rgba_array_b a = true <-> rgba_array a.
Proof.
  unfold rgba_array_b, rgba_array.
  rewrite andb_true_iff, Nat.eqb_eq, forallb_forall, Forall_forall.
  split; intros [A B]; (split; [exact A|]); intros x Hx.
  - apply rgba_row_b_spec, B, list_elem_of_In, Hx.
  - apply rgba_row_b_spec, B, list_elem_of_In, Hx.
Qed.

Lemma one_row_rgba (r : list Q) : rgba_row r -> rgba_array (mk_array 4 [r]).
Proof. apply (replicate_rgba 1). Qed.

Lemma named_rgba (s : string) (r : list Q) : named s = Some r -> rgba_row r.
Proof.
  unfold named. repeat case_decide; intros E; inversion E; subst;
    apply rgba_row_b_spec; reflexivity.
Qed.

Lemma transform_color_rgba (c : ColorInput) (a : ndarray) :
  transform_color c = Some a -> rgba_array a.
Proof.
  destruct c as [s|r|b]; simpl.
  - destruct (named s) as [r|] eqn:E; intros Ha; inversion Ha; subst.
    apply one_row_rgba, (named_rgba s), E.
  - destruct (rgba_row_b r) eqn:E; intros Ha; inversion Ha; subst.
    apply one_row_rgba, rgba_row_b_spec, E.
  - destruct (rgba_array_b b) eqn:E; intros Ha; inversion Ha; subst.
    apply rgba_array_b_spec, E.
Qed.

Lemma fallback_rgba (dflt : string) :
  let d := default white (transform_color (ColorName dflt)) in
  rgba_array d /\ nrows d = 1%nat.
Proof.
  simpl. destruct (named dflt) as [r|] eqn:E; simpl.
  - split; [apply one_row_rgba, (named_rgba dflt), E | reflexivity].
  - split; [apply one_row_rgba, rgba_row_b_spec; reflexivity | reflexivity].
Qed.

Lemma sample_colors_spec : ColorTransformationsSpec sample_colors.
Proof.
  split; simpl.
  - intros n c elem dflt. unfold transform_with_defaults.
    destruct (transform_color c) as [a|] eqn:E; [|apply fallback_rgba].
    destruct (_ || _); [apply (transform_color_rgba c), E | apply fallback_rgba].
  - intros n c elem dflt. unfold transform_with_defaults.
    destruct (transform_color c) as [a|] eqn:E; [|left; apply fallback_rgba].
    destruct (_ || _) eqn:B; [|left; apply fallback_rgba].
    apply orb_true_iff in B as [B|B]; apply Nat.eqb_eq in B; auto.
  - intros n r elem dflt Hr. unfold transform_with_defaults. simpl.
    apply rgba_row_b_spec in Hr. rewrite Hr. reflexivity.
  - intros n a elem dflt Ha Hn. unfold transform_with_defaults. simpl.
    apply rgba_array_b_spec in Ha. rewrite Ha.
    destruct Hn as [->| ->]; [reflexivity|].
    rewrite Nat.eqb_refl, orb_true_r. reflexivity.
  - intros n a Hn. unfold normalize_and_broadcast.
    rewrite Hn, Nat.eqb_refl. reflexivity.
  - intros n a r Hr Hn. unfold normalize_and_broadcast, nrows.
    rewrite Hr. change (length [r]) with 1%nat.
    destruct (Nat.eqb_spec 1 n) as [E|E]; [congruence | reflexivity].
Qed.

End Sample.

Example red_for_three_regions :
  Region_color._initialize_color
    (H := SampleColors.sample_colors) (ColorName "red") "edge" 3
  = mk_array 4 [[1; 0; 0; 1]; [1; 0; 0; 1]; [1; 0; 0; 1]]%Q.
Proof. reflexivity. Qed.

(** C3.  With zero items [_initialize_color], of [Region] and of
    [Centroids], returns the empty array of shape (0, 4); with [n > 0]
    items it returns exactly [n] RGBA rows, and a single input colour
    (an RGBA tuple, or whatever the host parses to one row) comes back as
    that colour on each of the [n] rows. *)
Theorem initialize_color_shape `{H : ColorTransformations}
    (Hspec : ColorTransformationsSpec H)
    (color : ColorInput) (attribute : string) (n : nat) :
  (Region_color._initialize_color color attribute 0 = empty0 4 /\
   shape (Region_color._initialize_color color attribute 0) = (0%nat, 4%nat) /\
   Centroids_color._initialize_color color 0 = empty0 4 /\
   shape (Centroids_color._initialize_color color 0) = (0%nat, 4%nat)) /\
  ((0 < n)%nat ->
   let region_colors := Region_color._initialize_color color attribute n in
   let centroid_colors := Centroids_color._initialize_color color n in
   (shape region_colors = (n, 4%nat) /\ rgba_array region_colors /\
    shape centroid_colors = (n, 4%nat) /\ rgba_array centroid_colors) /\
   (forall r, color = ColorTuple r -> rgba_row r ->
      region_colors = mk_array 4 (replicate n r) /\
      centroid_colors = mk_array 4 (replicate n r)) /\
   (forall r,
      rows (transform_color_with_defaults n color "face_color" "white") = [r] ->
      region_colors = mk_array 4 (replicate n r)) /\
   (forall r,
      rows (transform_color_with_defaults n color "color" "white") = [r] ->
      centroid_colors = mk_array 4 (replicate n r))).
Proof.
  split; [repeat split|].
  intros Hn region_colors centroid_colors.
  unfold region_colors, centroid_colors,
    Region_color._initialize_color, Centroids_color._initialize_color.
  destruct (decide (0 < n)%nat) as [_|]; [|contradiction].
  destruct (broadcast_transformed Hspec n color "face_color" "white")
    as (Rn & Rrgba & Rone).
  destruct (broadcast_transformed Hspec n color "color" "white")
    as (Cn & Crgba & Cone).
  unfold shape.
  split; [|split; [|split; [exact Rone | exact Cone]]].
  - rewrite Rn, Cn, (proj1 Rrgba), (proj1 Crgba). auto.
  - intros r -> Hr. split.
    + apply Rone. rewrite (transform_tuple n r _ _ Hr). reflexivity.
    + apply Cone. rewrite (transform_tuple n r _ _ Hr). reflexivity.
Qed.

Lemma initialize_color_shape_witness :
  (0 < 3)%nat /\
  shape (Region_color._initialize_color
           (H := SampleColors.sample_colors) (ColorTuple [1; 0; 0; 1]%Q) "edge" 3)
  = (3%nat, 4%nat).
Proof.
  split; [lia|].
  apply (initialize_color_shape sample_colors_spec
           (ColorTuple [1; 0; 0; 1]%Q) "edge" 3).
  lia.
Defined.

End ColorInit.

(** ** Region: z-indices of added regions *)

Module RegionAdd.

Import Region.
Import RegionInputs.
Import Samples.

Example add_to_empty_layer :
  z_index (snd (sample_add [[10; 20]; [30; 40]]%Q (Scalar VERTICAL)
                  None None None None empty_layer)) = [0; 0].
Proof. reflexivity. Qed.

Example add_after_z_index_3 :
  z_index (snd (sample_add [[10; 20]]%Q (Scalar VERTICAL)
                  None None None None two_regions)) = [0; 3; 4].
Proof. reflexivity. Qed.

Example add_with_z_index_7 :
  z_index (snd (sample_add [[10; 20]]%Q (Scalar VERTICAL)
                  None None None (Some (Scalar 7)) two_regions))
  = [0; 3; 7].
Proof. reflexivity. Qed.

Lemma region_of_z_index `{RegionUtils} d ot ew ec fc z :
  RegionList.z_index (region_of (d, ot, ew, ec, fc, z)) = z.
Proof. reflexivity. Qed.

(** The loop of [_add_regions_to_view] appends the regions of the inputs
    it gets through, in order (all of them when it returns). *)
Lemma add_regions_to_view_appends `{RegionUtils} (inputs : list region_input) :
  forall rl : RegionList.t,
  exists j o rl',
    _add_regions_to_view inputs rl = (o, rl') /\
    RegionList.regions rl' = RegionList.regions rl ++ map region_of (take j inputs) /\
    (o = Returns tt -> j = length inputs).
Proof.
  unfold _add_regions_to_view.
  induction inputs as [|[[[[[d ot] ew] ec] fc] z] inputs IH]; intros rl; simpl.
  - exists 0%nat, (Returns tt), rl. rewrite app_nil_r. auto.
  - unfold Py.bind. unfold RegionList.add at 1.
    destruct (concatenate (RegionList._edge_color rl) _) as [ecs|e].
    2:{ exists 0%nat, (Raises e), rl. simpl. rewrite app_nil_r.
        repeat split. discriminate. }
    destruct (concatenate (RegionList._face_color rl) _) as [fcs|e].
    2:{ exists 0%nat, (Raises e), rl. simpl. rewrite app_nil_r.
        repeat split. discriminate. }
    match goal with |- context [for_each inputs ?b ?rl1] =>
      destruct (IH rl1) as (j & o & rl' & Hrun & Hj & Hret) end.
    exists (S j), o, rl'. split; [exact Hrun|]. split.
    + rewrite Hj. simpl. rewrite <- app_assoc. reflexivity.
    + intros Hr. simpl. f_equal. exact (Hret Hr).
Qed.

(** With a scalar z-index every zipped input carries that z-index. *)
Lemma zip_inputs_scalar_z (data : list (list Q)) : forall i ot ew ec fc z,
  Forall (fun inp => snd inp = z) (zip_inputs i data ot ew ec fc (Scalar z)).
Proof.
  induction data as [|d data IH]; intros i ot ew ec fc z; simpl.
  - constructor.
  - destruct (item ot i), (item ew i), (rows ec !! i), (rows fc !! i);
      try constructor; [reflexivity | apply IH].
Qed.

Lemma next_z_index_empty (s : Region.t) :
  RegionList._z_index (_data_view s) = [] -> next_z_index s = 0.
Proof. unfold next_z_index. intros ->. reflexivity. Qed.

Lemma fold_max_ge (l : list Z) : forall a, a <= fold_left Z.max l a.
Proof.
  induction l as [|x l IH]; intros a; simpl; [lia|].
  specialize (IH (Z.max a x)). lia.
Qed.

Lemma fold_max_elem (l : list Z) : forall a x, x ∈ l -> x <= fold_left Z.max l a.
Proof.
  induction l as [|y l IH]; intros a x Hx; simpl.
  - inversion Hx.
  - apply elem_of_cons in Hx as [->|Hx].
    + pose proof (fold_max_ge l (Z.max a y)). lia.
    + apply IH, Hx.
Qed.

Lemma fold_max_in (l : list Z) : forall a,
  fold_left Z.max l a = a \/ fold_left Z.max l a ∈ l.
Proof.
  induction l as [|y l IH]; intros a; simpl; [auto|].
  destruct (IH (Z.max a y)) as [E|E].
  - rewrite E. destruct (Z.max_spec a y) as [[_ ->]|[_ ->]]; [right; left|auto].
  - right. right. exact E.
Qed.

(** [max_default l d] is the greatest element of a non-empty [l]. *)
Lemma max_default_is_max (l : list Z) (d : Z) :
  l <> [] ->
  max_default l d ∈ l /\ (forall x, x ∈ l -> x <= max_default l d).
Proof.
  destruct l as [|a l]; [congruence|]. intros _. simpl. split.
  - destruct (fold_max_in l a) as [->|E]; [left | right; exact E].
  - intros x Hx. apply elem_of_cons in Hx as [->|Hx].
    + apply fold_max_ge.
    + apply fold_max_elem, Hx.
Qed.

(** Once [add] has chosen the z-index, [_add_regions] chooses the same. *)
Lemma z_index_or_again (z : option (scalar_or_list Z)) (dflt : Z) :
  z_index_or (Some (z_index_or z dflt)) dflt = z_index_or z dflt.
Proof.
  assert (Hd : z_index_or (Some (Scalar dflt)) dflt = Scalar dflt).
  { simpl. destruct (Z.eqb_spec dflt 0); reflexivity. }
  destruct z as [[v|[|x l]]|]; simpl; try exact Hd; try reflexivity.
  destruct (Z.eqb_spec v 0) as [E|E]; [exact Hd|].
  simpl. destruct (Z.eqb_spec v 0); [contradiction | reflexivity].
Qed.

Lemma item_covers {A} (x : scalar_or_list A) (k i : nat) :
  covers x k -> (i < k)%nat -> is_Some (item x i).
Proof.
  destruct x as [a|l]; simpl; intros Hc Hi; [eauto|].
  apply lookup_lt_is_Some. lia.
Qed.

(** When no input runs out, the zip has one tuple per region, with colour
    rows taken from the two colour arrays. *)
Lemma zip_inputs_all (data : list (list Q)) : forall i ot ew ec fc z,
  covers ot (i + length data) -> covers ew (i + length data) ->
  (i + length data <= nrows ec)%nat -> (i + length data <= nrows fc)%nat ->
  covers z (i + length data) ->
  length (zip_inputs i data ot ew ec fc z) = length data /\
  Forall (fun inp => input_edge_color inp ∈ rows ec /\
                     input_face_color inp ∈ rows fc)
    (zip_inputs i data ot ew ec fc z).
Proof.
  induction data as [|d data IH]; intros i ot ew ec fc z Hot Hew Hec Hfc Hz;
    simpl in *.
  - split; [reflexivity | constructor].
  - destruct (item_covers ot _ i Hot) as [o Ho]; [lia|].
    destruct (item_covers ew _ i Hew) as [w Hw]; [lia|].
    destruct (item_covers z _ i Hz) as [zi Hzi]; [lia|].
    destruct (lookup_lt_is_Some_2 (rows ec) i) as [e He]; [unfold nrows in Hec; lia|].
    destruct (lookup_lt_is_Some_2 (rows fc) i) as [f Hf]; [unfold nrows in Hfc; lia|].
    rewrite Ho, Hw, Hzi, He, Hf.
    destruct (IH (S i) ot ew ec fc z) as [Hlen Hall];
      try (replace (S i + length data)%nat with (i + S (length data))%nat by lia;
           assumption).
    split; [simpl; f_equal; exact Hlen|].
    constructor; [|exact Hall].
    split; [apply (list_elem_of_lookup_2 _ i), He | apply (list_elem_of_lookup_2 _ i), Hf].
Qed.

(** On colour arrays of four columns, with colour rows of four entries,
    the loop of [_add_regions_to_view] gets through all its inputs. *)
Lemma add_regions_to_view_returns `{RegionUtils} (inputs : list region_input) :
  forall rl : RegionList.t,
  ncols (RegionList._edge_color rl) = 4%nat ->
  ncols (RegionList._face_color rl) = 4%nat ->
  Forall (fun inp => length (input_edge_color inp) = 4%nat /\
                     length (input_face_color inp) = 4%nat) inputs ->
  exists rl',
    _add_regions_to_view inputs rl = (Returns tt, rl') /\
    RegionList.regions rl' = RegionList.regions rl ++ map region_of inputs.
Proof.
  unfold _add_regions_to_view.
  induction inputs as [|[[[[[d ot] ew] ec] fc] z] inputs IH];
    intros rl Hec Hfc Hall; simpl.
  - exists rl. rewrite app_nil_r. auto.
  - apply Forall_cons in Hall as [[He Hf] Hall].
    unfold input_edge_color, input_face_color in He, Hf. simpl in He, Hf.
    unfold Py.bind. unfold RegionList.add at 1. unfold concatenate. simpl.
    rewrite He, Hf, Hec, Hfc. simpl.
    match goal with |- context [for_each inputs ?b ?rl1] =>
      destruct (IH rl1) as (rl' & Hrun & Hreg) end; try reflexivity; [exact Hall|].
    exists rl'. split; [exact Hrun|].
    rewrite Hreg. simpl. rewrite <- app_assoc. reflexivity.
Qed.

(** [_update_dims] and the [data] event, one after the other: the run
    returns, the data view is as before, and the events end with [data]. *)
Lemma update_dims_then_data `{HD : Dims} (DS : DimsSpec HD) (s : Region.t) :
  exists (s' : Region.t) (emitted : list string),
    Py.bind _update_dims (fun _ => emit "data") s = (Returns tt, s') /\
    _data_view s' = _data_view s /\
    events s' = events s ++ emitted ++ ["data"].
Proof.
  pose proof (dims_returns s) as Hret.
  pose proof (dims_data_view s) as Hdv.
  destruct (dims_events s) as [emitted Hev].
  unfold Py.bind. destruct (_update_dims s) as [o s1]. simpl in *. subst o.
  eexists. exists emitted. split; [reflexivity|]. simpl.
  split; [exact Hdv|]. rewrite Hev, <- app_assoc. reflexivity.
Qed.

(** The stand-in for [_update_dims], which records a [set_data] event,
    meets the contract. *)
Lemma sample_dims_spec : DimsSpec sample_dims.
Proof.
  split; intros s.
  - reflexivity.
  - reflexivity.
  - exists ["set_data"]. reflexivity.
Qed.

(** [add], read as one step: with at least one window extracted, the
    inputs are zipped and handed to [_add_regions_to_view], then
    [_update_dims] runs and the [data] event is emitted. *)
Lemma add_runs `{RegionUtils} `{HC : ColorTransformations} `{HD : Dims}
    (raw : RawData) (ot : scalar_or_list Orientation)
    (ew : option (scalar_or_list Q)) (ec fc : option ColorInput)
    (z : option (scalar_or_list Z)) (s : Region.t)
    (data : list (list Q)) (sh : scalar_or_list Orientation) :
  extract_region_orientation raw ot = Returns (data, sh) ->
  (0 < length data)%nat ->
  add raw ot ew ec fc z s
  = Py.bind (on_data_view
               (_add_regions_to_view (add_inputs data ot ew ec fc z s)))
      (fun _ => Py.bind _update_dims (fun _ => emit "data")) s.
Proof.
  intros Hextract Hpos.
  unfold add. unfold Py.bind at 1. unfold Py.lift at 1.
  rewrite Hextract. cbn [fst].
  destruct ew as [w|], ec as [c|], fc as [f|];
    unfold Py.bind at 1; cbn [Py.ret Py.gets];
    unfold Py.bind at 1; cbn [Py.ret Py.gets];
    unfold Py.bind at 1; cbn [Py.ret Py.gets];
    unfold Py.bind at 1; cbn [Py.ret Py.gets];
    (destruct (decide (0 < length data)%nat) as [_|]; [|contradiction]);
    unfold _add_regions; py_unfold; cbn -[z_index_or zip_inputs next_z_index];
    rewrite z_index_or_again;
    (destruct (decide (0 < length data)%nat) as [_|]; [|contradiction]);
    unfold add_inputs, edge_width_or_current, color_or_current,
      transformed_color;
    match goal with
    | |- context [on_data_view ?m s] =>
        destruct (on_data_view m s) as [[[]|e] s1]; reflexivity
    end.
Qed.

(** Without a window extracted, [add] returns at once. *)
Lemma add_without_data `{RegionUtils} `{ColorTransformations} `{Dims}
    (raw : RawData) (ot : scalar_or_list Orientation)
    (ew : option (scalar_or_list Q)) (ec fc : option ColorInput)
    (z : option (scalar_or_list Z)) (s : Region.t)
    (sh : scalar_or_list Orientation) :
  extract_region_orientation raw ot = Returns ([], sh) ->
  add raw ot ew ec fc z s = (Returns tt, s).
Proof.
  intros Hsh. unfold add. unfold Py.bind at 1. unfold Py.lift at 1.
  rewrite Hsh. destruct ew, ec, fc; reflexivity.
Qed.

(** What [add] does to the list of regions, whatever the arguments: the
    regions of the inputs it got through are appended, each with the
    z-index that [z_index or max(_z_index, default=-1) + 1] yields for
    it. *)
Lemma add_appends `{RegionUtils} `{ColorTransformations} `{HD : Dims}
    (DS : DimsSpec HD)
    (raw : RawData) (ot : scalar_or_list Orientation)
    (ew : option (scalar_or_list Q)) (ec fc : option ColorInput)
    (z : option (scalar_or_list Z)) (s : Region.t) :
  exists inputs : list region_input,
    RegionList.regions (_data_view (snd (add raw ot ew ec fc z s)))
    = RegionList.regions (_data_view s) ++ map region_of inputs /\
    forall zv, z_index_or z (next_z_index s) = Scalar zv ->
               Forall (fun inp => snd inp = zv) inputs.
Proof.
  destruct (extract_region_orientation raw ot) as [[data sh]|e] eqn:Hextract.
  2:{ exists []. rewrite app_nil_r. split; [|constructor].
      unfold add. unfold Py.bind at 1. unfold Py.lift at 1.
      rewrite Hextract. reflexivity. }
  destruct (decide (0 < length data)%nat) as [Hpos|Hpos].
  2:{ exists []. rewrite app_nil_r. split; [|constructor].
      destruct data; [|simpl in Hpos; lia].
      rewrite (add_without_data raw ot ew ec fc z s sh Hextract). reflexivity. }
  rewrite (add_runs raw ot ew ec fc z s data sh Hextract Hpos).
  set (inputs := add_inputs data ot ew ec fc z s).
  destruct (add_regions_to_view_appends inputs (_data_view s))
    as (j & o & rl' & Hrun & Hj & _).
  exists (take j inputs). split.
  - unfold Py.bind at 1. unfold on_data_view. rewrite Hrun.
    destruct o as [[]|e]; [|exact Hj].
    destruct (update_dims_then_data DS (with_data_view rl' s))
      as (s' & emitted & Hdims & Hdv & _).
    rewrite Hdims. simpl. rewrite Hdv. exact Hj.
  - intros zv Hzv. apply Forall_take. unfold inputs, add_inputs. rewrite Hzv.
    apply zip_inputs_scalar_z.
Qed.

(** [add] of [k > 0] regions, with arguments that cover all [k] of them,
    on a layer whose colour arrays have four columns: [add] returns, and
    exactly [k] regions are appended. *)
Lemma add_appends_all `{RegionUtils} `{HC : ColorTransformations} `{HD : Dims}
    (CS : ColorTransformationsSpec HC) (DS : DimsSpec HD)
    (raw : RawData) (ot : scalar_or_list Orientation)
    (ew : option (scalar_or_list Q)) (ec fc : option ColorInput)
    (z : option (scalar_or_list Z)) (s : Region.t)
    (data : list (list Q)) (sh : scalar_or_list Orientation) :
  extract_region_orientation raw ot = Returns (data, sh) ->
  (0 < length data)%nat ->
  covers ot (length data) ->
  (forall w, ew = Some w -> covers w (length data)) ->
  covers (z_index_or z (next_z_index s)) (length data) ->
  ncols (RegionList._edge_color (_data_view s)) = 4%nat ->
  ncols (RegionList._face_color (_data_view s)) = 4%nat ->
  exists inputs : list region_input,
    fst (add raw ot ew ec fc z s) = Returns tt /\
    RegionList.regions (_data_view (snd (add raw ot ew ec fc z s)))
    = RegionList.regions (_data_view s) ++ map region_of inputs /\
    length inputs = length data /\
    forall zv, z_index_or z (next_z_index s) = Scalar zv ->
               Forall (fun inp => snd inp = zv) inputs.
Proof.
  intros Hextract Hpos Hot Hew Hz Hec4 Hfc4.
  rewrite (add_runs raw ot ew ec fc z s data sh Hextract Hpos).
  set (inputs := add_inputs data ot ew ec fc z s).
  assert (Hew1 : covers (edge_width_or_current ew s) (length data)).
  { destruct ew as [w|]; [apply Hew; reflexivity | exact I]. }
  destruct (ColorInit.broadcast_transformed CS (length data)
              (color_or_current ec (length data) "edge" s) "edge_color" "white")
    as (En & Ergba & _).
  destruct (ColorInit.broadcast_transformed CS (length data)
              (color_or_current fc (length data) "face" s) "face_color" "white")
    as (Fn & Frgba & _).
  destruct (zip_inputs_all data 0 ot (edge_width_or_current ew s)
              (transformed_color (length data)
                 (color_or_current ec (length data) "edge" s) "edge_color")
              (transformed_color (length data)
                 (color_or_current fc (length data) "face" s) "face_color")
              (z_index_or z (next_z_index s))) as [Hlen Hrows];
    try assumption; try (unfold transformed_color; simpl; lia).
  fold (add_inputs data ot ew ec fc z s) in Hlen, Hrows. fold inputs in Hlen, Hrows.
  assert (Hfour : Forall (fun inp => length (input_edge_color inp) = 4%nat /\
                                     length (input_face_color inp) = 4%nat) inputs).
  { eapply Forall_impl; [exact Hrows|]. intros inp [He Hf]. split.
    - destruct Ergba as [_ Hall]. rewrite Forall_forall in Hall.
      apply (Hall _ He).
    - destruct Frgba as [_ Hall]. rewrite Forall_forall in Hall.
      apply (Hall _ Hf). }
  destruct (add_regions_to_view_returns inputs (_data_view s) Hec4 Hfc4 Hfour)
    as (rl' & Hrun & Hreg).
  destruct (update_dims_then_data DS (with_data_view rl' s))
    as (s' & emitted & Hdims & Hdv & _).
  exists inputs. unfold Py.bind at 1. unfold Py.bind at 2.
  unfold on_data_view. rewrite Hrun. rewrite Hdims. simpl. rewrite Hdv.
  split; [reflexivity|]. split; [exact Hreg|]. split; [exact Hlen|].
  intros zv Hzv. unfold inputs, add_inputs. rewrite Hzv.
  apply zip_inputs_scalar_z.
Qed.

Lemma map_constant {A B} (f : A -> B) (c : B) (l : list A) :
  Forall (fun x => f x = c) l -> map f l = replicate (length l) c.
Proof.
  induction 1 as [|x l Hx _ IH]; simpl; [reflexivity|].
  rewrite Hx, IH. reflexivity.
Qed.

(** [add] of [k > 0] regions without a [z_index] argument, under the same
    conditions: the z-indices of the layer are the old ones followed by
    [k] times [max(_z_index, default=-1) + 1]. *)
Lemma add_without_z_index_all `{RegionUtils} `{HC : ColorTransformations}
    `{HD : Dims}
    (CS : ColorTransformationsSpec HC) (DS : DimsSpec HD)
    (raw : RawData) (ot : scalar_or_list Orientation)
    (ew : option (scalar_or_list Q)) (ec fc : option ColorInput)
    (s : Region.t) (data : list (list Q)) (sh : scalar_or_list Orientation) :
  extract_region_orientation raw ot = Returns (data, sh) ->
  (0 < length data)%nat ->
  covers ot (length data) ->
  (forall w, ew = Some w -> covers w (length data)) ->
  ncols (RegionList._edge_color (_data_view s)) = 4%nat ->
  ncols (RegionList._face_color (_data_view s)) = 4%nat ->
  fst (add raw ot ew ec fc None s) = Returns tt /\
  z_index (snd (add raw ot ew ec fc None s))
  = z_index s ++ replicate (length data) (next_z_index s).
Proof.
  intros Hextract Hpos Hot Hew Hec4 Hfc4.
  destruct (add_appends_all CS DS raw ot ew ec fc None s data sh
              Hextract Hpos Hot Hew I Hec4 Hfc4)
    as (inputs & Hret & Hreg & Hlen & Hz).
  split; [exact Hret|].
  unfold z_index, RegionList.z_indices. rewrite Hreg, map_app. f_equal.
  rewrite map_map, <- Hlen. apply map_constant.
  eapply Forall_impl; [exact (Hz (next_z_index s) eq_refl)|].
  intros [[[[[d o] w] e] f] z0] Hz0. exact Hz0.
Qed.

(** Without a [z_index] argument every region that [add] appends gets
    [max(_z_index, default=-1) + 1]: one more than the greatest z-index
    present, and 0 on a layer without regions. *)
Lemma add_without_z_index `{RegionUtils} `{ColorTransformations} `{HD : Dims}
    (DS : DimsSpec HD)
    (raw : RawData) (ot : scalar_or_list Orientation)
    (ew : option (scalar_or_list Q)) (ec fc : option ColorInput)
    (s : Region.t) :
  exists news : list RegionList.region,
    RegionList.regions (_data_view (snd (add raw ot ew ec fc None s)))
    = RegionList.regions (_data_view s) ++ news /\
    Forall (fun r => RegionList.z_index r = next_z_index s) news.
Proof.
  destruct (add_appends DS raw ot ew ec fc None s) as (inputs & Hreg & Hz).
  exists (map region_of inputs). split; [exact Hreg|].
  specialize (Hz (next_z_index s) eq_refl).
  apply Forall_fmap. eapply Forall_impl; [exact Hz|].
  intros [[[[[d o] w] e] f] z0] Hz0. simpl in *. exact Hz0.
Qed.

(** A scalar z-index other than 0 is the z-index of every region that
    [add] appends. *)
Lemma add_with_nonzero_z_index `{RegionUtils} `{ColorTransformations}
    `{HD : Dims} (DS : DimsSpec HD)
    (raw : RawData) (ot : scalar_or_list Orientation)
    (ew : option (scalar_or_list Q)) (ec fc : option ColorInput)
    (zv : Z) (s : Region.t) :
  zv <> 0 ->
  exists news : list RegionList.region,
    RegionList.regions (_data_view (snd (add raw ot ew ec fc (Some (Scalar zv)) s)))
    = RegionList.regions (_data_view s) ++ news /\
    Forall (fun r => RegionList.z_index r = zv) news.
Proof.
  intros Hnz.
  destruct (add_appends DS raw ot ew ec fc (Some (Scalar zv)) s)
    as (inputs & Hreg & Hz).
  exists (map region_of inputs). split; [exact Hreg|].
  assert (E : z_index_or (Some (Scalar zv)) (next_z_index s) = Scalar zv).
  { simpl. destruct (Z.eqb_spec zv 0); [contradiction | reflexivity]. }
  specialize (Hz zv E).
  apply Forall_fmap. eapply Forall_impl; [exact Hz|].
  intros [[[[[d o] w] e] f] z0] Hz0. simpl in *. exact Hz0.
Qed.

(** C4, at the input where the code departs from it.  On a layer whose
    only region has z-index 0, [add] of one region with [z_index=0] gives
    the new region z-index 1: [z_index or ...] takes the supplied 0 for a
    missing argument.  A supplied value would make the z-indices
    [[0; 0]]. *)
Theorem add_with_z_index_zero :
  let s1 := snd (sample_add [[10; 20]]%Q (Scalar VERTICAL)
                   None None None None empty_layer) in
  let s2 := snd (sample_add [[30; 40]]%Q (Scalar VERTICAL)
                   None None None (Some (Scalar 0)) s1) in
  z_index s1 = [0] /\ z_index s2 = [0; 1] /\ z_index s2 <> [0; 0].
Proof. repeat split. discriminate. Qed.

End RegionAdd.

(** ** Region: highlight vertices and box *)

Module RegionHighlight.

Import Region.
Import Samples.

Lemma selected_with_box_size : (0 < size (_selected_data selected_with_box))%nat.
Proof.
  change (_selected_data selected_with_box) with ({[0%nat]} : gset nat).
  rewrite size_singleton. lia.
Qed.

Lemma selected_without_box_size :
  (0 < size (_selected_data selected_without_box))%nat.
Proof.
  change (_selected_data selected_without_box) with ({[0%nat]} : gset nat).
  rewrite size_singleton. lia.
Qed.

Lemma dragging_size : size (_selected_data dragging) = 0%nat.
Proof.
  change (_selected_data dragging) with (∅ : gset nat). apply size_empty.
Qed.

Example dragging_outline :
  _compute_vertices_and_box (H := SampleShapes.sample_shapes) dragging
  = Returns (mk_highlight (empty0 2) white (ColorTuple [0; 0.6; 1; 1]%Q)
               (Some (mk_array 2 [[0; 0]; [0; 2]; [4; 2]; [4; 0]; [0; 0]]%Q))
               1.5).
Proof.
  unfold _compute_vertices_and_box.
  destruct (decide (0 < size (_selected_data dragging))%nat) as [Hlt|_].
  - rewrite dragging_size in Hlt. lia.
  - reflexivity.
Qed.

(** On every layer: a selection in SELECT mode while [_selected_box] is
    [None] makes [_compute_vertices_and_box] raise TypeError.  [Region]
    assigns [_selected_box] once, in the constructor, and assigns it
    [None]. *)
Lemma select_mode_without_box `{ShapesHost} (s : Region.t) :
  (0 < size (_selected_data s))%nat ->
  _mode s = SELECT ->
  _selected_box s = None ->
  _compute_vertices_and_box s = Raises TypeError.
Proof.
  intros Hsel Hmode Hbox. unfold _compute_vertices_and_box.
  destruct (decide (0 < size (_selected_data s))%nat); [|contradiction].
  destruct (decide (_mode s = SELECT)); [|contradiction].
  rewrite Hbox. reflexivity.
Qed.

(** C2, at the input where the code departs from it.  With a region
    selected in SELECT mode on a layer whose [_selected_box] is what the
    constructor left there, [_compute_vertices_and_box] does not return the
    interaction box that its comment and the claim describe: subscripting
    [None] raises TypeError. *)
Theorem selected_without_box_raises :
  (0 < size (_selected_data selected_without_box))%nat /\
  _mode selected_without_box = SELECT /\
  _selected_box selected_without_box = None /\
  _compute_vertices_and_box (H := SampleShapes.sample_shapes) selected_without_box
  = Raises TypeError /\
  ~ (exists h, _compute_vertices_and_box
                 (H := SampleShapes.sample_shapes) selected_without_box
               = Returns h).
Proof.
  assert (E : _compute_vertices_and_box
                (H := SampleShapes.sample_shapes) selected_without_box
              = Raises TypeError).
  { apply select_mode_without_box;
      [apply selected_without_box_size | reflexivity | reflexivity]. }
  split; [apply selected_without_box_size|].
  split; [reflexivity|]. split; [reflexivity|]. split; [exact E|].
  intros [h Hh]. rewrite E in Hh. discriminate.
Qed.

(** The rest of the case analysis of [_compute_vertices_and_box], on
    layers where the boxes and the highlight colour are present:
    (i) selection non-empty and mode SELECT: when [_selected_box] is an
    array [sb] in which the rows [Box.WITH_HANDLE] exist (giving [box]),
    and in [box] the rows [Box.LINE_HANDLE] exist (giving [line]): the
    vertices are [box] with its columns reversed, the line positions are
    [line] with its columns reversed, the width is 1.5, the edge colour is
    the highlight colour, and the face colour is the highlight colour when
    both components of [_value] are set and "white" otherwise;
    (ii) selection empty and a drag selection under way: when
    [create_box(_drag_box)] returns an array in which the rows [Box.LINE]
    exist (giving [line]): empty (0, 2) vertices, face colour "white",
    edge colour the highlight colour, [line] with its columns reversed,
    width 1.5;
    (iii) in every other case: empty (0, 2) vertices, both colours
    "white", no positions, width 0. *)
Lemma compute_vertices_and_box_cases `{ShapesHost} (s : Region.t) :
  ((0 < size (_selected_data s))%nat -> _mode s = SELECT ->
   forall sb box line hc,
     _selected_box s = Some sb ->
     index_rows Box_WITH_HANDLE sb = Returns box ->
     _highlight_color s = Some hc ->
     index_rows Box_LINE_HANDLE box = Returns line ->
     _compute_vertices_and_box s
     = Returns (mk_highlight
                  (reverse_columns box)
                  (if value_is_set (_value s) then hc else white)
                  hc
                  (Some (reverse_columns line))
                  1.5)) /\
  (size (_selected_data s) = 0%nat -> _is_selecting s = true ->
   forall box line hc,
     _highlight_color s = Some hc ->
     create_box (_drag_box s) = Returns box ->
     index_rows Box_LINE box = Returns line ->
     _compute_vertices_and_box s
     = Returns (mk_highlight (empty0 2) white hc
                  (Some (reverse_columns line)) 1.5)) /\
  (((0 < size (_selected_data s))%nat /\ _mode s <> SELECT) \/
   (size (_selected_data s) = 0%nat /\ _is_selecting s = false) ->
   _compute_vertices_and_box s
   = Returns (mk_highlight (empty0 2) white white None 0)).
Proof.
  unfold _compute_vertices_and_box.
  split; [|split].
  - intros Hsel Hmode sb box line hc Hsb Hbox Hhc Hline.
    destruct (decide (0 < size (_selected_data s))%nat); [|contradiction].
    destruct (decide (_mode s = SELECT)); [|contradiction].
    rewrite Hsb, Hbox, Hhc, Hline.
    destruct (_value s) as [[a|] [b|]]; reflexivity.
  - intros Hsel Hdrag box line hc Hhc Hbox Hline.
    destruct (decide (0 < size (_selected_data s))%nat); [lia|].
    rewrite Hdrag, Hhc, Hbox, Hline. reflexivity.
  - intros [[Hsel Hmode]|[Hsel Hdrag]].
    + destruct (decide (0 < size (_selected_data s))%nat); [|contradiction].
      destruct (decide (_mode s = SELECT)); [contradiction|].
      reflexivity.
    + destruct (decide (0 < size (_selected_data s))%nat); [lia|].
      rewrite Hdrag. reflexivity.
Qed.

(** Where the base class provides no [_highlight_color], the two cases
    that read it raise AttributeError instead. *)
Lemma compute_vertices_and_box_without_color `{ShapesHost} (s : Region.t) :
  _highlight_color s = None ->
  ((0 < size (_selected_data s))%nat -> _mode s = SELECT ->
   forall sb box,
     _selected_box s = Some sb ->
     index_rows Box_WITH_HANDLE sb = Returns box ->
     _compute_vertices_and_box s = Raises AttributeError) /\
  (size (_selected_data s) = 0%nat -> _is_selecting s = true ->
   _compute_vertices_and_box s = Raises AttributeError).
Proof.
  intros Hnone. unfold _compute_vertices_and_box. split.
  - intros Hsel Hmode sb box Hsb Hbox.
    destruct (decide (0 < size (_selected_data s))%nat); [|contradiction].
    destruct (decide (_mode s = SELECT)); [|contradiction].
    rewrite Hsb, Hbox, Hnone. reflexivity.
  - intros Hsel Hdrag.
    destruct (decide (0 < size (_selected_data s))%nat); [lia|].
    rewrite Hdrag, Hnone. reflexivity.
Qed.

Example highlight_on_the_samples :
  _compute_vertices_and_box (H := SampleShapes.sample_shapes) selected_with_box
  = Returns (mk_highlight
               (mk_array 2 [[0; 0]; [0; 0.5]; [0; 1]; [0.5; 1]; [1; 1];
                            [1; 0.5]; [1; 0]; [0.5; 0]; [-1; 0.5]]%Q)
               white
               (ColorTuple [0; 0.6; 1; 1]%Q)
               (Some (mk_array 2 [[0.5; 0]; [1; 0]; [1; 1]; [0; 1]; [0; 0];
                                  [0.5; 0]; [-1; 0.5]]%Q))
               1.5) /\
  _compute_vertices_and_box (H := SampleShapes.sample_shapes) dragging
  = Returns (mk_highlight (empty0 2) white (ColorTuple [0; 0.6; 1; 1]%Q)
               (Some (mk_array 2 [[0; 0]; [0; 2]; [4; 2]; [4; 0]; [0; 0]]%Q))
               1.5) /\
  _compute_vertices_and_box (H := SampleShapes.sample_shapes)
    two_regions
  = Returns (mk_highlight (empty0 2) white white None 0).
Proof.
  pose proof (compute_vertices_and_box_cases
                (H := SampleShapes.sample_shapes) selected_with_box)
    as (Hsel & _ & _).
  pose proof (compute_vertices_and_box_cases
                (H := SampleShapes.sample_shapes) dragging)
    as (_ & Hdrag & _).
  pose proof (compute_vertices_and_box_cases
                (H := SampleShapes.sample_shapes) two_regions)
    as (_ & _ & Hnone).
  split; [|split].
  - rewrite (Hsel selected_with_box_size eq_refl unit_box _ _ _
               eq_refl eq_refl eq_refl eq_refl).
    reflexivity.
  - rewrite (Hdrag dragging_size eq_refl _ _ _ eq_refl eq_refl eq_refl).
    reflexivity.
  - apply Hnone. right. split; [apply size_empty | reflexivity].
Qed.

End RegionHighlight.

(** ** Centroids: the [data] setter and the colour array *)

Module CentroidsData.

Import Centroids.
Import Samples.

Lemma sample_helpers_spec : HelpersSpec sample_helpers.
Proof. split; intros s; reflexivity. Qed.

Example init_without_centroids :
  init (H := sample_helpers) (H0 := SampleColors.sample_colors)
    (empty0 2) (ColorTuple [1; 1; 1; 1]%Q)
  = Returns no_centroids.
Proof. reflexivity. Qed.

Example trim_to_two :
  _color (snd (sample_set_data (mk_array 2 [[5; 50]; [6; 60]]%Q) three_centroids))
  = mk_array 4 [[1; 0; 0; 1]; [1; 1; 1; 1]]%Q.
Proof. reflexivity. Qed.

Example extend_to_five :
  _color (snd (sample_set_data
                 (mk_array 2 [[1; 1]; [2; 2]; [3; 3]; [4; 4]; [5; 5]]%Q)
                 three_centroids))
  = mk_array 4 [[1; 0; 0; 1]; [1; 1; 1; 1]; [0; 0; 0; 1];
                [0; 0; 0; 1]; [0; 0; 0; 1]]%Q.
Proof. reflexivity. Qed.

Lemma three_centroids_invariant : color_per_centroid three_centroids.
Proof.
  split; [reflexivity|].
  apply ColorInit.rgba_array_b_spec. reflexivity.
Qed.

(** An array without rows that has four columns is [np.empty((0, 4))]. *)
Lemma no_rows_empty (a : ndarray) :
  ncols a = 4%nat -> nrows a = 0%nat -> a = empty0 4.
Proof.
  destruct a as [c rs]. unfold nrows. simpl. intros -> Hn.
  destruct rs; [reflexivity | discriminate].
Qed.

(** Assigning an RGBA array with one row per centroid to [color] stores
    that array. *)
Lemma set_color_array `{HC : ColorTransformations}
    (Hspec : ColorTransformationsSpec HC) (c : ndarray) (s : Centroids.t) :
  rgba_array c -> nrows c = nrows (_data s) ->
  set_color (ColorArray c) s
  = (Returns tt, Centroids.mk (_data s) c (events s ++ ["color"])).
Proof.
  intros Hc Hn. unfold set_color, emit. py_unfold. simpl.
  unfold Centroids_color._initialize_color.
  destruct (decide (0 < nrows (_data s))%nat) as [Hpos|Hz].
  - rewrite (transform_array _ c _ _ Hc (or_intror Hn)).
    rewrite (broadcast_same _ c Hn). reflexivity.
  - rewrite (no_rows_empty c); [reflexivity | apply Hc | lia].
Qed.

(** The constructor establishes the invariant. *)
Lemma init_color_per_centroid `{H : Helpers} `{HC : ColorTransformations}
    (Hspec : ColorTransformationsSpec HC)
    (data : RawData) (c : ColorInput) (s : Centroids.t) :
  init data c = Returns s -> color_per_centroid s.
Proof.
  unfold init. destruct (parse_centroids_data data) as [d|e]; [|discriminate].
  intros E. inversion E; subst; clear E. unfold color_per_centroid. simpl.
  unfold Centroids_color._initialize_color.
  destruct (decide (0 < nrows d)%nat) as [Hpos|Hz].
  - destruct (ColorInit.broadcast_transformed Hspec (nrows d) c "color" "white")
      as (Hn & Hrgba & _). auto.
  - split; [unfold nrows at 1; simpl; lia|].
    split; [reflexivity | constructor].
Qed.

(** Where the [data] setter raises, nothing has been assigned yet;
    otherwise it gets to its last three statements. *)
Lemma set_data_cases `{H : Helpers} `{HC : ColorTransformations}
    (value : RawData) (s : Centroids.t) :
  (exists e, set_data value s = (Raises e, s)) \/
  (exists data c1,
     parse_centroids_data value = Returns data /\
     set_data value s = store_data_and_color data c1 s).
Proof.
  unfold set_data, store_data_and_color, color.
  unfold Py.bind, Py.lift, Py.gets, Py.ret.
  destruct (parse_centroids_data value) as [data|e]; [|left; eauto].
  destruct (decide (nrows data < nrows (_data s))%nat); [right; eauto|].
  destruct (decide (nrows (_data s) < nrows data)%nat); [|right; eauto].
  destruct (last_row (_color s)) as [r|e]; [|left; eauto].
  destruct (full (nrows data - nrows (_data s)) 4 r) as [filler|e]; [|left; eauto].
  destruct (concatenate (_color s) filler) as [c1|e]; [right; eauto | left; eauto].
Qed.

(** The last three statements store the data and re-initialise the
    colours for that many centroids. *)
Lemma store_data_and_color_stores `{H : Helpers} `{HC : ColorTransformations}
    (HS : HelpersSpec H) (data c1 : ndarray) (s : Centroids.t) :
  fst (store_data_and_color data c1 s) = Returns tt /\
  _data (snd (store_data_and_color data c1 s)) = data /\
  _color (snd (store_data_and_color data c1 s))
  = Centroids_color._initialize_color (ColorArray c1) (nrows data).
Proof.
  assert (Hrun : store_data_and_color data c1 s
                 = _emit_new_data
                     (Centroids.mk data
                        (Centroids_color._initialize_color (ColorArray c1) (nrows data))
                        (events s ++ ["color"]))) by reflexivity.
  rewrite Hrun.
  rewrite emit_new_data_returns, emit_new_data_data, emit_new_data_color.
  auto.
Qed.

Lemma initialize_color_none `{HC : ColorTransformations} (c : ColorInput) :
  Centroids_color._initialize_color c 0 = empty0 4.
Proof. reflexivity. Qed.

(** Every layer a program can hold that has no centroids has no colour
    rows either. *)
Lemma reachable_no_centroids `{H : Helpers} `{HC : ColorTransformations}
    (HS : HelpersSpec H) (s : Centroids.t) :
  reachable s -> nrows (_data s) = 0%nat -> nrows (_color s) = 0%nat.
Proof.
  induction 1 as [raw c s Hinit | value s Hs IH | c s Hs IH | index c s Hs IH].
  - unfold init in Hinit.
    destruct (parse_centroids_data raw) as [d|e]; [|discriminate].
    inversion Hinit; subst; clear Hinit. simpl. intros Hd.
    rewrite Hd. reflexivity.
  - destruct (set_data_cases value s) as [[e He]|(data & c1 & _ & Hrun)].
    + rewrite He. exact IH.
    + rewrite Hrun.
      destruct (store_data_and_color_stores HS data c1 s) as (_ & Hd & Hc).
      rewrite Hd, Hc. intros Hz. rewrite Hz. reflexivity.
  - unfold set_color, emit. py_unfold. simpl. intros Hd.
    rewrite Hd. reflexivity.
  - unfold update_color, emit. py_unfold.
    destruct (rows (_color s) !! index) as [r|] eqn:Hr; [|exact IH].
    apply lookup_lt_Some in Hr. intros Hd.
    simpl in Hd. specialize (IH ltac:(
      destruct (decide (length c = ncols (_color s))); [exact Hd|];
      destruct c as [|x [|y c']]; exact Hd)).
    unfold nrows in IH. lia.
Qed.

(** With no colour rows to take the last one from, the [data] setter
    raises IndexError before it assigns anything. *)
Lemma set_data_without_colors `{H : Helpers} `{HC : ColorTransformations}
    (s : Centroids.t) (value : RawData) (data : ndarray) :
  nrows (_data s) = 0%nat ->
  nrows (_color s) = 0%nat ->
  parse_centroids_data value = Returns data ->
  (0 < nrows data)%nat ->
  set_data value s = (Raises IndexError, s).
Proof.
  intros Hn Hc Hparse Hpos.
  unfold set_data. py_unfold. rewrite Hparse. simpl.
  destruct (decide (nrows data < nrows (_data s))%nat); [lia|].
  destruct (decide (nrows (_data s) < nrows data)%nat); [|lia].
  unfold last_row, color. unfold nrows in Hc.
  destruct (rows (_color s)); [reflexivity | discriminate].
Qed.

(** C6.  On a layer without centroids, assigning data that parses to one
    or more centroids raises IndexError (from [self.color[-1]] on the colour
    array, which has no rows), and the layer is left exactly as it was:
    neither [_data] nor [_color] changes. *)
Theorem set_data_on_empty_layer `{H : Helpers} `{HC : ColorTransformations}
    (HS : HelpersSpec H)
    (s : Centroids.t) (value : RawData) (data : ndarray) :
  reachable s ->
  nrows (_data s) = 0%nat ->
  parse_centroids_data value = Returns data ->
  (0 < nrows data)%nat ->
  set_data value s = (Raises IndexError, s).
Proof.
  intros Hreach Hn Hparse Hpos.
  apply (set_data_without_colors s value data Hn); [|exact Hparse|exact Hpos].
  apply (reachable_no_centroids HS s Hreach Hn).
Qed.

Lemma set_data_on_empty_layer_witness :
  sample_set_data (mk_array 2 [[1; 10]]%Q) no_centroids
  = (Raises IndexError, no_centroids).
Proof.
  apply (set_data_on_empty_layer (H := sample_helpers)
           (HC := SampleColors.sample_colors) sample_helpers_spec
           no_centroids (mk_array 2 [[1; 10]]%Q) (mk_array 2 [[1; 10]]%Q)).
  - apply (reach_init (H := sample_helpers) (HC := SampleColors.sample_colors)
             (empty0 2) (ColorTuple [1; 1; 1; 1]%Q)).
    reflexivity.
  - reflexivity.
  - reflexivity.
  - vm_compute. lia.
Defined.

Lemma last_rgba (a : ndarray) (r : list Q) :
  rgba_array a -> last (rows a) = Some r -> rgba_row r.
Proof.
  intros [_ Hall] Hlast. apply last_Some in Hlast as [l' E].
  rewrite E in Hall. apply Forall_app in Hall as [_ Hr].
  apply Forall_cons in Hr as [Hr _]. exact Hr.
Qed.

Lemma store_data_and_color_result `{H : Helpers} `{HC : ColorTransformations}
    (HS : HelpersSpec H) (CS : ColorTransformationsSpec HC)
    (data c1 : ndarray) (s : Centroids.t) :
  rgba_array c1 -> nrows c1 = nrows data ->
  fst (store_data_and_color data c1 s) = Returns tt /\
  _data (snd (store_data_and_color data c1 s)) = data /\
  _color (snd (store_data_and_color data c1 s)) = c1.
Proof.
  intros Hc1 Hn1.
  assert (Hrun : store_data_and_color data c1 s
                 = _emit_new_data (Centroids.mk data c1 (events s ++ ["color"]))).
  { unfold store_data_and_color, Py.bind, Py.modify.
    rewrite (set_color_array CS c1
               (Centroids.mk data (_color s) (events s)) Hc1 Hn1).
    reflexivity. }
  rewrite Hrun.
  rewrite emit_new_data_returns, emit_new_data_data, emit_new_data_color.
  auto.
Qed.

(** The colours the [data] setter chooses on a layer that has centroids. *)
Lemma set_data_chooses `{H : Helpers} `{HC : ColorTransformations}
    (s : Centroids.t) (value : RawData) (data : ndarray) :
  color_per_centroid s ->
  (0 < nrows (_data s))%nat ->
  parse_centroids_data value = Returns data ->
  let n := nrows (_data s) in
  let n_new := nrows data in
  exists c1 : ndarray,
    set_data value s = store_data_and_color data c1 s /\
    rgba_array c1 /\ nrows c1 = n_new /\
    ((n_new < n)%nat -> c1 = slice_to n_new (_color s)) /\
    ((n < n_new)%nat ->
       exists r, last (rows (_color s)) = Some r /\
                 c1 = mk_array 4 (rows (_color s) ++ replicate (n_new - n) r)) /\
    (n_new = n -> c1 = _color s).
Proof.
  intros [Hcn Hrgba] Hpos Hparse n n_new.
  unfold nrows in Hcn. fold (nrows (_data s)) in Hcn. fold n in Hcn.
  unfold set_data, store_data_and_color, color.
  unfold Py.bind, Py.lift, Py.gets, Py.ret. rewrite Hparse.
  fold n. fold n_new.
  destruct (decide (n_new < n)%nat) as [Hlt|Hge].
  - exists (slice_to n_new (_color s)). split; [reflexivity|].
    split. { split; [apply Hrgba|]. simpl. apply Forall_take, Hrgba. }
    split. { unfold nrows, slice_to. simpl. rewrite length_take. lia. }
    repeat split; intros; [lia | lia].
  - destruct (decide (n < n_new)%nat) as [Hgt|Hle].
    + unfold last_row.
      destruct (last (rows (_color s))) as [r|] eqn:Hlast.
      2:{ apply last_None in Hlast. rewrite Hlast in Hcn. simpl in Hcn. lia. }
      pose proof (last_rgba _ _ Hrgba Hlast) as Hr.
      unfold full.
      destruct (decide (length r = 4%nat)) as [_|Hbad];
        [|destruct Hr; contradiction].
      unfold concatenate. simpl.
      destruct (decide (ncols (_color s) = 4%nat)) as [E4|Hbad];
        [|destruct Hrgba; contradiction].
      exists (mk_array (ncols (_color s))
                (rows (_color s) ++ replicate (n_new - n) r)).
      split; [reflexivity|].
      split.
      { split; [exact E4|]. simpl. apply Forall_app. split; [apply Hrgba|].
        apply Forall_forall. intros x Hx.
        apply elem_of_replicate in Hx as [-> _]. exact Hr. }
      split.
      { unfold nrows. simpl. rewrite length_app, length_replicate. lia. }
      split; [intros; lia|]. split; [|intros; lia].
      intros _. exists r. split; [reflexivity|]. rewrite E4. reflexivity.
    + exists (_color s). split; [reflexivity|].
      split; [split; apply Hrgba|].
      split; [unfold nrows; lia|].
      split; [intros; lia|]. split; [intros; lia | reflexivity].
Qed.

(** C7, amended: the colour rows of the layer are required to be RGBA
    rows, with channels in [0, 1].  On a layer with at least one centroid
    and one RGBA colour row per centroid, every assignment to [data] leaves
    one RGBA colour row per centroid.  When the value parses, the setter
    returns and stores the data; with fewer rows the colours are the first
    [n_new] rows of the old array, with more rows the old array followed
    by copies of its last row, with as many rows the old array. *)
Theorem set_data_keeps_color_per_centroid
    `{H : Helpers} `{HC : ColorTransformations}
    (HS : HelpersSpec H) (CS : ColorTransformationsSpec HC)
    (s : Centroids.t) (value : RawData) :
  color_per_centroid s ->
  (0 < nrows (_data s))%nat ->
  let n := nrows (_data s) in
  let s' := snd (set_data value s) in
  color_per_centroid s' /\
  forall data : ndarray,
    parse_centroids_data value = Returns data ->
    let n_new := nrows data in
    fst (set_data value s) = Returns tt /\
    _data s' = data /\
    nrows (_color s') = n_new /\
    ((n_new < n)%nat -> _color s' = slice_to n_new (_color s)) /\
    ((n < n_new)%nat ->
       exists r, last (rows (_color s)) = Some r /\
                 _color s' = mk_array 4 (rows (_color s) ++ replicate (n_new - n) r)) /\
    (n_new = n -> _color s' = _color s).
Proof.
  intros Hinv Hpos n s'.
  assert (Hparsed : forall data : ndarray,
            parse_centroids_data value = Returns data ->
            color_per_centroid s' /\
            fst (set_data value s) = Returns tt /\
            _data s' = data /\
            nrows (_color s') = nrows data /\
            ((nrows data < n)%nat -> _color s' = slice_to (nrows data) (_color s)) /\
            ((n < nrows data)%nat ->
               exists r, last (rows (_color s)) = Some r /\
                         _color s' = mk_array 4 (rows (_color s)
                                                   ++ replicate (nrows data - n) r)) /\
            (nrows data = n -> _color s' = _color s)).
  { intros data Hparse.
    destruct (set_data_chooses s value data Hinv Hpos Hparse)
      as (c1 & Hrun & Hc1 & Hn1 & Hless & Hmore & Hsame).
    destruct (store_data_and_color_result HS CS data c1 s Hc1 Hn1)
      as (Hret & Hdata & Hcolor).
    unfold s'. rewrite Hrun, Hret, Hdata, Hcolor.
    split. { unfold color_per_centroid. rewrite Hdata, Hcolor. auto. }
    split; [reflexivity|]. split; [reflexivity|].
    split; [exact Hn1|]. auto. }
  split.
  - destruct (parse_centroids_data value) as [data|e] eqn:Hparse.
    + apply (Hparsed data eq_refl).
    + unfold s', set_data, Py.bind, Py.lift. rewrite Hparse. exact Hinv.
  - intros data Hparse. apply (Hparsed data Hparse).
Qed.

Lemma three_centroids_reachable :
  reachable (H := sample_helpers) (HC := SampleColors.sample_colors)
    three_centroids.
Proof.
  apply (reach_init (H := sample_helpers) (HC := SampleColors.sample_colors)
           (mk_array 2 [[1; 10]; [2; 20]; [3; 30]]%Q)
           (ColorArray (mk_array 4 [[1; 0; 0; 1]; [1; 1; 1; 1]; [0; 0; 0; 1]]%Q))).
  reflexivity.
Qed.

(** Where the invariant comes from.  The constructor establishes it
    ([init_color_per_centroid]); so does the [color] setter, and so does
    every assignment to [data] that returns, whatever the colour array
    held before: the colours they store have passed through the host's
    colour functions. *)
Lemma initialize_color_per_centroid `{HC : ColorTransformations}
    (CS : ColorTransformationsSpec HC) (c : ColorInput) (n : nat) :
  nrows (Centroids_color._initialize_color c n) = n /\
  rgba_array (Centroids_color._initialize_color c n).
Proof.
  unfold Centroids_color._initialize_color.
  destruct (decide (0 < n)%nat) as [Hpos|Hz].
  - destruct (ColorInit.broadcast_transformed CS n c "color" "white")
      as (Hn & Hrgba & _). auto.
  - split; [unfold nrows; simpl; lia|].
    split; [reflexivity | constructor].
Qed.

Lemma set_color_establishes_color_per_centroid `{HC : ColorTransformations}
    (CS : ColorTransformationsSpec HC) (c : ColorInput) (s : Centroids.t) :
  color_per_centroid (snd (set_color c s)).
Proof.
  unfold set_color, emit, color_per_centroid. py_unfold. simpl.
  apply (initialize_color_per_centroid CS).
Qed.

Lemma set_data_establishes_color_per_centroid
    `{H : Helpers} `{HC : ColorTransformations}
    (HS : HelpersSpec H) (CS : ColorTransformationsSpec HC)
    (value : RawData) (s : Centroids.t) :
  fst (set_data value s) = Returns tt ->
  color_per_centroid (snd (set_data value s)).
Proof.
  intros Hret.
  destruct (set_data_cases value s) as [[e He]|(data & c1 & _ & Hrun)].
  - rewrite He in Hret. discriminate.
  - rewrite Hrun.
    destruct (store_data_and_color_stores HS data c1 s) as (_ & Hd & Hc).
    unfold color_per_centroid. rewrite Hd, Hc.
    apply (initialize_color_per_centroid CS).
Qed.

(** [update_color] keeps the invariant when the row it is given is an
    RGBA row; any other row of four numbers is stored all the same. *)
Lemma update_color_keeps_color_per_centroid
    (index : nat) (c : list Q) (s : Centroids.t) :
  rgba_row c -> color_per_centroid s ->
  color_per_centroid (snd (update_color index c s)).
Proof.
  intros Hc [Hn [H4 Hall]]. unfold update_color, emit. py_unfold.
  destruct (rows (_color s) !! index) as [r|] eqn:Hr;
    [|split; [exact Hn | split; [exact H4 | exact Hall]]].
  destruct (decide (length c = ncols (_color s))) as [_|Hne].
  - unfold color_per_centroid, rgba_array, nrows in *. simpl.
    rewrite length_insert. split; [exact Hn|]. split; [exact H4|].
    apply Forall_insert; assumption.
  - destruct Hc as [Hlen _]. rewrite H4 in Hne. contradiction.
Qed.

(** So, whatever the host's colour functions do with it, the colours that
    an assignment to [data] leaves are not the first [k] rows of the old
    array when one of these is no RGBA row. *)
Lemma set_data_drops_foreign_rows `{H : Helpers} `{HC : ColorTransformations}
    (HS : HelpersSpec H) (CS : ColorTransformationsSpec HC)
    (value : RawData) (s : Centroids.t) (k : nat) :
  fst (set_data value s) = Returns tt ->
  ~ rgba_array (slice_to k (_color s)) ->
  _color (snd (set_data value s)) <> slice_to k (_color s).
Proof.
  intros Hret Hforeign E. apply Hforeign. rewrite <- E.
  apply (set_data_establishes_color_per_centroid HS CS value s Hret).
Qed.

(** C7 as stated fails on a layer that [update_color] has painted.  The
    layer [painted] is made by the constructor and one call of
    [update_color(1, [2, 0, 0, 1])]; it holds three centroids and a colour
    array of shape (3, 4).  Assigning two centroids returns, and the
    colours are not the first two rows of the old array,
    [[1, 0, 0, 1], [2, 0, 0, 1]]: the [color] setter hands the trimmed
    array to the host's colour functions, which return RGBA rows only
    (with the stand-in, two white rows). *)
Lemma painted_layer_is_not_trimmed :
  reachable (H := sample_helpers) (HC := SampleColors.sample_colors) painted /\
  nrows (_data painted) = 3%nat /\
  shape (_color painted) = (3%nat, 4%nat) /\
  fst (sample_set_data (mk_array 2 [[5; 50]; [6; 60]]%Q) painted) = Returns tt /\
  slice_to 2 (_color painted) = mk_array 4 [[1; 0; 0; 1]; [2; 0; 0; 1]]%Q /\
  _color (snd (sample_set_data (mk_array 2 [[5; 50]; [6; 60]]%Q) painted))
  = mk_array 4 [[1; 1; 1; 1]; [1; 1; 1; 1]]%Q /\
  _color (snd (sample_set_data (mk_array 2 [[5; 50]; [6; 60]]%Q) painted))
  <> slice_to 2 (_color painted).
Proof.
  split.
  { apply (reach_update_color (H := sample_helpers)
             (HC := SampleColors.sample_colors)).
    exact three_centroids_reachable. }
  split; [reflexivity|]. split; [reflexivity|]. split; [reflexivity|].
  split; [reflexivity|]. split; [reflexivity|].
  apply (set_data_drops_foreign_rows sample_helpers_spec
           ColorInit.sample_colors_spec
           (mk_array 2 [[5; 50]; [6; 60]]%Q) painted 2 eq_refl).
  intros [_ Hall]. simpl in Hall.
  apply Forall_cons in Hall as [_ Hall].
  apply Forall_cons in Hall as [[_ Hrow] _].
  apply Forall_cons in Hrow as [[_ Hle] _].
  unfold Qle in Hle. simpl in Hle. lia.
Qed.

Lemma set_data_keeps_color_per_centroid_witness :
  color_per_centroid three_centroids /\
  color_per_centroid
    (snd (sample_set_data (mk_array 2 [[5; 50]; [6; 60]]%Q) three_centroids)).
Proof.
  split; [exact three_centroids_invariant|].
  apply (set_data_keeps_color_per_centroid
           sample_helpers_spec ColorInit.sample_colors_spec
           three_centroids (mk_array 2 [[5; 50]; [6; 60]]%Q)
           three_centroids_invariant).
  vm_compute. lia.
Defined.

End CentroidsData.

(** ** The main window: the cursor position reaches the status bar through
    the throttler *)

Module StatusThrottle.

Import QtMainWindow.
Import Samples.

Example wiring_after_init :
  snd (init_status_throttler (H := Sample.sample_host) direct_connection)
  = QtMainWindow.mk
      [status_throttler_throttle; other_callback "draw"]
      (Some (mk_throttler 50 [update_status_bar_from_cursor])).
Proof. reflexivity. Qed.

Lemma sample_host_spec : EventHostSpec Sample.sample_host.
Proof.
  split; simpl.
  - intros cb l c. unfold Sample.connect_list.
    destruct (decide (cb ∈ l)) as [Hin|Hnin].
    + split; [auto|]. intros [->|Hc]; assumption.
    + rewrite elem_of_cons. tauto.
  - intros cb l l'. unfold Sample.disconnect_list.
    destruct (decide (cb ∈ l)) as [Hin|Hnin]; [|discriminate].
    intros E. inversion E; subst; clear E. split.
    + intros Hin'. apply list_elem_of_filter in Hin' as [Hne _]. congruence.
    + intros c Hc. rewrite list_elem_of_filter. tauto.
  - intros cb l e. unfold Sample.disconnect_list.
    destruct (decide (cb ∈ l)) as [Hin|Hnin]; [discriminate|].
    intros E. inversion E; subst. auto.
Qed.

(** What the replacement of the connection leaves behind, given the
    callbacks [l] that stay connected to the position event. *)
Lemma rewired `{H : EventHost} (HS : EventHostSpec H)
    (l : list callback) (th : throttler) :
  update_status_bar_from_cursor ∉ l ->
  let w' := QtMainWindow.mk (connect status_throttler_throttle l)
              (Some (mk_throttler (timeout th)
                       (triggered th ++ [update_status_bar_from_cursor]))) in
  (update_status_bar_from_cursor ∉ fires_directly w') /\
  status_throttler_throttle ∈ position w' /\
  (update_status_bar_from_cursor, timeout th) ∈ fires_throttled w'.
Proof.
  intros Hnot w'. unfold fires_directly, fires_throttled, w'. simpl.
  assert (Hth : status_throttler_throttle ∈ connect status_throttler_throttle l)
    by (apply connect_elem; auto).
  split; [|split; [exact Hth|]].
  - intros Hin. apply connect_elem in Hin as [E|Hin]; [discriminate | auto].
  - destruct (decide _) as [_|Hn]; [|contradiction].
    apply (list_elem_of_fmap_2 (fun c => (c, timeout th))).
    apply elem_of_app. right. left.
Qed.

(** C5.  The end of the constructor returns, and afterwards the status
    bar update is no longer connected to the cursor position directly,
    the throttler's [throttle] is, the throttler's timeout is 50 ms, and
    the status bar update is connected to the throttler's [triggered]
    signal: a cursor-position event reaches the status bar through the
    throttler, with timeout 50, and not otherwise. *)
Theorem cursor_status_is_throttled `{H : EventHost} (HS : EventHostSpec H)
    (w : QtMainWindow.t) :
  let r := init_status_throttler w in
  fst r = Returns tt /\
  (update_status_bar_from_cursor ∉ fires_directly (snd r)) /\
  status_throttler_throttle ∈ position (snd r) /\
  (exists th, status_throttler (snd r) = Some th /\
              timeout th = 50 /\
              triggered th = [update_status_bar_from_cursor]) /\
  (update_status_bar_from_cursor, 50) ∈ fires_throttled (snd r) /\
  (forall c ms, (c, ms) ∈ fires_throttled (snd r) -> ms = 50).
Proof.
  intros r. unfold r, init_status_throttler, setTimeout,
    _throttle_cursor_to_status_connection, triggered_connect,
    suppress_IndexError, set_position.
  py_unfold. simpl.
  destruct (disconnect update_status_bar_from_cursor (position w))
    as [l|e] eqn:Hdis.
  - apply disconnect_returns in Hdis as [Hnot _]. simpl.
    destruct (rewired HS l (mk_throttler 50 []) Hnot) as (Hd & Hp & Ht).
    split; [reflexivity|]. split; [exact Hd|]. split; [exact Hp|].
    split; [eexists; repeat split|]. split; [exact Ht|].
    intros c ms Hin. unfold fires_throttled in Hin. simpl in Hin.
    destruct (decide _); [|inversion Hin].
    apply list_elem_of_singleton in Hin. congruence.
  - apply disconnect_raises in Hdis as [-> Hnot]. simpl.
    destruct (rewired HS (position w) (mk_throttler 50 []) Hnot) as (Hd & Hp & Ht).
    split; [reflexivity|]. split; [exact Hd|]. split; [exact Hp|].
    split; [eexists; repeat split|]. split; [exact Ht|].
    intros c ms Hin. unfold fires_throttled in Hin. simpl in Hin.
    destruct (decide _); [|inversion Hin].
    apply list_elem_of_singleton in Hin. congruence.
Qed.

Lemma cursor_status_is_throttled_witness :
  update_status_bar_from_cursor ∈ fires_directly direct_connection /\
  update_status_bar_from_cursor
    ∉ fires_directly
        (snd (init_status_throttler (H := Sample.sample_host) direct_connection)).
Proof.
  split; [left|].
  apply (cursor_status_is_throttled sample_host_spec direct_connection).
Defined.

End StatusThrottle.

(** * More properties *)

(** ** Python string operations *)

Module PyStrFacts.

Import PyStr.

Lemma after_prefix_Some (p : str) : forall s r : str,
  after_prefix p s = Some r <-> s = p ++ r.
Proof.
  induction p as [|a p IH]; intros s r; simpl.
  - split; [intros E; inversion E; reflexivity | intros ->; reflexivity].
  - destruct s as [|b s]; [split; discriminate|].
    destruct (decide (a = b)) as [->|Hne].
    + rewrite IH. split; [intros ->; reflexivity | intros E; inversion E; reflexivity].
    + split; [discriminate | intros E; injection E as E1 E2; congruence].
Qed.

Lemma after_prefix_app (p r : str) : after_prefix p (p ++ r) = Some r.
Proof. apply after_prefix_Some. reflexivity. Qed.

Lemma after_prefix_None_occurs (sep s : str) :
  ~ occurs sep s -> after_prefix sep s = None.
Proof.
  intros Hno. destruct (after_prefix sep s) as [r|] eqn:E; [|reflexivity].
  apply after_prefix_Some in E. exfalso. apply Hno. exists [], r. exact E.
Qed.

Lemma occurs_tail (sep : str) (c : ascii) (s : str) :
  occurs sep s -> occurs sep (c :: s).
Proof. intros (a & b & ->). exists (c :: a), b. reflexivity. Qed.

Lemma split_go_nonempty (fuel : nat) (sep s : str) : split_go fuel sep s <> [].
Proof.
  destruct fuel as [|fuel]; simpl; [discriminate|].
  destruct (after_prefix sep s); [discriminate|].
  destruct s as [|c s]; [discriminate|].
  destruct (split_go fuel sep s); discriminate.
Qed.

(** More steps than characters change nothing. *)
Lemma split_go_fuel (sep : str) : sep <> [] -> forall (f1 f2 : nat) (s : str),
  (length s <= f1)%nat -> (length s <= f2)%nat ->
  split_go f1 sep s = split_go f2 sep s.
Proof.
  intros Hsep. induction f1 as [|f1 IH]; intros f2 s H1 H2.
  - destruct s; [|simpl in H1; lia].
    destruct f2; simpl; [reflexivity|].
    destruct sep; [contradiction | reflexivity].
  - destruct f2 as [|f2].
    + destruct s; [|simpl in H2; lia].
      simpl. destruct sep; [contradiction | reflexivity].
    + simpl. destruct (after_prefix sep s) as [r|] eqn:E.
      * apply after_prefix_Some in E. subst s.
        rewrite length_app in H1, H2.
        destruct sep as [|x sep]; [contradiction|]. simpl in H1, H2.
        f_equal. apply IH; lia.
      * destruct s as [|c s]; [reflexivity|]. simpl in H1, H2.
        rewrite (IH f2 s) by lia. reflexivity.
Qed.

(** Without an occurrence of the separator the string is the one piece. *)
Lemma split_go_no_occurrence (sep : str) : forall (fuel : nat) (s : str),
  ~ occurs sep s -> split_go fuel sep s = [s].
Proof.
  induction fuel as [|fuel IH]; intros s Hno; simpl; [reflexivity|].
  rewrite (after_prefix_None_occurs sep s Hno).
  destruct s as [|c s]; [reflexivity|].
  rewrite IH; [reflexivity|].
  intros Hocc. apply Hno, occurs_tail, Hocc.
Qed.

(** With an occurrence there are at least two pieces. *)
Lemma split_go_occurs (sep : str) : sep <> [] -> forall (fuel : nat) (s : str),
  (length s <= fuel)%nat -> occurs sep s ->
  (2 <= length (split_go fuel sep s))%nat.
Proof.
  intros Hsep. induction fuel as [|fuel IH]; intros s Hlen (a & b & E).
  - subst s. rewrite !length_app in Hlen.
    destruct sep; [contradiction | simpl in Hlen; lia].
  - simpl. destruct (after_prefix sep s) as [r|] eqn:Ep.
    + simpl. pose proof (split_go_nonempty fuel sep r).
      destruct (split_go fuel sep r); [contradiction | simpl; lia].
    + destruct a as [|c a].
      * simpl in E. subst s. rewrite after_prefix_app in Ep. discriminate.
      * subst s. simpl in Hlen.
        assert (Hrec : (2 <= length (split_go fuel sep (a ++ sep ++ b)))%nat).
        { apply IH; [lia|]. exists a, b. reflexivity. }
        simpl. destruct (split_go fuel sep (a ++ sep ++ b)); simpl in *; lia.
Qed.

Lemma split_go_more_pieces (sep : str) : forall (fuel : nat) (s : str),
  split_go fuel sep s <> [s] -> occurs sep s.
Proof.
  induction fuel as [|fuel IH]; intros s Hne; simpl in Hne; [contradiction|].
  destruct (after_prefix sep s) as [r|] eqn:E.
  - apply after_prefix_Some in E. exists [], r. exact E.
  - destruct s as [|c s]; [contradiction|].
    apply occurs_tail, IH. intros E'. rewrite E' in Hne. contradiction.
Qed.

(** The separator occurs exactly when [split] yields more than one piece. *)
Lemma occurs_split (sep s : str) :
  sep <> [] -> (occurs sep s <-> split_go (length s) sep s <> [s]).
Proof.
  intros Hsep. split.
  - intros Hocc E.
    pose proof (split_go_occurs sep Hsep (length s) s (le_n _) Hocc) as H2.
    rewrite E in H2. simpl in H2. lia.
  - apply split_go_more_pieces.
Qed.

Lemma join_cons_head (sep : str) (c : ascii) (p : str) (ps : list str) :
  join sep ((c :: p) :: ps) = c :: join sep (p :: ps).
Proof. destruct ps; reflexivity. Qed.

Lemma join_cons (sep p : str) (ps : list str) :
  ps <> [] -> join sep (p :: ps) = p ++ sep ++ join sep ps.
Proof. destruct ps; [contradiction | reflexivity]. Qed.

(** Joining the pieces with the separator gives the string back. *)
Lemma join_split_go (sep : str) : sep <> [] -> forall (fuel : nat) (s : str),
  (length s <= fuel)%nat -> join sep (split_go fuel sep s) = s.
Proof.
  intros Hsep. induction fuel as [|fuel IH]; intros s Hlen; simpl; [reflexivity|].
  destruct (after_prefix sep s) as [r|] eqn:E.
  - apply after_prefix_Some in E. subst s.
    rewrite join_cons by apply split_go_nonempty. simpl.
    rewrite IH; [reflexivity|].
    rewrite length_app in Hlen. destruct sep; [contradiction | simpl in Hlen; lia].
  - destruct s as [|c s]; [reflexivity|]. simpl in Hlen.
    specialize (IH s ltac:(lia)).
    pose proof (split_go_nonempty fuel sep s) as Hne.
    destruct (split_go fuel sep s) as [|p ps]; [contradiction|].
    rewrite join_cons_head, IH. reflexivity.
Qed.

Lemma first_at_tail (sep : str) (c : ascii) (a s : str) :
  first_at sep (c :: a) (c :: s) -> first_at sep a s.
Proof.
  intros [[b E] Hmin]. split.
  - exists b. simpl in E. injection E as E. exact E.
  - intros a' b' E'. specialize (Hmin (c :: a') b'). simpl in Hmin.
    rewrite E' in Hmin. specialize (Hmin eq_refl). lia.
Qed.

Lemma first_at_no_prefix (sep : str) (c : ascii) (a s : str) :
  first_at sep (c :: a) s -> after_prefix sep s = None.
Proof.
  intros [_ Hmin]. destruct (after_prefix sep s) as [r|] eqn:E; [|reflexivity].
  apply after_prefix_Some in E. specialize (Hmin [] r E). simpl in Hmin. lia.
Qed.

(** Up to the first occurrence of the separator is the first piece; the
    rest is split on. *)
Lemma split_go_first (sep : str) : sep <> [] -> forall (a b : str) (fuel : nat),
  (length (a ++ sep ++ b) <= fuel)%nat ->
  first_at sep a (a ++ sep ++ b) ->
  split_go fuel sep (a ++ sep ++ b) = a :: split_go (length b) sep b.
Proof.
  intros Hsep. induction a as [|c a IH]; intros b fuel Hlen Hfirst.
  - simpl in *. destruct fuel as [|fuel].
    + rewrite length_app in Hlen. destruct sep; [contradiction | simpl in Hlen; lia].
    + simpl. rewrite after_prefix_app. f_equal.
      apply (split_go_fuel sep Hsep); [|lia].
      rewrite length_app in Hlen. destruct sep; [contradiction | simpl in Hlen; lia].
  - destruct fuel as [|fuel]; [simpl in Hlen; lia|].
    pose proof (first_at_no_prefix sep c a _ Hfirst) as Hnp.
    simpl in Hnp, Hlen |- *. rewrite Hnp.
    rewrite (IH b fuel); [reflexivity | lia |].
    apply (first_at_tail sep c). exact Hfirst.
Qed.

(** For a separator of one character, the pieces of [a + c + b] are the
    pieces of [a] followed by the pieces of [b]. *)
Lemma split_go_char (c : ascii) (a b : str) : forall fuel : nat,
  (length (a ++ c :: b) <= fuel)%nat ->
  split_go fuel [c] (a ++ c :: b)
  = split_go (length a) [c] a ++ split_go (length b) [c] b.
Proof.
  assert (Hsep : [c] <> []) by discriminate.
  induction a as [|x a IH]; intros fuel Hlen.
  - simpl in *. destruct fuel as [|fuel]; [lia|]. simpl.
    destruct (decide (c = c)) as [_|]; [|contradiction]. simpl. f_equal.
    apply (split_go_fuel [c] Hsep); lia.
  - destruct fuel as [|fuel]; [simpl in Hlen; lia|]. simpl in Hlen.
    cbn [app split_go length after_prefix].
    destruct (decide (c = x)) as [->|Hne].
    + rewrite (IH fuel) by lia. reflexivity.
    + rewrite (IH fuel) by lia.
      pose proof (split_go_nonempty (length a) [c] a) as Hne'.
      destruct (split_go (length a) [c] a) as [|p ps]; [contradiction|].
      reflexivity.
Qed.

Lemma replace_go_fuel (old new : str) : old <> [] -> forall (f1 f2 : nat) (s : str),
  (length s <= f1)%nat -> (length s <= f2)%nat ->
  replace_go f1 old new s = replace_go f2 old new s.
Proof.
  intros Hold. induction f1 as [|f1 IH]; intros f2 s H1 H2.
  - destruct s; [|simpl in H1; lia].
    destruct f2; simpl; [reflexivity|].
    destruct old; [contradiction | reflexivity].
  - destruct f2 as [|f2].
    + destruct s; [|simpl in H2; lia].
      simpl. destruct old; [contradiction | reflexivity].
    + simpl. destruct (after_prefix old s) as [r|] eqn:E.
      * apply after_prefix_Some in E. subst s.
        rewrite length_app in H1, H2.
        destruct old as [|x old]; [contradiction|]. simpl in H1, H2.
        f_equal. apply IH; lia.
      * destruct s as [|c s]; [reflexivity|]. simpl in H1, H2.
        rewrite (IH f2 s) by lia. reflexivity.
Qed.

(** Without an occurrence of [old] nothing is replaced. *)
Lemma replace_go_no_occurrence (old new : str) : forall (fuel : nat) (s : str),
  ~ occurs old s -> replace_go fuel old new s = s.
Proof.
  induction fuel as [|fuel IH]; intros s Hno; simpl; [reflexivity|].
  rewrite (after_prefix_None_occurs old s Hno).
  destruct s as [|c s]; [reflexivity|].
  rewrite IH; [reflexivity|].
  intros Hocc. apply Hno, occurs_tail, Hocc.
Qed.

(** The first occurrence of [old] is replaced and the rest is worked on. *)
Lemma replace_go_first (old new : str) : old <> [] ->
  forall (a b : str) (fuel : nat),
  (length (a ++ old ++ b) <= fuel)%nat ->
  first_at old a (a ++ old ++ b) ->
  replace_go fuel old new (a ++ old ++ b)
  = a ++ new ++ replace_go (length b) old new b.
Proof.
  intros Hold. induction a as [|c a IH]; intros b fuel Hlen Hfirst.
  - simpl in *. destruct fuel as [|fuel].
    + rewrite length_app in Hlen. destruct old; [contradiction | simpl in Hlen; lia].
    + simpl. rewrite after_prefix_app. f_equal.
      apply (replace_go_fuel old new Hold); [|lia].
      rewrite length_app in Hlen. destruct old; [contradiction | simpl in Hlen; lia].
  - destruct fuel as [|fuel]; [simpl in Hlen; lia|].
    pose proof (first_at_no_prefix old c a _ Hfirst) as Hnp.
    simpl in Hnp, Hlen |- *. rewrite Hnp.
    rewrite (IH b fuel); [reflexivity | lia |].
    apply (first_at_tail old c). exact Hfirst.
Qed.

(** Replacing one character by one character is a character map. *)
Lemma replace_go_char (c d : ascii) : forall (fuel : nat) (s : str),
  (length s <= fuel)%nat ->
  replace_go fuel [c] [d] s = map (fun x => if decide (x = c) then d else x) s.
Proof.
  induction fuel as [|fuel IH]; intros s Hlen.
  - destruct s; [reflexivity | simpl in Hlen; lia].
  - destruct s as [|x s]; [reflexivity|]. simpl in Hlen.
    cbn [replace_go after_prefix map].
    destruct (decide (c = x)) as [->|Hne].
    + destruct (decide (x = x)) as [_|]; [|contradiction].
      cbn [app]. rewrite IH by lia. reflexivity.
    + destruct (decide (x = c)) as [->|_]; [contradiction|].
      rewrite IH by lia. reflexivity.
Qed.

(** [replace] only ever yields characters of the string or of [new]. *)
Lemma replace_go_elem (old new : str) (x : ascii) : forall (fuel : nat) (s : str),
  x ∈ replace_go fuel old new s -> x ∈ s \/ x ∈ new.
Proof.
  induction fuel as [|fuel IH]; intros s Hx; simpl in Hx; [auto|].
  destruct (after_prefix old s) as [r|] eqn:E.
  - apply after_prefix_Some in E. subst s.
    apply elem_of_app in Hx as [Hx|Hx]; [auto|].
    destruct (IH r Hx) as [H|H]; [|auto].
    left. apply elem_of_app. right. exact H.
  - destruct s as [|c s]; [inversion Hx|].
    apply elem_of_cons in Hx as [->|Hx]; [left; left|].
    destruct (IH s Hx) as [H|H]; [left; right; exact H | auto].
Qed.

End PyStrFacts.

(** ** The development widgets: module names from paths *)

Module QtDevFacts.

Import PyStr QtDev PyStrFacts.

Example region_module :
  path_to_module (lit "C:" ++ [backslash] ++ lit "src" ++ [backslash]
                    ++ package_sep ++ lit "layers" ++ [backslash] ++ lit "region.py")
  = Returns (lit "napari_plot.layers.region").
Proof. reflexivity. Qed.

Example posix_path :
  path_to_module (lit "/src/napari_plot/layers/region.py") = Raises IndexError.
Proof. reflexivity. Qed.

Example parent_of_region_module :
  get_parent_module (lit "napari_plot.layers.region")
  = Returns (lit "napari_plot.layers").
Proof. reflexivity. Qed.

Lemma package_sep_nonempty : package_sep <> [].
Proof. discriminate. Qed.

Lemma split_package_sep (path : str) :
  split package_sep path = Returns (split_go (length path) package_sep path).
Proof. reflexivity. Qed.

(** X1.  [path_to_module] raises IndexError exactly when the path does not
    contain ["napari_plot\\"] (so on every path written with forward
    slashes); on every other path it returns. *)
Theorem path_to_module_raises_iff (path : str) :
  (path_to_module path = Raises IndexError <-> ~ occurs package_sep path) /\
  (occurs package_sep path -> exists m, path_to_module path = Returns m) /\
  (backslash ∉ path -> path_to_module path = Raises IndexError).
Proof.
  assert (Hno : ~ occurs package_sep path -> path_to_module path = Raises IndexError).
  { intros H. unfold path_to_module. rewrite split_package_sep.
    rewrite (split_go_no_occurrence package_sep _ path H). reflexivity. }
  assert (Hyes : occurs package_sep path -> exists m, path_to_module path = Returns m).
  { intros H. unfold path_to_module. rewrite split_package_sep.
    pose proof (split_go_occurs package_sep package_sep_nonempty
                  (length path) path (le_n _) H) as H2.
    destruct (split_go (length path) package_sep path) as [|p0 [|p1 ps]];
      simpl in H2; try lia.
    simpl. eauto. }
  split; [split; [|exact Hno] | split; [exact Hyes|]].
  - intros Hraise Hocc. destruct (Hyes Hocc) as [m Hm]. congruence.
  - intros Hbs. apply Hno. intros (a & b & E). apply Hbs. subst path.
    apply elem_of_app. right. apply elem_of_app. left.
    unfold package_sep. apply elem_of_app. right. left.
Qed.

Lemma path_to_module_raises_iff_witness :
  path_to_module (lit "/src/napari_plot/layers/region.py") = Raises IndexError /\
  exists m,
    path_to_module (lit "C:" ++ package_sep ++ lit "viewer.py") = Returns m.
Proof.
  split.
  - apply (proj2 (proj2 (path_to_module_raises_iff
                           (lit "/src/napari_plot/layers/region.py")))).
    intros Hin. simpl in Hin.
    repeat (apply elem_of_cons in Hin as [Hin|Hin]; [discriminate|]).
    inversion Hin.
  - apply (proj1 (proj2 (path_to_module_raises_iff
                           (lit "C:" ++ package_sep ++ lit "viewer.py")))).
    exists (lit "C:"), (lit "viewer.py"). reflexivity.
Defined.

Lemma backslash_not_in_prefix : backslash ∉ lit "napari_plot.".
Proof.
  intros Hin. simpl in Hin.
  repeat (apply elem_of_cons in Hin as [Hin|Hin]; [discriminate|]).
  inversion Hin.
Qed.

Lemma replace_backslash (s : str) :
  replace [backslash] (lit ".") s
  = map (fun x => if decide (x = backslash) then dot else x) s.
Proof. apply (replace_go_char backslash dot). lia. Qed.

Lemma replace_py (s : str) :
  replace (lit ".py") (lit "") s = replace_go (length s) (lit ".py") [] s.
Proof. reflexivity. Qed.

(** X2.  What [path_to_module] returns starts with ["napari_plot."] and
    never contains a backslash. *)
Theorem path_to_module_dotted (path m : str) :
  path_to_module path = Returns m ->
  (exists r, m = lit "napari_plot." ++ r) /\ backslash ∉ m.
Proof.
  unfold path_to_module. rewrite split_package_sep.
  destruct (split_go (length path) package_sep path !! 1%nat) as [module|];
    [|discriminate].
  intros E.
  assert (Hm : lit "napari_plot."
                 ++ replace (lit ".py") (lit "")
                      (replace [backslash] (lit ".") module) = m) by congruence.
  clear E. subst m. split; [eauto|].
  intros Hin. apply elem_of_app in Hin as [Hin|Hin].
  - exact (backslash_not_in_prefix Hin).
  - rewrite replace_py in Hin.
    apply replace_go_elem in Hin as [Hin|Hin]; [|inversion Hin].
    rewrite replace_backslash in Hin.
    apply list_elem_of_fmap in Hin as (y & Hy & _).
    destruct (decide (y = backslash)) as [_|Hne]; [discriminate | congruence].
Qed.

Lemma path_to_module_dotted_witness :
  backslash ∉ lit "napari_plot.layers.region".
Proof.
  apply (path_to_module_dotted
           (lit "C:" ++ [backslash] ++ lit "src" ++ [backslash]
              ++ package_sep ++ lit "layers" ++ [backslash] ++ lit "region.py")
           (lit "napari_plot.layers.region")).
  reflexivity.
Defined.

Lemma occurs_char (c : ascii) (s : str) : occurs [c] s -> c ∈ s.
Proof.
  intros (a & b & ->). apply elem_of_app. right. left.
Qed.

Lemma split_dot (s : str) :
  split (lit ".") s = Returns (split_go (length s) [dot] s).
Proof. reflexivity. Qed.

(** X3.  [get_parent_module] undoes the appending of a last name:
    for a name without a dot, the parent of [parent + "." + name] is
    [parent]; and a module name without a dot has the empty string as its
    parent. *)
Theorem get_parent_module_of_child (parent name : str) :
  dot ∉ name ->
  get_parent_module (parent ++ lit "." ++ name) = Returns parent /\
  get_parent_module name = Returns (lit "").
Proof.
  intros Hname.
  assert (Hone : forall fuel, split_go fuel [dot] name = [name]).
  { intros fuel. apply split_go_no_occurrence.
    intros Hocc. apply Hname, occurs_char, Hocc. }
  unfold get_parent_module. rewrite !split_dot. split.
  - change (parent ++ lit "." ++ name) with (parent ++ dot :: name).
    rewrite (split_go_char dot parent name) by lia.
    rewrite Hone, removelast_last.
    change (lit ".") with [dot].
    rewrite join_split_go; [reflexivity | discriminate | lia].
  - rewrite Hone. reflexivity.
Qed.

Lemma get_parent_module_of_child_witness :
  get_parent_module (lit "napari_plot.layers" ++ lit "." ++ lit "region")
  = Returns (lit "napari_plot.layers").
Proof.
  apply (get_parent_module_of_child (lit "napari_plot.layers") (lit "region")).
  intros Hin. simpl in Hin.
  repeat (apply elem_of_cons in Hin as [Hin|Hin]; [discriminate|]).
  inversion Hin.
Defined.

(** A name that does not begin with ["py"], followed by anything that
    begins with a dot, still does not begin with ["py"]. *)
Lemma no_py_prefix_app (q rest : str) :
  after_prefix (lit "py") q = None ->
  after_prefix (lit "py") (q ++ dot :: rest) = None.
Proof.
  destruct q as [|c1 [|c2 q]]; simpl; try reflexivity.
  - intros _. destruct (decide ("p"%char = c1)); reflexivity.
  - destruct (decide ("p"%char = c1)); [|reflexivity].
    destruct (decide ("y"%char = c2)); [discriminate | reflexivity].
Qed.

Lemma no_py_prefix_join (q : str) (rest : list str) :
  after_prefix (lit "py") q = None ->
  after_prefix (lit "py") (join [dot] (q :: rest)) = None.
Proof.
  intros Hq. destruct rest as [|r rest]; [exact Hq|].
  change (join [dot] (q :: r :: rest)) with (q ++ dot :: join [dot] (r :: rest)).
  apply no_py_prefix_app, Hq.
Qed.

(** Names without dots, none but the first beginning with ["py"], joined
    with dots: [".py"] does not occur. *)
Lemma no_dot_py_in_join (names : list str) :
  Forall (fun n => dot ∉ n) names ->
  Forall (fun n => after_prefix (lit "py") n = None) (tail names) ->
  ~ occurs (lit ".py") (join [dot] names).
Proof.
  induction names as [|p rest IH]; intros Hdots Hpy (a & b & E).
  - simpl in E. destruct a; discriminate.
  - apply Forall_cons in Hdots as [Hp Hdots].
    destruct rest as [|q rest].
    + simpl in E. apply Hp. rewrite E. apply elem_of_app. right. left.
    + change (tail (p :: q :: rest)) with (q :: rest) in Hpy.
      apply Forall_cons in Hpy as [Hq Hpy].
      change (join [dot] (p :: q :: rest))
        with (p ++ dot :: join [dot] (q :: rest)) in E.
      change (lit ".py" ++ b) with (dot :: lit "py" ++ b) in E.
      assert (Hstart : dot :: join [dot] (q :: rest) = dot :: lit "py" ++ b -> False).
      { intros E'.
        assert (E'' : join [dot] (q :: rest) = lit "py" ++ b) by congruence.
        pose proof (no_py_prefix_join q rest Hq) as Hnone.
        rewrite E'', after_prefix_app in Hnone. discriminate. }
      apply app_eq_app in E as [l [[E1 E2]|[E1 E2]]].
      * destruct l as [|x l].
        -- apply Hstart. symmetry. exact E2.
        -- assert (Ex : x = dot) by (cbn [app] in E2; congruence).
           subst x. apply Hp. rewrite E1. apply elem_of_app. right. left.
      * destruct l as [|x l].
        -- apply Hstart. exact E2.
        -- assert (E3 : join [dot] (q :: rest) = l ++ lit ".py" ++ b)
             by (change (lit ".py" ++ b) with (dot :: lit "py" ++ b);
                 injection E2 as _ E2; exact E2).
           apply (IH Hdots).
           ++ destruct rest as [|r rest']; [constructor | exact Hpy].
           ++ exists l, b. exact E3.
Qed.

(** Behind a string in which [".py"] does not occur, the first [".py"]
    is the one that is appended. *)
Lemma first_dot_py_at_end (t : str) :
  ~ occurs (lit ".py") t -> first_at (lit ".py") t (t ++ lit ".py" ++ []).
Proof.
  intros Hno. split; [exists []; reflexivity|].
  intros a' b' E.
  destruct (decide (length t <= length a')%nat) as [|Hlt]; [assumption|].
  exfalso. apply Hno.
  apply app_eq_app in E as [l [[E1 E2]|[E1 E2]]].
  - destruct l as [|x1 [|x2 [|x3 l]]].
    + rewrite app_nil_r in E1. subst a'. lia.
    + simpl in E2. injection E2 as -> E2. discriminate.
    + simpl in E2. injection E2 as -> -> E2. discriminate.
    + simpl in E2. injection E2 as -> -> -> E2.
      exists a', l. exact E1.
  - subst a'. rewrite length_app in Hlt. lia.
Qed.

(** On names without a backslash, replacing the backslashes of the joined
    path by dots gives the names joined by dots. *)
Lemma replace_backslash_id (n : str) :
  backslash ∉ n -> replace [backslash] (lit ".") n = n.
Proof.
  intros Hn. rewrite replace_backslash.
  induction n as [|x n IH]; [reflexivity|].
  apply not_elem_of_cons in Hn as [Hx Hn]. cbn [map].
  destruct (decide (x = backslash)) as [->|_]; [contradiction|].
  rewrite IH by exact Hn. reflexivity.
Qed.

Lemma replace_backslash_app (a b : str) :
  replace [backslash] (lit ".") (a ++ b)
  = replace [backslash] (lit ".") a ++ replace [backslash] (lit ".") b.
Proof. rewrite !replace_backslash. apply map_app. Qed.

Lemma replace_backslash_join (names : list str) :
  Forall (fun n => backslash ∉ n) names ->
  replace [backslash] (lit ".") (join [backslash] names) = join [dot] names.
Proof.
  induction names as [|p rest IH]; intros Hall; [reflexivity|].
  apply Forall_cons in Hall as [Hp Hrest].
  destruct rest as [|q rest]; [apply replace_backslash_id, Hp|].
  change (join [backslash] (p :: q :: rest))
    with (p ++ [backslash] ++ join [backslash] (q :: rest)).
  change (join [dot] (p :: q :: rest))
    with (p ++ [dot] ++ join [dot] (q :: rest)).
  rewrite !replace_backslash_app, (replace_backslash_id p Hp), (IH Hrest).
  reflexivity.
Qed.

Lemma backslash_not_in_py : backslash ∉ lit ".py".
Proof.
  intros Hin. simpl in Hin.
  repeat (apply elem_of_cons in Hin as [Hin|Hin]; [discriminate|]).
  inversion Hin.
Qed.

(** X4.  For a path [directory + "napari_plot\\" + names joined by
    backslashes + ".py"] in which that is the first ["napari_plot\\"] and
    the only one, with names free of dots and backslashes and none but the
    first beginning with ["py"], [path_to_module] returns the dotted module
    name ["napari_plot." + names joined by dots]. *)
Theorem path_to_module_of_module_path (directory : str) (names : list str) :
  first_at package_sep directory (module_path directory names) ->
  ~ occurs package_sep (join [backslash] names ++ lit ".py") ->
  Forall (fun n => backslash ∉ n) names ->
  Forall (fun n => dot ∉ n) names ->
  Forall (fun n => after_prefix (lit "py") n = None) (tail names) ->
  path_to_module (module_path directory names)
  = Returns (lit "napari_plot." ++ join [dot] names).
Proof.
  intros Hfirst Honly Hbs Hdots Hpy.
  unfold path_to_module. rewrite split_package_sep.
  unfold module_path in *.
  rewrite (split_go_first package_sep package_sep_nonempty) by (lia || exact Hfirst).
  rewrite (split_go_no_occurrence package_sep _ _ Honly).
  cbn [lookup list_lookup].
  rewrite replace_backslash_app, (replace_backslash_join names Hbs),
    (replace_backslash_id _ backslash_not_in_py), replace_py.
  pose proof (first_dot_py_at_end (join [dot] names)
                (no_dot_py_in_join names Hdots Hpy)) as Hend.
  change (join [dot] names ++ lit ".py")
    with (join [dot] names ++ lit ".py" ++ []).
  rewrite (replace_go_first (lit ".py") [] ltac:(discriminate)
             (join [dot] names) [] _ (le_n _) Hend).
  cbn [app replace_go length]. rewrite app_nil_r. reflexivity.
Qed.

Lemma path_to_module_of_module_path_witness :
  path_to_module
    (module_path (lit "C:" ++ [backslash]) [lit "layers"; lit "region"])
  = Returns (lit "napari_plot.layers.region").
Proof.
  apply (path_to_module_of_module_path
           (lit "C:" ++ [backslash]) [lit "layers"; lit "region"]).
  - split; [eexists; reflexivity|].
    intros a' b' E.
    destruct a' as [|x1 [|x2 [|x3 a']]]; simpl; try lia;
      exfalso; cbv in E; discriminate.
  - intros Hocc. apply occurs_split in Hocc; [|discriminate].
    apply Hocc. reflexivity.
  - repeat constructor; intros Hin; simpl in Hin;
      repeat (apply elem_of_cons in Hin as [Hin|Hin]; [discriminate|]);
      inversion Hin.
  - repeat constructor; intros Hin; simpl in Hin;
      repeat (apply elem_of_cons in Hin as [Hin|Hin]; [discriminate|]);
      inversion Hin.
  - repeat constructor.
Defined.

(** The replacement of [".py"] is not limited to the extension: a name
    that begins with ["py"] loses its beginning and the dot before it. *)
Example py_inside_the_path :
  path_to_module
    (module_path (lit "C:" ++ [backslash]) [lit "utils"; lit "pydevd"])
  = Returns (lit "napari_plot.utilsdevd").
Proof. reflexivity. Qed.

(** The first ["napari_plot\\"] of the path counts: below a directory of
    that name the module name starts there. *)
Example package_name_twice :
  path_to_module
    (module_path (lit "C:" ++ [backslash] ++ package_sep ++ lit "src" ++ [backslash])
       [lit "layers"; lit "region"])
  = Returns (lit "napari_plot.src.").
Proof. reflexivity. Qed.

End QtDevFacts.


(** ** Region: what the setters leave behind *)

Module RegionSetterFacts.

Import Region.
Import Samples.

Lemma with_data_view_same (s : Region.t) : with_data_view (_data_view s) s = s.
Proof. destruct s; reflexivity. Qed.

(** A loop whose steps only work on the data view changes nothing else
    on the layer, whether it gets to its end or raises. *)
Lemma for_each_data_view_only {A} (body : A -> M Region.t unit) (l : list A) :
  (forall x s, exists dv, snd (body x s) = with_data_view dv s) ->
  forall s, exists dv, snd (for_each l body s) = with_data_view dv s.
Proof.
  intros Hbody. induction l as [|x l IH]; intros s; simpl.
  - exists (_data_view s). symmetry. apply with_data_view_same.
  - unfold Py.bind. destruct (Hbody x s) as [dv1 H1].
    destruct (body x s) as [[[]|e] s1]; simpl in H1; subst s1.
    + destruct (IH (with_data_view dv1 s)) as [dv H]. exists dv. rewrite H.
      reflexivity.
    + exists dv1. reflexivity.
Qed.

Lemma set_edge_width_data_view_only (w : scalar_or_list Q) (s : Region.t) :
  exists dv, snd (set_edge_width w s) = with_data_view dv s.
Proof.
  unfold set_edge_width, Py.bind.
  assert (Hloop : forall l s0, exists dv,
            snd (for_each (enumerate l)
                   (fun '(i, width) =>
                      on_data_view (RegionList.update_edge_width i width)) s0)
            = with_data_view dv s0).
  { intros l. apply for_each_data_view_only. intros [i x] s0.
    unfold on_data_view.
    destruct (RegionList.update_edge_width i x (_data_view s0)) as [o dv].
    exists dv. reflexivity. }
  destruct w as [x|l].
  - apply Hloop.
  - destruct (negb (length l =? n_regions s)%nat).
    + exists (_data_view s). symmetry. apply with_data_view_same.
    + apply Hloop.
Qed.

Lemma set_z_index_data_view_only (z : scalar_or_list Z) (s : Region.t) :
  exists dv, snd (set_z_index z s) = with_data_view dv s.
Proof.
  unfold set_z_index, Py.bind.
  assert (Hloop : forall l s0, exists dv,
            snd (for_each (enumerate l)
                   (fun '(i, z_idx) =>
                      on_data_view (RegionList.update_z_index i z_idx)) s0)
            = with_data_view dv s0).
  { intros l. apply for_each_data_view_only. intros [i x] s0.
    unfold on_data_view.
    destruct (RegionList.update_z_index i x (_data_view s0)) as [o dv].
    exists dv. reflexivity. }
  destruct z as [x|l].
  - apply Hloop.
  - destruct (negb (length l =? n_regions s)%nat).
    + exists (_data_view s). symmetry. apply with_data_view_same.
    + apply Hloop.
Qed.

(** X5.  A list with one width per region, assigned to [edge_width], is
    what [edge_width] reads afterwards: the assignment returns, the
    z-indices and the number of regions stay, and no event is emitted. *)
Theorem edge_width_list_is_read_back (s : Region.t) (ws : list Q) :
  length ws = n_regions s ->
  let s' := snd (set_edge_width (PyList ws) s) in
  fst (set_edge_width (PyList ws) s) = Returns tt /\
  edge_width s' = ws /\
  z_index s' = z_index s /\
  n_regions s' = n_regions s /\
  events s' = events s.
Proof.
  intros Hlen s'.
  destruct (set_edge_width_data_view_only (PyList ws) s) as [dv Hdv].
  assert (Hev : events s' = events s) by (unfold s'; rewrite Hdv; reflexivity).
  revert Hev. unfold s'. clear s' Hdv dv.
  unfold set_edge_width, Py.bind, Py.ret, enumerate.
  rewrite Hlen, Nat.eqb_refl. simpl.
  destruct (RegionSetters.edge_width_loop ws 0 s) as (s1 & Hrun & Hn & Hw & Hz);
    [lia|].
  rewrite Hrun. simpl. rewrite Hw. auto.
Qed.

Lemma edge_width_list_is_read_back_witness :
  edge_width (snd (set_edge_width (PyList [4; 6]%Q) two_regions)) = [4; 6]%Q.
Proof.
  apply (edge_width_list_is_read_back two_regions [4; 6]%Q). reflexivity.
Defined.

(** X6.  The same for [z_index]: a list with one z-index per region is
    read back as it was assigned, a single z-index is read back once per
    region; the edge widths stay and no event is emitted. *)
Theorem z_index_is_read_back (s : Region.t) :
  (forall zs : list Z,
     length zs = n_regions s ->
     let s' := snd (set_z_index (PyList zs) s) in
     fst (set_z_index (PyList zs) s) = Returns tt /\
     z_index s' = zs /\
     edge_width s' = edge_width s /\
     events s' = events s) /\
  (forall z : Z,
     let s' := snd (set_z_index (Scalar z) s) in
     fst (set_z_index (Scalar z) s) = Returns tt /\
     z_index s' = replicate (n_regions s) z /\
     edge_width s' = edge_width s /\
     events s' = events s).
Proof.
  split.
  - intros zs Hlen s'.
    destruct (set_z_index_data_view_only (PyList zs) s) as [dv Hdv].
    assert (Hev : events s' = events s) by (unfold s'; rewrite Hdv; reflexivity).
    revert Hev. unfold s'. clear s' Hdv dv.
    unfold set_z_index, Py.bind, Py.ret, enumerate.
    rewrite Hlen, Nat.eqb_refl. simpl.
    destruct (RegionSetters.z_index_loop zs 0 s) as (s1 & Hrun & Hn & Hz & Hw);
      [lia|].
    rewrite Hrun. simpl. rewrite Hz. auto.
  - intros z s'.
    destruct (set_z_index_data_view_only (Scalar z) s) as [dv Hdv].
    assert (Hev : events s' = events s) by (unfold s'; rewrite Hdv; reflexivity).
    revert Hev. unfold s'. clear s' Hdv dv.
    unfold set_z_index, Py.bind, Py.ret, enumerate.
    destruct (RegionSetters.z_index_loop (replicate (n_regions s) z) 0 s)
      as (s1 & Hrun & Hn & Hz & Hw); [rewrite length_replicate; lia|].
    rewrite Hrun. simpl. rewrite Hz. auto.
Qed.

Lemma z_index_is_read_back_witness :
  z_index (snd (set_z_index (PyList [5; 2]) two_regions)) = [5; 2] /\
  z_index (snd (set_z_index (Scalar 9) two_regions)) = [9; 9].
Proof.
  destruct (z_index_is_read_back two_regions) as [Hlist Hscalar].
  split.
  - apply (Hlist [5; 2]). reflexivity.
  - apply (Hscalar 9).
Defined.

End RegionSetterFacts.


(** ** Region: what [add] appends *)

Module RegionAddFacts.

Import Region.
Import RegionInputs.
Import Samples.

Lemma appended_nothing `{RegionUtils} (rl : RegionList.t) : appended [] rl = rl.
Proof.
  unfold appended. simpl. rewrite !app_nil_r, <- !ColorInit.array_eta.
  destruct rl; reflexivity.
Qed.

(** On colour arrays of four columns, with colour rows of four entries,
    [_add_regions_to_view] returns and leaves the data view with the
    regions, the z-indices and the colour rows of its inputs appended. *)
Lemma add_regions_to_view_result `{RegionUtils} (inputs : list region_input) :
  forall rl : RegionList.t,
  ncols (RegionList._edge_color rl) = 4%nat ->
  ncols (RegionList._face_color rl) = 4%nat ->
  Forall (fun inp => length (input_edge_color inp) = 4%nat /\
                     length (input_face_color inp) = 4%nat) inputs ->
  _add_regions_to_view inputs rl = (Returns tt, appended inputs rl).
Proof.
  unfold _add_regions_to_view.
  induction inputs as [|[[[[[d ot] ew] ec] fc] z] inputs IH];
    intros rl Hec Hfc Hall.
  - rewrite appended_nothing. reflexivity.
  - apply Forall_cons in Hall as [[He Hf] Hall].
    unfold input_edge_color, input_face_color in He, Hf. simpl in He, Hf.
    cbn [for_each]. unfold Py.bind. unfold RegionList.add at 1.
    unfold concatenate. cbn [ncols rows].
    rewrite He, Hf.
    destruct (decide (ncols (RegionList._edge_color rl) = 4%nat)) as [_|];
      [|contradiction].
    destruct (decide (ncols (RegionList._face_color rl) = 4%nat)) as [_|];
      [|contradiction].
    rewrite IH by (try assumption; cbn; assumption).
    f_equal. unfold appended. cbn. rewrite <- !app_assoc. reflexivity.
Qed.

(** The colour rows of the zipped inputs are rows of the two colour
    arrays, however far the zip gets. *)
Lemma zip_inputs_color_rows (data : list (list Q)) : forall i ot ew ec fc z,
  Forall (fun inp => input_edge_color inp ∈ rows ec /\
                     input_face_color inp ∈ rows fc)
    (zip_inputs i data ot ew ec fc z).
Proof.
  induction data as [|d data IH]; intros i ot ew ec fc z; simpl.
  - constructor.
  - destruct (item ot i), (item ew i), (rows ec !! i) eqn:He,
      (rows fc !! i) eqn:Hf, (item z i); try constructor; [|apply IH].
    split; [apply (list_elem_of_lookup_2 _ i), He
           | apply (list_elem_of_lookup_2 _ i), Hf].
Qed.

Lemma transformed_color_rgba `{HC : ColorTransformations}
    (CS : ColorTransformationsSpec HC) (n : nat) (c : ColorInput) (elem : string) :
  nrows (transformed_color n c elem) = n /\ rgba_array (transformed_color n c elem).
Proof.
  destruct (ColorInit.broadcast_transformed CS n c elem "white") as (Hn & Hrgba & _).
  split; assumption.
Qed.

Lemma add_inputs_four `{HC : ColorTransformations}
    (CS : ColorTransformationsSpec HC)
    (data : list (list Q)) (ot : scalar_or_list Orientation)
    (ew : option (scalar_or_list Q)) (ec fc : option ColorInput)
    (z : option (scalar_or_list Z)) (s : Region.t) :
  Forall (fun inp => length (input_edge_color inp) = 4%nat /\
                     length (input_face_color inp) = 4%nat)
    (add_inputs data ot ew ec fc z s).
Proof.
  unfold add_inputs.
  eapply Forall_impl; [apply zip_inputs_color_rows|].
  intros inp [He Hf]. split.
  - destruct (transformed_color_rgba CS (length data)
                (color_or_current ec (length data) "edge" s) "edge_color")
      as [_ [_ Hall]].
    rewrite Forall_forall in Hall. apply (Hall _ He).
  - destruct (transformed_color_rgba CS (length data)
                (color_or_current fc (length data) "face" s) "face_color")
      as [_ [_ Hall]].
    rewrite Forall_forall in Hall. apply (Hall _ Hf).
Qed.

(** On a layer whose colour arrays have four columns, [add] of at least
    one window returns: the inputs it zipped are appended to the data
    view, [_update_dims] runs, and the [data] event is emitted last. *)
Lemma add_result `{RegionUtils} `{HC : ColorTransformations} `{HD : Dims}
    (CS : ColorTransformationsSpec HC) (DS : DimsSpec HD)
    (raw : RawData) (ot : scalar_or_list Orientation)
    (ew : option (scalar_or_list Q)) (ec fc : option ColorInput)
    (z : option (scalar_or_list Z)) (s : Region.t)
    (data : list (list Q)) (sh : scalar_or_list Orientation) :
  extract_region_orientation raw ot = Returns (data, sh) ->
  (0 < length data)%nat ->
  four_columns s ->
  exists (s' : Region.t) (emitted : list string),
    add raw ot ew ec fc z s = (Returns tt, s') /\
    _data_view s'
    = appended (add_inputs data ot ew ec fc z s) (_data_view s) /\
    events s' = events s ++ emitted ++ ["data"].
Proof.
  intros Hextract Hpos [Hec Hfc].
  rewrite (RegionAdd.add_runs raw ot ew ec fc z s data sh Hextract Hpos).
  unfold Py.bind at 1. unfold on_data_view.
  rewrite (add_regions_to_view_result _ (_data_view s) Hec Hfc
             (add_inputs_four CS data ot ew ec fc z s)).
  cbv beta iota.
  destruct (RegionAdd.update_dims_then_data DS
              (with_data_view
                 (appended (add_inputs data ot ew ec fc z s) (_data_view s)) s))
    as (s' & emitted & Hrun & Hdv & Hev).
  exists s', emitted. split; [exact Hrun|]. split; [exact Hdv | exact Hev].
Qed.

Lemma item_within {A} (x : scalar_or_list A) (k i : nat) :
  covers x k -> (i < k)%nat -> exists a, item x i = Some a.
Proof.
  destruct x as [a|l]; simpl; intros Hc Hi; [eauto|].
  apply lookup_lt_is_Some. lia.
Qed.

(** The zip yields [m] tuples when every input has [m] values to give and
    either the windows end there or one of the lists does. *)
Lemma zip_inputs_length (data : list (list Q)) : forall m i ot ew ec fc z,
  (m <= length data)%nat ->
  covers ot (i + m) -> covers ew (i + m) ->
  (i + m <= nrows ec)%nat -> (i + m <= nrows fc)%nat ->
  covers z (i + m) ->
  ((m < length data)%nat ->
   item ot (i + m) = None \/ item ew (i + m) = None \/ item z (i + m) = None) ->
  length (zip_inputs i data ot ew ec fc z) = m.
Proof.
  induction data as [|d data IH]; intros m i ot ew ec fc z Hm Hot Hew Hec Hfc Hz Hstop;
    simpl in Hm, Hstop.
  - simpl. lia.
  - destruct m as [|m].
    + rewrite Nat.add_0_r in Hstop. simpl.
      destruct (Hstop ltac:(lia)) as [E|[E|E]]; rewrite E.
      * reflexivity.
      * destruct (item ot i); reflexivity.
      * destruct (item ot i), (item ew i), (rows ec !! i), (rows fc !! i);
          reflexivity.
    + destruct (item_within ot _ i Hot) as [o Ho]; [lia|].
      destruct (item_within ew _ i Hew) as [w Hw]; [lia|].
      destruct (item_within z _ i Hz) as [zi Hzi]; [lia|].
      destruct (lookup_lt_is_Some_2 (rows ec) i) as [e He]; [unfold nrows in Hec; lia|].
      destruct (lookup_lt_is_Some_2 (rows fc) i) as [f Hf]; [unfold nrows in Hfc; lia|].
      simpl. rewrite Ho, Hw, Hzi, He, Hf. simpl. f_equal.
      replace (i + S m)%nat with (S i + m)%nat in * by lia.
      apply IH; try assumption; try lia.
      intros Hlt. apply Hstop. lia.
Qed.

(** The [k]-th tuple of the zip holds the values the inputs have at that
    place. *)
Lemma zip_inputs_lookup (data : list (list Q)) : forall i ot ew ec fc z k inp,
  zip_inputs i data ot ew ec fc z !! k = Some inp ->
  item ew (i + k) = Some (input_edge_width inp) /\
  item z (i + k) = Some (input_z_index inp) /\
  rows ec !! (i + k)%nat = Some (input_edge_color inp) /\
  rows fc !! (i + k)%nat = Some (input_face_color inp).
Proof.
  induction data as [|d data IH]; intros i ot ew ec fc z k inp Hk; simpl in Hk.
  - discriminate.
  - destruct (item ot i) as [o|] eqn:Ho; [|discriminate].
    destruct (item ew i) as [w|] eqn:Hw; [|discriminate].
    destruct (rows ec !! i) as [e|] eqn:He; [|discriminate].
    destruct (rows fc !! i) as [f|] eqn:Hf; [|discriminate].
    destruct (item z i) as [zi|] eqn:Hzi; [|discriminate].
    destruct k as [|k].
    + simpl in Hk. injection Hk as <-. rewrite Nat.add_0_r. auto.
    + simpl in Hk. replace (i + S k)%nat with (S i + k)%nat by lia.
      apply (IH _ _ _ _ _ _ _ _ Hk).
Qed.

(** A list is the image of another when they are as long and agree place
    by place. *)
Lemma map_by_lookup {A B} (f : A -> B) (l : list A) (l' : list B) :
  length l = length l' ->
  (forall k a, l !! k = Some a -> l' !! k = Some (f a)) ->
  map f l = l'.
Proof.
  intros Hlen Hk. apply list_eq. intros k.
  change (map f l) with (f <$> l). rewrite list_lookup_fmap.
  destruct (l !! k) as [a|] eqn:E; simpl.
  - symmetry. apply Hk, E.
  - symmetry. apply lookup_ge_None. apply lookup_ge_None in E. lia.
Qed.


Lemma z_index_appended `{RegionUtils} (inputs : list region_input)
    (s s' : Region.t) :
  _data_view s' = appended inputs (_data_view s) ->
  z_index s' = z_index s ++ map input_z_index inputs.
Proof.
  intros Hdv.
  unfold z_index, RegionList.z_indices. rewrite Hdv. unfold appended. simpl.
  rewrite map_app, map_map. f_equal.
  apply map_ext. intros [[[[[d o] w] e] f] z0]. reflexivity.
Qed.

Lemma n_regions_appended `{RegionUtils} (inputs : list region_input)
    (s s' : Region.t) :
  _data_view s' = appended inputs (_data_view s) ->
  n_regions s' = (n_regions s + length inputs)%nat.
Proof.
  intros Hdv. unfold n_regions. rewrite Hdv. unfold appended. simpl.
  rewrite length_app, length_map. reflexivity.
Qed.

(** X7.  [add] changes nothing unless at least one region is extracted
    from its argument: when the extraction raises, [add] raises the same
    and the layer is as before; when it yields no window, [add] returns
    with the layer as before, and no [data] event is emitted. *)
Theorem add_of_nothing `{RegionUtils} `{ColorTransformations} `{Dims}
    (raw : RawData) (ot : scalar_or_list Orientation)
    (ew : option (scalar_or_list Q)) (ec fc : option ColorInput)
    (z : option (scalar_or_list Z)) (s : Region.t) :
  (forall e, extract_region_orientation raw ot = Raises e ->
             add raw ot ew ec fc z s = (Raises e, s)) /\
  (forall sh, extract_region_orientation raw ot = Returns ([], sh) ->
              add raw ot ew ec fc z s = (Returns tt, s)).
Proof.
  split.
  - intros e He. unfold add. unfold Py.bind at 1. unfold Py.lift at 1.
    rewrite He. reflexivity.
  - intros sh Hsh. unfold add. unfold Py.bind at 1. unfold Py.lift at 1.
    rewrite Hsh. destruct ew, ec, fc; reflexivity.
Qed.

Lemma add_of_nothing_witness :
  MoreSamples.checked_add [[1; 2; 3]]%Q (Scalar VERTICAL) None None None None
    two_regions
  = (Raises (ValueError "Region must have two values."), two_regions) /\
  MoreSamples.checked_add [] (Scalar VERTICAL) None None None None two_regions
  = (Returns tt, two_regions).
Proof.
  split.
  - apply (proj1 (add_of_nothing (H := MoreSamples.checked_utils)
                    (H0 := SampleColors.sample_colors) (H1 := sample_dims)
                    [[1; 2; 3]]%Q (Scalar VERTICAL) None None None None
                    two_regions)).
    reflexivity.
  - apply (proj2 (add_of_nothing (H := MoreSamples.checked_utils)
                    (H0 := SampleColors.sample_colors) (H1 := sample_dims)
                    [] (Scalar VERTICAL) None None None None two_regions)
             (Scalar VERTICAL)).
    reflexivity.
Defined.


Lemma four_columns_two_regions : four_columns two_regions.
Proof. split; reflexivity. Qed.


(** X9.  A non-empty list of z-indices is applied region by region, zeros
    included: with a list no longer than the extracted windows, the
    layer's z-indices are the old ones followed by the list, and as many
    regions are added as the list has z-indices. *)
Theorem add_with_z_index_list `{RegionUtils} `{HC : ColorTransformations}
    `{HD : Dims}
    (CS : ColorTransformationsSpec HC) (DS : DimsSpec HD)
    (raw : RawData) (ot : scalar_or_list Orientation)
    (ew : option (scalar_or_list Q)) (ec fc : option ColorInput)
    (zs : list Z) (s : Region.t)
    (data : list (list Q)) (sh : scalar_or_list Orientation) :
  extract_region_orientation raw ot = Returns (data, sh) ->
  zs <> [] ->
  (length zs <= length data)%nat ->
  covers ot (length zs) ->
  covers (edge_width_or_current ew s) (length zs) ->
  four_columns s ->
  let s' := snd (add raw ot ew ec fc (Some (PyList zs)) s) in
  fst (add raw ot ew ec fc (Some (PyList zs)) s) = Returns tt /\
  z_index s' = z_index s ++ zs /\
  n_regions s' = (n_regions s + length zs)%nat.
Proof.
  intros Hextract Hne Hlen Hot Hew Hfour s'. unfold s'. clear s'.
  assert (Hpos : (0 < length data)%nat).
  { destruct zs; [contradiction | simpl in Hlen; lia]. }
  assert (Hz : z_index_or (Some (PyList zs)) (next_z_index s) = PyList zs).
  { destruct zs; [contradiction | reflexivity]. }
  destruct (add_result CS DS raw ot ew ec fc (Some (PyList zs)) s data sh
              Hextract Hpos Hfour) as (s1 & emitted & Hrun & Hdv & _).
  rewrite Hrun. cbn [fst snd].
  set (inputs := add_inputs data ot ew ec fc (Some (PyList zs)) s) in *.
  assert (Hn : length inputs = length zs).
  { unfold inputs, add_inputs. rewrite Hz.
    apply zip_inputs_length; simpl; try assumption; try lia.
    - rewrite (proj1 (transformed_color_rgba CS _ _ _)). exact Hlen.
    - rewrite (proj1 (transformed_color_rgba CS _ _ _)). exact Hlen.
    - intros _. right. right. apply lookup_ge_None. lia. }
  assert (Hzs : map input_z_index inputs = zs).
  { apply map_by_lookup; [exact Hn|].
    intros k inp Hk. unfold inputs, add_inputs in Hk. rewrite Hz in Hk.
    apply zip_inputs_lookup in Hk as (_ & Hzk & _). exact Hzk. }
  split; [reflexivity|].
  split. { rewrite (z_index_appended inputs s s1 Hdv), Hzs. reflexivity. }
  rewrite (n_regions_appended inputs s s1 Hdv), Hn. reflexivity.
Qed.

Lemma add_with_z_index_list_witness :
  z_index (snd (sample_add [[10; 20]; [30; 40]]%Q (Scalar VERTICAL)
                  None None None (Some (PyList [0; 5])) two_regions))
  = [0; 3; 0; 5].
Proof.
  destruct (add_with_z_index_list (H := sample_utils)
              ColorInit.sample_colors_spec RegionAdd.sample_dims_spec
              [[10; 20]; [30; 40]]%Q (Scalar VERTICAL) None None None [0; 5]
              two_regions [[10; 20]; [30; 40]]%Q (Scalar VERTICAL))
    as (_ & Hz & _).
  - reflexivity.
  - discriminate.
  - simpl. lia.
  - exact I.
  - exact I.
  - exact four_columns_two_regions.
  - exact Hz.
Defined.

Lemma tile_rgba (r : list Q) (n : nat) :
  rgba_row r -> tile r n = mk_array 4 (replicate n r) /\ rgba_array (tile r n).
Proof.
  intros Hr. unfold tile. destruct Hr as [H4 Hall]. rewrite H4.
  split; [reflexivity|]. apply ColorInit.replicate_rgba. split; assumption.
Qed.

(** The array the host makes of the current colour tiled [n] times, and
    of one RGBA tuple, is that colour [n] times. *)
Lemma transformed_current `{HC : ColorTransformations}
    (CS : ColorTransformationsSpec HC) (n : nat) (r : list Q) (elem : string) :
  rgba_row r ->
  transformed_color n (ColorArray (tile r n)) elem = mk_array 4 (replicate n r).
Proof.
  intros Hr. destruct (tile_rgba r n Hr) as [Ht Hrgba].
  assert (Hn : nrows (tile r n) = n).
  { rewrite Ht. unfold nrows. simpl. apply length_replicate. }
  unfold transformed_color.
  rewrite (transform_array n (tile r n) elem "white" Hrgba (or_intror Hn)).
  rewrite (broadcast_same n (tile r n) Hn). exact Ht.
Qed.

Lemma transformed_tuple `{HC : ColorTransformations}
    (CS : ColorTransformationsSpec HC) (n : nat) (r : list Q) (elem : string) :
  rgba_row r ->
  transformed_color n (ColorTuple r) elem = mk_array 4 (replicate n r).
Proof.
  intros Hr.
  destruct (ColorInit.broadcast_transformed CS n (ColorTuple r) elem "white")
    as (_ & _ & Hone).
  apply Hone. rewrite (transform_tuple n r elem "white" Hr). reflexivity.
Qed.

(** With all inputs covering the windows, the colour rows of the zipped
    inputs are the first rows of the two colour arrays. *)
Lemma zip_inputs_constant_colors (data : list (list Q))
    (ot : scalar_or_list Orientation) (ew : scalar_or_list Q)
    (z : scalar_or_list Z) (re rf : list Q) :
  covers ot (length data) -> covers ew (length data) -> covers z (length data) ->
  let inputs := zip_inputs 0 data ot ew
                  (mk_array 4 (replicate (length data) re))
                  (mk_array 4 (replicate (length data) rf)) z in
  length inputs = length data /\
  map input_edge_color inputs = replicate (length data) re /\
  map input_face_color inputs = replicate (length data) rf.
Proof.
  intros Hot Hew Hz inputs.
  assert (Hn : length inputs = length data).
  { unfold inputs. apply zip_inputs_length; simpl; try assumption; try lia;
      unfold nrows; simpl; rewrite length_replicate; lia. }
  split; [exact Hn|]. split.
  - apply map_by_lookup; [rewrite length_replicate; exact Hn|].
    intros k inp Hk. unfold inputs in Hk.
    apply zip_inputs_lookup in Hk as (_ & _ & He & _). exact He.
  - apply map_by_lookup; [rewrite length_replicate; exact Hn|].
    intros k inp Hk. unfold inputs in Hk.
    apply zip_inputs_lookup in Hk as (_ & _ & _ & Hf). exact Hf.
Qed.

Lemma new_region_color_edge (n : nat) (s : Region.t) :
  _get_new_region_color n "edge" s = tile (_current_edge_color s) n.
Proof.
  unfold _get_new_region_color.
  destruct (decide ("edge" = "edge")%string); [reflexivity | contradiction].
Qed.

Lemma new_region_color_face (n : nat) (s : Region.t) :
  _get_new_region_color n "face" s = tile (_current_face_color s) n.
Proof.
  unfold _get_new_region_color.
  destruct (decide ("face" = "edge")%string); [discriminate | reflexivity].
Qed.

(** X10.  The colours of new regions: added without colour arguments,
    every new region gets the layer's current edge and face colour; added
    with one RGBA tuple for each, every new region gets those.  The colour
    rows of the regions that were there stay as they are. *)
Theorem add_colors_of_new_regions `{RegionUtils} `{HC : ColorTransformations}
    `{HD : Dims}
    (CS : ColorTransformationsSpec HC) (DS : DimsSpec HD)
    (raw : RawData) (ot : scalar_or_list Orientation)
    (ew : option (scalar_or_list Q))
    (z : option (scalar_or_list Z)) (s : Region.t)
    (data : list (list Q)) (sh : scalar_or_list Orientation) :
  extract_region_orientation raw ot = Returns (data, sh) ->
  (0 < length data)%nat ->
  covers ot (length data) ->
  covers (edge_width_or_current ew s) (length data) ->
  covers (z_index_or z (next_z_index s)) (length data) ->
  four_columns s ->
  (rgba_row (_current_edge_color s) -> rgba_row (_current_face_color s) ->
   let s' := snd (add raw ot ew None None z s) in
   rows (RegionList._edge_color (_data_view s'))
   = rows (RegionList._edge_color (_data_view s))
       ++ replicate (length data) (_current_edge_color s) /\
   rows (RegionList._face_color (_data_view s'))
   = rows (RegionList._face_color (_data_view s))
       ++ replicate (length data) (_current_face_color s)) /\
  (forall re rf : list Q, rgba_row re -> rgba_row rf ->
   let s' := snd (add raw ot ew (Some (ColorTuple re)) (Some (ColorTuple rf)) z s) in
   rows (RegionList._edge_color (_data_view s'))
   = rows (RegionList._edge_color (_data_view s)) ++ replicate (length data) re /\
   rows (RegionList._face_color (_data_view s'))
   = rows (RegionList._face_color (_data_view s)) ++ replicate (length data) rf).
Proof.
  intros Hextract Hpos Hot Hew Hz Hfour. split.
  - intros He Hf s'. unfold s'. clear s'.
    destruct (add_result CS DS raw ot ew None None z s data sh
                Hextract Hpos Hfour) as (s1 & emitted & Hrun & Hdv & _).
    rewrite Hrun. cbn [snd]. rewrite Hdv.
    unfold add_inputs, color_or_current.
    rewrite new_region_color_edge, new_region_color_face.
    rewrite (transformed_current CS _ _ _ He), (transformed_current CS _ _ _ Hf).
    destruct (zip_inputs_constant_colors data ot (edge_width_or_current ew s)
                (z_index_or z (next_z_index s))
                (_current_edge_color s) (_current_face_color s) Hot Hew Hz)
      as (_ & Hec & Hfc).
    cbn. rewrite Hec, Hfc. auto.
  - intros re rf He Hf s'. unfold s'. clear s'.
    destruct (add_result CS DS raw ot ew (Some (ColorTuple re))
                (Some (ColorTuple rf)) z s data sh Hextract Hpos Hfour)
      as (s1 & emitted & Hrun & Hdv & _).
    rewrite Hrun. cbn [snd]. rewrite Hdv.
    unfold add_inputs, color_or_current.
    rewrite (transformed_tuple CS _ _ _ He), (transformed_tuple CS _ _ _ Hf).
    destruct (zip_inputs_constant_colors data ot (edge_width_or_current ew s)
                (z_index_or z (next_z_index s)) re rf Hot Hew Hz)
      as (_ & Hec & Hfc).
    cbn. rewrite Hec, Hfc. auto.
Qed.

Lemma add_colors_of_new_regions_witness :
  rows (RegionList._edge_color
          (_data_view (snd (sample_add [[10; 20]]%Q (Scalar VERTICAL)
                              None None None None two_regions))))
  = [[1; 0; 0; 1]; [1; 0; 0; 1]; [1; 0; 0; 1]]%Q /\
  rows (RegionList._face_color
          (_data_view (snd (sample_add [[10; 20]]%Q (Scalar VERTICAL) None
                              (Some (ColorTuple [0; 0; 0; 1]%Q))
                              (Some (ColorTuple [1; 0; 0; 1]%Q))
                              None two_regions))))
  = [[1; 1; 1; 1]; [1; 1; 1; 1]; [1; 0; 0; 1]]%Q.
Proof.
  destruct (add_colors_of_new_regions (H := sample_utils)
              ColorInit.sample_colors_spec RegionAdd.sample_dims_spec
              [[10; 20]]%Q (Scalar VERTICAL) None None two_regions
              [[10; 20]]%Q (Scalar VERTICAL))
    as [Hcurrent Hgiven].
  - reflexivity.
  - simpl. lia.
  - exact I.
  - exact I.
  - exact I.
  - exact four_columns_two_regions.
  - split.
    + apply Hcurrent; apply ColorInit.rgba_row_b_spec; reflexivity.
    + apply (Hgiven [0; 0; 0; 1]%Q [1; 0; 0; 1]%Q);
        apply ColorInit.rgba_row_b_spec; reflexivity.
Defined.


(** [add] keeps [_z_index] in step with the z-indices of the regions, and
    the colour arrays at four columns; the layer without regions has
    both. *)
Lemma add_keeps_z_index_in_step `{RegionUtils} `{HC : ColorTransformations}
    `{HD : Dims}
    (CS : ColorTransformationsSpec HC) (DS : DimsSpec HD)
    (raw : RawData) (ot : scalar_or_list Orientation)
    (ew : option (scalar_or_list Q)) (ec fc : option ColorInput)
    (z : option (scalar_or_list Z)) (s : Region.t)
    (data : list (list Q)) (sh : scalar_or_list Orientation) :
  extract_region_orientation raw ot = Returns (data, sh) ->
  four_columns s ->
  RegionOrder.z_index_in_step s ->
  RegionOrder.z_index_in_step (snd (add raw ot ew ec fc z s)) /\
  four_columns (snd (add raw ot ew ec fc z s)).
Proof.
  intros Hextract Hfour Hstep.
  destruct (decide (0 < length data)%nat) as [Hpos|Hzero].
  - destruct (add_result CS DS raw ot ew ec fc z s data sh Hextract Hpos Hfour)
      as (s1 & emitted & Hrun & Hdv & _).
    rewrite Hrun. cbn [snd]. split.
    + unfold RegionOrder.z_index_in_step.
      rewrite (z_index_appended _ s s1 Hdv), <- Hstep, Hdv. reflexivity.
    + destruct Hfour as [He Hf]. unfold four_columns. rewrite Hdv.
      split; [exact He | exact Hf].
  - assert (E : data = []) by (destruct data; [reflexivity | simpl in Hzero; lia]).
    subst data.
    rewrite (RegionAdd.add_without_data raw ot ew ec fc z s sh Hextract). auto.
Qed.

Lemma empty_layer_in_step :
  RegionOrder.z_index_in_step empty_layer /\ four_columns empty_layer.
Proof. repeat split. Qed.

End RegionAddFacts.


(** ** Region: [move_to_front] and [move_to_back] *)

Module RegionOrderFacts.

Import Region.
Import RegionOrder.

Example front_of_two :
  z_index (snd (move_to_front (H := sample_layer_host) [0%nat] first_selected))
  = [4; 3].
Proof. reflexivity. Qed.

Example back_of_two :
  z_index (snd (move_to_back (H := sample_layer_host) [1%nat] second_selected))
  = [0; -1].
Proof. reflexivity. Qed.

Lemma written_length (z : Z) (order : list nat) : forall l : list Z,
  length (written z order l) = length l.
Proof.
  induction order as [|j order IH]; intros l; simpl; [reflexivity|].
  unfold written in *. simpl. rewrite IH. apply length_insert.
Qed.

Lemma written_lookup_other (z : Z) (order : list nat) : forall (l : list Z) (i : nat),
  i ∉ order -> written z order l !! i = l !! i.
Proof.
  induction order as [|j order IH]; intros l i Hi; [reflexivity|].
  apply not_elem_of_cons in Hi as [Hij Hi].
  unfold written in *. simpl. rewrite (IH _ _ Hi).
  apply list_lookup_insert_ne. congruence.
Qed.

Lemma written_lookup_at (z : Z) (order : list nat) : forall (l : list Z) (i : nat),
  i ∈ order -> (i < length l)%nat -> written z order l !! i = Some z.
Proof.
  induction order as [|j order IH]; intros l i Hi Hlen; [inversion Hi|].
  destruct (decide (i ∈ order)) as [Hin|Hout].
  - unfold written in *. simpl. apply IH; [exact Hin|].
    rewrite length_insert. exact Hlen.
  - apply elem_of_cons in Hi as [->|Hi]; [|contradiction].
    pose proof (written_lookup_other z order (<[j := z]> l) j Hout) as E.
    unfold written in *. simpl. rewrite E.
    apply list_lookup_insert_eq. exact Hlen.
Qed.

(** The loop of [move_to_front] and [move_to_back]: over indices of
    regions it gets to its end, and [z] is written at those places, in the
    regions and in [_z_index]; nothing else changes. *)
Lemma write_z_loop (z : Z) (order : list nat) : forall s : Region.t,
  Forall (fun i => (i < n_regions s)%nat) order ->
  exists dv : RegionList.t,
    for_each order
      (fun index => on_data_view (RegionList.update_z_index index z)) s
    = (Returns tt, with_data_view dv s) /\
    length (RegionList.regions dv) = n_regions s /\
    RegionList.z_indices dv = written z order (z_index s) /\
    RegionList._z_index dv = written z order (RegionList._z_index (_data_view s)) /\
    RegionList.edge_widths dv = edge_width s.
Proof.
  induction order as [|j order IH]; intros s Hall.
  - exists (_data_view s). simpl. unfold Py.ret.
    rewrite RegionSetterFacts.with_data_view_same. auto.
  - apply Forall_cons in Hall as [Hj Hall].
    cbn [for_each]. unfold Py.bind. unfold on_data_view at 1.
    unfold RegionList.update_z_index at 1.
    destruct (RegionList.regions (_data_view s) !! j) as [r|] eqn:Hr.
    2:{ apply lookup_ge_None in Hr. unfold n_regions in Hj. lia. }
    cbv beta iota.
    set (dv1 := RegionList.mk _ _ _ _).
    set (s1 := with_data_view dv1 s).
    assert (Hn1 : n_regions s1 = n_regions s).
    { unfold s1, dv1, n_regions. simpl. apply length_insert. }
    destruct (IH s1) as (dv & Hrun & Hlen & Hz & Hmirror & Hw).
    { rewrite Hn1. exact Hall. }
    exists dv. split; [rewrite Hrun; reflexivity|].
    split; [congruence|].
    split.
    { rewrite Hz. unfold written. simpl. f_equal.
      unfold s1, dv1, z_index, RegionList.z_indices. simpl.
      rewrite list_fmap_insert. reflexivity. }
    split.
    { rewrite Hmirror. reflexivity. }
    rewrite Hw. unfold s1, dv1, edge_width, RegionList.edge_widths. simpl.
    rewrite list_fmap_insert. simpl.
    apply list_insert_id. rewrite list_lookup_fmap, Hr. reflexivity.
Qed.

Lemma fold_min_le (l : list Z) : forall a, fold_left Z.min l a <= a.
Proof.
  induction l as [|x l IH]; intros a; simpl; [lia|].
  specialize (IH (Z.min a x)). lia.
Qed.

Lemma fold_min_elem (l : list Z) : forall a x, x ∈ l -> fold_left Z.min l a <= x.
Proof.
  induction l as [|y l IH]; intros a x Hx; simpl.
  - inversion Hx.
  - apply elem_of_cons in Hx as [->|Hx].
    + pose proof (fold_min_le l (Z.min a y)). lia.
    + apply IH, Hx.
Qed.

Lemma fold_min_in (l : list Z) : forall a,
  fold_left Z.min l a = a \/ fold_left Z.min l a ∈ l.
Proof.
  induction l as [|y l IH]; intros a; simpl; [auto|].
  destruct (IH (Z.min a y)) as [E|E].
  - rewrite E. destruct (Z.min_spec a y) as [[_ ->]|[_ ->]]; [auto | right; left].
  - right. right. exact E.
Qed.

(** [max] of a non-empty list is its greatest element, [min] its least. *)
Lemma py_max_is_max (l : list Z) :
  l <> [] ->
  exists m, py_max l = Returns m /\ m ∈ l /\ forall x, x ∈ l -> x <= m.
Proof.
  destruct l as [|a l]; [congruence|]. intros _.
  exists (fold_left Z.max l a). split; [reflexivity|]. split.
  - destruct (RegionAdd.fold_max_in l a) as [->|E]; [left | right; exact E].
  - intros x Hx. apply elem_of_cons in Hx as [->|Hx].
    + apply RegionAdd.fold_max_ge.
    + apply RegionAdd.fold_max_elem, Hx.
Qed.

Lemma py_min_is_min (l : list Z) :
  l <> [] ->
  exists m, py_min l = Returns m /\ m ∈ l /\ forall x, x ∈ l -> m <= x.
Proof.
  destruct l as [|a l]; [congruence|]. intros _.
  exists (fold_left Z.min l a). split; [reflexivity|]. split.
  - destruct (fold_min_in l a) as [->|E]; [left | right; exact E].
  - intros x Hx. apply elem_of_cons in Hx as [->|Hx].
    + apply fold_min_le.
    + apply fold_min_elem, Hx.
Qed.

(** Writing [z] at the selected indices and refreshing: the run returns,
    the selected regions have z-index [z], the others keep theirs. *)
Lemma write_then_refresh `{H : LayerHost} (HS : LayerHostSpec H)
    (z : Z) (order : list nat) (s : Region.t) :
  iterates order s ->
  selection_in_range s ->
  z_index_in_step s ->
  exists s1 : Region.t,
    Py.bind (for_each order
               (fun index => on_data_view (RegionList.update_z_index index z)))
      (fun _ => refresh) s
    = (Returns tt, s1) /\
    n_regions s1 = n_regions s /\
    edge_width s1 = edge_width s /\
    z_index_in_step s1 /\
    (forall i, i ∈ _selected_data s -> z_index s1 !! i = Some z) /\
    (forall i, i ∉ _selected_data s -> z_index s1 !! i = z_index s !! i).
Proof.
  intros Hit Hrange Hstep.
  assert (Hmem : forall i, i ∈ order <-> i ∈ _selected_data s).
  { intros i. unfold iterates in Hit. rewrite Hit. apply elem_of_elements. }
  assert (Hall : Forall (fun i => (i < n_regions s)%nat) order).
  { apply Forall_forall. intros i Hi. apply Hrange, Hmem, Hi. }
  destruct (write_z_loop z order s Hall) as (dv & Hrun & Hlen & Hz & Hmirror & Hw).
  pose proof (refresh_returns (with_data_view dv s)) as Hret.
  pose proof (refresh_data_view (with_data_view dv s)) as Hdv.
  exists (snd (refresh (with_data_view dv s))).
  split.
  { unfold Py.bind. rewrite Hrun.
    destruct (refresh (with_data_view dv s)) as [o s2]. simpl in *.
    rewrite Hret. reflexivity. }
  unfold n_regions, edge_width, z_index_in_step, z_index. rewrite Hdv. simpl.
  split; [exact Hlen|]. split; [exact Hw|].
  split; [rewrite Hmirror, Hz, Hstep; reflexivity|].
  rewrite Hz. split.
  - intros i Hi. apply written_lookup_at; [apply Hmem, Hi|].
    rewrite RegionSetters.n_regions_z_index. apply Hrange, Hi.
  - intros i Hi. apply written_lookup_other. intros Hin. apply Hi, Hmem, Hin.
Qed.

Lemma selection_has_regions (s : Region.t) :
  (0 < size (_selected_data s))%nat -> selection_in_range s -> z_index s <> [].
Proof.
  intros Hpos Hrange E.
  destruct (size_pos_elem_of _ Hpos) as [i Hi].
  specialize (Hrange i Hi).
  pose proof (RegionSetters.n_regions_z_index s) as Hn.
  rewrite E in Hn. simpl in Hn. lia.
Qed.

(** X11.  [move_to_front] with regions selected (the selected indices
    being indices of regions): it returns; every selected region gets the
    z-index [max + 1], one more than the greatest z-index of the layer, so
    it lies strictly above every region that is not selected; the z-indices
    of the other regions, all edge widths and the number of regions are
    unchanged.  This holds for every order in which the loop meets the
    selected indices. *)
Theorem move_to_front_is_in_front `{H : LayerHost} (HS : LayerHostSpec H)
    (order : list nat) (s : Region.t) :
  iterates order s ->
  (0 < size (_selected_data s))%nat ->
  selection_in_range s ->
  z_index_in_step s ->
  let s' := snd (move_to_front order s) in
  fst (move_to_front order s) = Returns tt /\
  n_regions s' = n_regions s /\
  edge_width s' = edge_width s /\
  z_index_in_step s' /\
  exists front : Z,
    (front - 1) ∈ z_index s /\
    (forall z, z ∈ z_index s -> z < front) /\
    (forall i, i ∈ _selected_data s -> z_index s' !! i = Some front) /\
    (forall i, i ∉ _selected_data s -> z_index s' !! i = z_index s !! i).
Proof.
  intros Hit Hpos Hrange Hstep s'.
  destruct (py_max_is_max _ (selection_has_regions s Hpos Hrange))
    as (m & Hmax & Hin & Hle).
  destruct (write_then_refresh HS (m + 1) order s Hit Hrange Hstep)
    as (s1 & Hrun & Hn & Hw & Hstep1 & Hsel & Hother).
  assert (Erun : move_to_front order s = (Returns tt, s1)).
  { unfold move_to_front.
    destruct (decide (size (_selected_data s) = 0%nat)) as [E|_]; [lia|].
    unfold Py.bind at 1. rewrite Hstep, Hmax. exact Hrun. }
  unfold s'. rewrite Erun. simpl.
  split; [reflexivity|]. split; [exact Hn|]. split; [exact Hw|].
  split; [exact Hstep1|].
  exists (m + 1). split.
  { replace (m + 1 - 1) with m by lia. exact Hin. }
  split; [intros z Hz; specialize (Hle z Hz); lia|].
  split; assumption.
Qed.

(** X12.  [move_to_back] with regions selected: it returns; every
    selected region gets the z-index [min - 1], one less than the least
    z-index of the layer, so it lies strictly below every region that is
    not selected; the z-indices of the other regions, all edge widths and
    the number of regions are unchanged. *)
Theorem move_to_back_is_behind `{H : LayerHost} (HS : LayerHostSpec H)
    (order : list nat) (s : Region.t) :
  iterates order s ->
  (0 < size (_selected_data s))%nat ->
  selection_in_range s ->
  z_index_in_step s ->
  let s' := snd (move_to_back order s) in
  fst (move_to_back order s) = Returns tt /\
  n_regions s' = n_regions s /\
  edge_width s' = edge_width s /\
  z_index_in_step s' /\
  exists back : Z,
    (back + 1) ∈ z_index s /\
    (forall z, z ∈ z_index s -> back < z) /\
    (forall i, i ∈ _selected_data s -> z_index s' !! i = Some back) /\
    (forall i, i ∉ _selected_data s -> z_index s' !! i = z_index s !! i).
Proof.
  intros Hit Hpos Hrange Hstep s'.
  destruct (py_min_is_min _ (selection_has_regions s Hpos Hrange))
    as (m & Hmin & Hin & Hle).
  destruct (write_then_refresh HS (m - 1) order s Hit Hrange Hstep)
    as (s1 & Hrun & Hn & Hw & Hstep1 & Hsel & Hother).
  assert (Erun : move_to_back order s = (Returns tt, s1)).
  { unfold move_to_back.
    destruct (decide (size (_selected_data s) = 0%nat)) as [E|_]; [lia|].
    unfold Py.bind at 1. rewrite Hstep, Hmin. exact Hrun. }
  unfold s'. rewrite Erun. simpl.
  split; [reflexivity|]. split; [exact Hn|]. split; [exact Hw|].
  split; [exact Hstep1|].
  exists (m - 1). split.
  { replace (m - 1 + 1) with m by lia. exact Hin. }
  split; [intros z Hz; specialize (Hle z Hz); lia|].
  split; assumption.
Qed.

Lemma sample_layer_host_spec : LayerHostSpec sample_layer_host.
Proof. split; intros s; reflexivity. Qed.

Lemma first_selected_ready :
  iterates [0%nat] first_selected /\
  (0 < size (_selected_data first_selected))%nat /\
  selection_in_range first_selected /\
  z_index_in_step first_selected.
Proof.
  unfold iterates, selection_in_range.
  change (_selected_data first_selected) with ({[0%nat]} : gset nat).
  rewrite elements_singleton, size_singleton.
  split; [reflexivity|]. split; [lia|]. split; [|reflexivity].
  intros i Hi. apply elem_of_singleton in Hi. subst i. vm_compute. lia.
Qed.

Lemma second_selected_ready :
  iterates [1%nat] second_selected /\
  (0 < size (_selected_data second_selected))%nat /\
  selection_in_range second_selected /\
  z_index_in_step second_selected.
Proof.
  unfold iterates, selection_in_range.
  change (_selected_data second_selected) with ({[1%nat]} : gset nat).
  rewrite elements_singleton, size_singleton.
  split; [reflexivity|]. split; [lia|]. split; [|reflexivity].
  intros i Hi. apply elem_of_singleton in Hi. subst i. vm_compute. lia.
Qed.

Lemma move_to_front_is_in_front_witness :
  fst (move_to_front (H := sample_layer_host) [0%nat] first_selected)
  = Returns tt /\
  n_regions (snd (move_to_front (H := sample_layer_host) [0%nat] first_selected))
  = 2%nat.
Proof.
  destruct first_selected_ready as (Hit & Hpos & Hrange & Hstep).
  destruct (move_to_front_is_in_front sample_layer_host_spec [0%nat]
              first_selected Hit Hpos Hrange Hstep) as (Hret & Hn & _).
  split; [exact Hret | exact Hn].
Defined.

Lemma move_to_back_is_behind_witness :
  fst (move_to_back (H := sample_layer_host) [1%nat] second_selected)
  = Returns tt /\
  n_regions (snd (move_to_back (H := sample_layer_host) [1%nat] second_selected))
  = 2%nat.
Proof.
  destruct second_selected_ready as (Hit & Hpos & Hrange & Hstep).
  destruct (move_to_back_is_behind sample_layer_host_spec [1%nat]
              second_selected Hit Hpos Hrange Hstep) as (Hret & Hn & _).
  split; [exact Hret | exact Hn].
Defined.

(** X13.  Where [move_to_front] and [move_to_back] do nothing or fail:
    with nothing selected both return at once and the layer is exactly as
    before (no refresh); with something selected on a layer whose
    [_z_index] is empty, [max] and [min] of the empty sequence raise
    ValueError and the layer is exactly as before. *)
Theorem move_without_selection_or_regions `{H : LayerHost}
    (order : list nat) (s : Region.t) :
  (size (_selected_data s) = 0%nat ->
   move_to_front order s = (Returns tt, s) /\
   move_to_back order s = (Returns tt, s)) /\
  ((0 < size (_selected_data s))%nat ->
   RegionList._z_index (_data_view s) = [] ->
   (exists msg, move_to_front order s = (Raises (ValueError msg), s)) /\
   (exists msg, move_to_back order s = (Raises (ValueError msg), s))).
Proof.
  split.
  - intros E. unfold move_to_front, move_to_back.
    destruct (decide (size (_selected_data s) = 0%nat)); [|contradiction].
    split; reflexivity.
  - intros Hpos E. unfold move_to_front, move_to_back.
    destruct (decide (size (_selected_data s) = 0%nat)); [lia|].
    unfold Py.bind. rewrite E. split; eexists; reflexivity.
Qed.

Lemma move_without_selection_or_regions_witness :
  move_to_front (H := sample_layer_host) [] Samples.two_regions
  = (Returns tt, Samples.two_regions) /\
  exists msg,
    move_to_back (H := sample_layer_host) [0%nat]
      (Samples.with_selection {[0%nat]} SELECT None Samples.empty_layer)
    = (Raises (ValueError msg),
       Samples.with_selection {[0%nat]} SELECT None Samples.empty_layer).
Proof.
  split.
  - apply (proj1 (move_without_selection_or_regions (H := sample_layer_host)
                    [] Samples.two_regions)).
    reflexivity.
  - apply (proj2 (move_without_selection_or_regions (H := sample_layer_host)
                    [0%nat]
                    (Samples.with_selection {[0%nat]} SELECT None
                       Samples.empty_layer))).
    + change (_selected_data
                (Samples.with_selection {[0%nat]} SELECT None Samples.empty_layer))
        with ({[0%nat]} : gset nat).
      rewrite size_singleton. lia.
    + reflexivity.
Defined.

End RegionOrderFacts.


(** ** Region: the [data] setter *)

Module RegionDataFacts.

Import Region.
Import RegionInputs.
Import RegionData.

Example data_on_empty_layer :
  sample_set_data [[10; 20]]%Q Samples.empty_layer
  = (Raises AttributeError, Samples.empty_layer).
Proof. reflexivity. Qed.

Example data_trimmed_to_one :
  let s' := snd (sample_set_data [[10; 20]]%Q Samples.two_regions) in
  edge_width s' = [1]%Q /\ z_index s' = [0] /\
  events s' = ["set_data"; "data"; "set_data"; "data"; "editable"].
Proof. repeat split. Qed.



(** X14.  The [data] setter cannot add regions: where the base class
    has no [_get_new_shape_color] (and [Region] defines none), an
    assignment of data with more regions than the layer has raises, and
    the layer is exactly as before.  The exception is AttributeError,
    unless [get_default_region_type] has raised before. *)
Theorem set_data_cannot_grow `{DataHelpers} `{ColorTransformations}
    `{Dims} `{Editable}
    (value : RawData) (s : Region.t)
    (data : list (list Q)) (o : option (list Orientation)) :
  inherited_get_new_shape_color = None ->
  extract_without_orientation value = Returns (data, o) ->
  (n_regions s < length data)%nat ->
  (exists e, set_data value s = (Raises e, s)) /\
  (forall default_type,
     get_default_region_type (default (orientation s) o) = Returns default_type ->
     set_data value s = (Raises AttributeError, s)).
Proof.
  intros Hnone Hextract Hmore.
  assert (Hrun : set_data value s
                 = (match get_default_region_type (default (orientation s) o) with
                    | Returns _ => Raises AttributeError
                    | Raises e => Raises e
                    end, s)).
  { unfold set_data. unfold Py.bind at 1. unfold Py.lift at 1.
    rewrite Hextract. cbn [fst snd].
    destruct o as [l|]; cbn [from_option id];
      unfold Py.bind at 1; cbn [Py.ret Py.gets];
      unfold Py.bind at 1; cbn [Py.ret Py.gets];
      unfold Py.bind at 1; cbn [Py.ret Py.gets];
      unfold Py.bind at 1; cbn [Py.ret Py.gets];
      unfold Py.bind at 1; cbn [Py.ret Py.gets];
      unfold Py.bind at 1; cbn [Py.ret Py.gets];
      unfold Py.bind at 1;
      (destruct (decide (length data < n_regions s)%nat); [lia|]);
      (destruct (decide (n_regions s < length data)%nat); [|lia]);
      rewrite Hnone; unfold Py.bind, Py.lift, Py.raise;
      match goal with
      | |- context [get_default_region_type ?x] =>
          destruct (get_default_region_type x); reflexivity
      end. }
  split.
  - rewrite Hrun.
    destruct (get_default_region_type (default (orientation s) o)); eauto.
  - intros d Hd. rewrite Hrun, Hd. reflexivity.
Qed.

Lemma set_data_cannot_grow_witness :
  sample_set_data [[10; 20]; [30; 40]; [50; 60]]%Q Samples.two_regions
  = (Raises AttributeError, Samples.two_regions).
Proof.
  apply (proj2 (set_data_cannot_grow (H := Samples.sample_utils)
                  (H0 := sample_data_helpers) (H1 := SampleColors.sample_colors)
                  (H2 := Samples.sample_dims) (H3 := sample_editable)
                  [[10; 20]; [30; 40]; [50; 60]]%Q Samples.two_regions
                  [[10; 20]; [30; 40]; [50; 60]]%Q None eq_refl eq_refl
                  ltac:(vm_compute; lia))
           VERTICAL).
  reflexivity.
Defined.




End RegionDataFacts.


(** ** Centroids: the colour array on every layer *)

Module CentroidsFacts.

Import Centroids.
Import Samples.

(** What [_initialize_color] returns has [n] rows of four entries. *)
Lemma initialize_color_rows `{HC : ColorTransformations}
    (CS : ColorTransformationsSpec HC) (c : ColorInput) (n : nat) :
  nrows (Centroids_color._initialize_color c n) = n /\
  rgba_array (Centroids_color._initialize_color c n).
Proof.
  unfold Centroids_color._initialize_color.
  destruct (decide (0 < n)%nat) as [Hpos|Hz].
  - destruct (ColorInit.broadcast_transformed CS n c "color" "white")
      as (Hn & Hrgba & _). auto.
  - split; [unfold nrows; simpl; lia|]. split; [reflexivity | constructor].
Qed.

Lemma rgba_array_shape (a : ndarray) :
  rgba_array a -> ncols a = 4%nat /\ well_shaped a.
Proof.
  intros [H4 Hall]. split; [exact H4|]. unfold well_shaped. rewrite H4.
  eapply Forall_impl; [exact Hall|]. intros r [Hr _]. exact Hr.
Qed.

(** The shape of the colour array: one row of four entries per centroid. *)
Lemma reachable_color_shape `{H : Helpers} `{HC : ColorTransformations}
    (HS : HelpersSpec H) (CS : ColorTransformationsSpec HC) (s : Centroids.t) :
  reachable s ->
  nrows (_color s) = nrows (_data s) /\
  ncols (_color s) = 4%nat /\
  well_shaped (_color s).
Proof.
  induction 1 as [raw c s Hinit | value s Hs IH | c s Hs IH | index c s Hs IH].
  - unfold init in Hinit.
    destruct (parse_centroids_data raw) as [d|e]; [|discriminate].
    inversion Hinit; subst; clear Hinit. simpl.
    destruct (initialize_color_rows CS c (nrows d)) as [Hn Hrgba].
    split; [exact Hn | apply rgba_array_shape, Hrgba].
  - destruct (CentroidsData.set_data_cases value s)
      as [[e He]|(data & c1 & _ & Hrun)].
    + rewrite He. exact IH.
    + rewrite Hrun.
      destruct (CentroidsData.store_data_and_color_stores HS data c1 s)
        as (_ & Hd & Hc).
      rewrite Hd, Hc.
      destruct (initialize_color_rows CS (ColorArray c1) (nrows data))
        as [Hn Hrgba].
      split; [exact Hn | apply rgba_array_shape, Hrgba].
  - unfold set_color, emit. py_unfold. simpl.
    destruct (initialize_color_rows CS c (nrows (_data s))) as [Hn Hrgba].
    split; [exact Hn | apply rgba_array_shape, Hrgba].
  - destruct IH as (Hn & H4 & Hall).
    unfold update_color, emit. py_unfold.
    destruct (rows (_color s) !! index) as [r|] eqn:Hr; [|auto].
    destruct (decide (length c = ncols (_color s))) as [Hlen|Hlen].
    + simpl. unfold nrows in *. simpl. rewrite length_insert.
      split; [exact Hn|]. split; [exact H4|].
      unfold well_shaped. simpl. apply Forall_insert; assumption.
    + destruct c as [|x [|y c']]; simpl; auto.
      unfold nrows in *. simpl. rewrite length_insert.
      split; [exact Hn|]. split; [exact H4|].
      unfold well_shaped. simpl. apply Forall_insert; [exact Hall|].
      apply length_replicate.
Qed.

(** X16.  On every layer a program can hold -- made by the constructor
    and changed by the [data] setter, the [color] setter and
    [update_color], whether these return or raise -- the colour array has
    exactly one row per centroid, four columns, and four entries in every
    row. *)
Theorem color_array_has_a_row_per_centroid
    `{H : Helpers} `{HC : ColorTransformations}
    (HS : HelpersSpec H) (CS : ColorTransformationsSpec HC) (s : Centroids.t) :
  reachable s ->
  shape (_color s) = (nrows (_data s), 4%nat) /\
  Forall (fun r => length r = 4%nat) (rows (_color s)).
Proof.
  intros Hs. destruct (reachable_color_shape HS CS s Hs) as (Hn & H4 & Hall).
  unfold shape. rewrite Hn, H4. split; [reflexivity|].
  unfold well_shaped in Hall. rewrite H4 in Hall. exact Hall.
Qed.

Lemma color_array_has_a_row_per_centroid_witness :
  shape (_color (snd (update_color 1 [0.5; 0.5; 0.5; 1]%Q three_centroids)))
  = (3%nat, 4%nat).
Proof.
  apply (color_array_has_a_row_per_centroid
           CentroidsData.sample_helpers_spec ColorInit.sample_colors_spec
           (snd (update_color 1 [0.5; 0.5; 0.5; 1]%Q three_centroids))).
  apply (reach_update_color (H := sample_helpers)
           (HC := SampleColors.sample_colors)).
  exact CentroidsData.three_centroids_reachable.
Defined.

(** With a colour row of four entries per centroid, the [data] setter
    gets to its last three statements unless it is to grow a layer
    without centroids. *)
Lemma set_data_stores `{H : Helpers} `{HC : ColorTransformations}
    (s : Centroids.t) (value : RawData) (data : ndarray) :
  nrows (_color s) = nrows (_data s) ->
  ncols (_color s) = 4%nat ->
  well_shaped (_color s) ->
  parse_centroids_data value = Returns data ->
  (0 < nrows (_data s))%nat \/ nrows data = 0%nat ->
  exists c1 : ndarray, set_data value s = store_data_and_color data c1 s.
Proof.
  intros Hn H4 Hall Hparse Hcase.
  unfold set_data, store_data_and_color, color.
  unfold Py.bind, Py.lift, Py.gets, Py.ret. rewrite Hparse.
  destruct (decide (nrows data < nrows (_data s))%nat) as [Hlt|Hge]; [eauto|].
  destruct (decide (nrows (_data s) < nrows data)%nat) as [Hgt|Hle]; [|eauto].
  unfold last_row.
  destruct (last (rows (_color s))) as [r|] eqn:Hlast.
  2:{ apply last_None in Hlast. unfold nrows in Hn at 1. rewrite Hlast in Hn.
      simpl in Hn. lia. }
  assert (Hr : length r = 4%nat).
  { apply last_Some in Hlast as [l' E]. unfold well_shaped in Hall.
    rewrite E, H4 in Hall. apply Forall_app in Hall as [_ Hall].
    apply Forall_cons in Hall as [Hr _]. exact Hr. }
  unfold full. destruct (decide (length r = 4%nat)) as [_|]; [|contradiction].
  unfold concatenate. simpl.
  destruct (decide (ncols (_color s) = 4%nat)) as [_|]; [|contradiction].
  eauto.
Qed.

(** X17.  When the [data] setter of a layer a program can hold fails:
    for a value that parses, the setter returns unless the layer has no
    centroids and the new data has some; when it returns, the data is
    stored with one colour row per centroid; when it does not, it raises
    IndexError and the layer is exactly as before. *)
Theorem set_data_fails_only_when_growing_from_nothing
    `{H : Helpers} `{HC : ColorTransformations}
    (HS : HelpersSpec H) (CS : ColorTransformationsSpec HC)
    (s : Centroids.t) (value : RawData) (data : ndarray) :
  reachable s ->
  parse_centroids_data value = Returns data ->
  let s' := snd (set_data value s) in
  (fst (set_data value s) = Returns tt <->
   (0 < nrows (_data s))%nat \/ nrows data = 0%nat) /\
  (fst (set_data value s) = Returns tt ->
   _data s' = data /\ nrows (_color s') = nrows data) /\
  (fst (set_data value s) <> Returns tt ->
   set_data value s = (Raises IndexError, s)).
Proof.
  intros Hs Hparse s'.
  destruct (reachable_color_shape HS CS s Hs) as (Hn & H4 & Hall).
  destruct (decide ((0 < nrows (_data s))%nat \/ nrows data = 0%nat))
    as [Hcase|Hcase].
  - destruct (set_data_stores s value data Hn H4 Hall Hparse Hcase) as [c1 Hrun].
    destruct (CentroidsData.store_data_and_color_stores HS data c1 s)
      as (Hret & Hd & Hc).
    unfold s'. rewrite Hrun, Hret, Hd, Hc.
    split; [split; auto|]. split; [|intros Hne; contradiction].
    intros _. split; [reflexivity|].
    apply (initialize_color_rows CS).
  - assert (Hraise : set_data value s = (Raises IndexError, s)).
    { apply (CentroidsData.set_data_without_colors s value data);
        [lia | lia | exact Hparse | lia]. }
    unfold s'. rewrite Hraise. simpl.
    split; [split; [discriminate | contradiction]|].
    split; [discriminate | reflexivity].
Qed.

Lemma set_data_fails_only_when_growing_from_nothing_witness :
  fst (sample_set_data (mk_array 2 [[5; 50]; [6; 60]; [7; 70]; [8; 80]]%Q)
         three_centroids)
  = Returns tt.
Proof.
  destruct (set_data_fails_only_when_growing_from_nothing
              CentroidsData.sample_helpers_spec ColorInit.sample_colors_spec
              three_centroids
              (mk_array 2 [[5; 50]; [6; 60]; [7; 70]; [8; 80]]%Q)
              (mk_array 2 [[5; 50]; [6; 60]; [7; 70]; [8; 80]]%Q)
              CentroidsData.three_centroids_reachable eq_refl)
    as ([_ Hret] & _).
  apply Hret. left. vm_compute. lia.
Defined.

(** X18.  Colours that a shorter assignment to [data] trims away do not
    come back: on a layer with one RGBA colour row per centroid, assigning
    [k] centroids ([0 < k < n]) and then [n] centroids again leaves the
    first [k] colour rows followed by [n - k] copies of row [k - 1]. *)
Theorem trimmed_colors_are_lost `{H : Helpers} `{HC : ColorTransformations}
    (HS : HelpersSpec H) (CS : ColorTransformationsSpec HC)
    (s : Centroids.t) (v1 v2 : RawData) (d1 d2 : ndarray) :
  color_per_centroid s ->
  parse_centroids_data v1 = Returns d1 ->
  parse_centroids_data v2 = Returns d2 ->
  (0 < nrows d1)%nat ->
  (nrows d1 < nrows (_data s))%nat ->
  nrows d2 = nrows (_data s) ->
  let s2 := snd (set_data v2 (snd (set_data v1 s))) in
  exists r : list Q,
    rows (_color s) !! (nrows d1 - 1)%nat = Some r /\
    rows (_color s2)
    = take (nrows d1) (rows (_color s))
        ++ replicate (nrows (_data s) - nrows d1) r.
Proof.
  intros Hinv Hp1 Hp2 Hk Hlt Hn2 s2.
  destruct (CentroidsData.set_data_chooses s v1 d1 Hinv ltac:(lia) Hp1)
    as (c1 & Hrun1 & Hc1 & Hn1 & Hless & _ & _).
  specialize (Hless Hlt).
  destruct (CentroidsData.store_data_and_color_result HS CS d1 c1 s Hc1 Hn1)
    as (_ & Hd1 & Hcol1).
  set (s1 := snd (set_data v1 s)) in *.
  assert (Hs1 : _data s1 = d1 /\ _color s1 = c1).
  { unfold s1. rewrite Hrun1. auto. }
  destruct Hs1 as [Ed1 Ec1].
  assert (Hinv1 : color_per_centroid s1).
  { unfold color_per_centroid. rewrite Ed1, Ec1. auto. }
  destruct (CentroidsData.set_data_chooses s1 v2 d2 Hinv1
              ltac:(rewrite Ed1; exact Hk) Hp2)
    as (c2 & Hrun2 & Hc2 & Hn2' & _ & Hmore & _).
  destruct Hmore as (r & Hlast & Ec2); [rewrite Ed1; lia|].
  destruct (CentroidsData.store_data_and_color_result HS CS d2 c2 s1 Hc2 Hn2')
    as (_ & _ & Hcol2).
  exists r. split.
  - rewrite Ec1, Hless in Hlast. simpl in Hlast.
    rewrite last_lookup, length_take in Hlast.
    destruct Hinv as [Hrows _]. unfold nrows in Hrows at 1.
    rewrite Nat.min_l in Hlast by lia.
    rewrite lookup_take_lt in Hlast by lia.
    replace (nrows d1 - 1)%nat with (Init.Nat.pred (nrows d1)) by lia.
    exact Hlast.
  - unfold s2. fold s1. rewrite Hrun2, Hcol2, Ec2. simpl.
    rewrite Ec1, Hless, Ed1, Hn2. reflexivity.
Qed.

Lemma trimmed_colors_are_lost_witness :
  rows (_color (snd (sample_set_data
                       (mk_array 2 [[1; 10]; [2; 20]; [3; 30]]%Q)
                       (snd (sample_set_data (mk_array 2 [[1; 10]]%Q)
                               three_centroids)))))
  = [[1; 0; 0; 1]; [1; 0; 0; 1]; [1; 0; 0; 1]]%Q.
Proof.
  destruct (trimmed_colors_are_lost
              CentroidsData.sample_helpers_spec ColorInit.sample_colors_spec
              three_centroids
              (mk_array 2 [[1; 10]]%Q)
              (mk_array 2 [[1; 10]; [2; 20]; [3; 30]]%Q)
              (mk_array 2 [[1; 10]]%Q)
              (mk_array 2 [[1; 10]; [2; 20]; [3; 30]]%Q)
              CentroidsData.three_centroids_invariant eq_refl eq_refl)
    as (r & Hr & Hrows).
  - vm_compute. lia.
  - vm_compute. lia.
  - reflexivity.
  - unfold sample_set_data. rewrite Hrows.
    simpl in Hr. injection Hr as <-. reflexivity.
Defined.

End CentroidsFacts.


(** ** Region: the [current_edge_width] setter *)

Module RegionCurrentFacts.

Import Region.
Import RegionOrder.
Import RegionCurrent.

Example width_of_the_selection :
  let s' := snd (set_current_edge_width (H := updating) [1%nat] 5 second_selected) in
  edge_width s' = [1; 5]%Q /\ _current_edge_width s' = 5%Q /\
  events s' = ["edge_width"].
Proof. repeat split. Qed.

(** The loop of the setter: over indices of regions it gets to its end,
    the regions met have the width [w], the others keep theirs, and the
    z-indices stay. *)
Lemma write_width_loop (w : Q) (order : list nat) : forall s : Region.t,
  Forall (fun i => (i < n_regions s)%nat) order ->
  exists dv : RegionList.t,
    for_each order
      (fun i => on_data_view (RegionList.update_edge_width i w)) s
    = (Returns tt, with_data_view dv s) /\
    length (RegionList.regions dv) = n_regions s /\
    RegionList.z_indices dv = z_index s /\
    (forall i, i ∈ order -> RegionList.edge_widths dv !! i = Some w) /\
    (forall i, i ∉ order -> RegionList.edge_widths dv !! i = edge_width s !! i).
Proof.
  induction order as [|j order IH]; intros s Hall.
  - exists (_data_view s). simpl. unfold Py.ret.
    rewrite RegionSetterFacts.with_data_view_same.
    split; [reflexivity|]. split; [reflexivity|]. split; [reflexivity|].
    split; [intros i Hi; inversion Hi | reflexivity].
  - apply Forall_cons in Hall as [Hj Hall].
    cbn [for_each]. unfold Py.bind. unfold on_data_view at 1.
    unfold RegionList.update_edge_width at 1.
    destruct (RegionList.regions (_data_view s) !! j) as [r|] eqn:Hr.
    2:{ apply lookup_ge_None in Hr. unfold n_regions in Hj. lia. }
    cbv beta iota.
    set (dv1 := RegionList.mk _ _ _ _).
    set (s1 := with_data_view dv1 s).
    assert (Hn1 : n_regions s1 = n_regions s).
    { unfold s1, dv1, n_regions. simpl. apply length_insert. }
    assert (Hw1 : edge_width s1 = <[j := w]> (edge_width s)).
    { unfold s1, dv1, edge_width, RegionList.edge_widths. simpl.
      rewrite list_fmap_insert. reflexivity. }
    assert (Hz1 : z_index s1 = z_index s).
    { unfold s1, dv1, z_index, RegionList.z_indices. simpl.
      rewrite list_fmap_insert. simpl.
      apply list_insert_id. rewrite list_lookup_fmap, Hr. reflexivity. }
    destruct (IH s1) as (dv & Hrun & Hlen & Hz & Hin & Hout).
    { rewrite Hn1. exact Hall. }
    exists dv. split; [rewrite Hrun; reflexivity|].
    split; [congruence|]. split; [congruence|]. split.
    + intros i Hi. destruct (decide (i ∈ order)) as [Hio|Hio]; [apply Hin, Hio|].
      apply elem_of_cons in Hi as [->|Hi]; [|contradiction].
      rewrite (Hout j Hio), Hw1. apply list_lookup_insert_eq.
      rewrite RegionSetters.n_regions_edge_width. exact Hj.
    + intros i Hi. apply not_elem_of_cons in Hi as [Hij Hio].
      rewrite (Hout i Hio), Hw1. apply list_lookup_insert_ne. congruence.
Qed.

(** X19.  Assigning [w] to [current_edge_width] always stores [w] as the
    current width and never touches a z-index.  Where the base class
    provides a true [_update_properties], every selected region gets the
    width [w], the others keep theirs, and the [edge_width] event is
    emitted; where it provides a false one, only the event is emitted;
    where it provides none, the assignment raises AttributeError after the
    current width is stored, and no event is emitted. *)
Theorem current_edge_width_reaches_selection `{H : LayerAttributes}
    (order : list nat) (w : Q) (s : Region.t) :
  iterates order s ->
  selection_in_range s ->
  let s' := snd (set_current_edge_width order w s) in
  _current_edge_width s' = w /\
  z_index s' = z_index s /\
  n_regions s' = n_regions s /\
  (inherited_update_properties = Some true ->
   fst (set_current_edge_width order w s) = Returns tt /\
   events s' = events s ++ ["edge_width"] /\
   (forall i, i ∈ _selected_data s -> edge_width s' !! i = Some w) /\
   (forall i, i ∉ _selected_data s -> edge_width s' !! i = edge_width s !! i)) /\
  (inherited_update_properties = Some false ->
   fst (set_current_edge_width order w s) = Returns tt /\
   events s' = events s ++ ["edge_width"] /\
   edge_width s' = edge_width s) /\
  (inherited_update_properties = None ->
   set_current_edge_width order w s
   = (Raises AttributeError, with_current_edge_width w s)).
Proof.
  intros Hit Hrange s'.
  assert (Hmem : forall i, i ∈ order <-> i ∈ _selected_data s).
  { intros i. unfold iterates in Hit. rewrite Hit. apply elem_of_elements. }
  assert (Hall : Forall (fun i => (i < n_regions (with_current_edge_width w s))%nat)
                   order).
  { apply Forall_forall. intros i Hi. apply Hrange, Hmem, Hi. }
  destruct (write_width_loop w order (with_current_edge_width w s) Hall)
    as (dv & Hrun & Hlen & Hz & Hin & Hout).
  assert (Hcases :
            set_current_edge_width order w s
            = match inherited_update_properties with
              | Some true =>
                  emit "edge_width"
                    (with_data_view dv (with_current_edge_width w s))
              | Some false => emit "edge_width" (with_current_edge_width w s)
              | None => (Raises AttributeError, with_current_edge_width w s)
              end).
  { unfold set_current_edge_width. unfold Py.bind at 1. cbn [Py.modify].
    unfold Py.bind at 1. unfold Py.lift.
    destruct inherited_update_properties as [[|]|];
      [unfold Py.bind; rewrite Hrun; reflexivity | reflexivity | reflexivity]. }
  unfold s'. rewrite Hcases. clear Hcases.
  destruct inherited_update_properties as [[|]|].
  - simpl.
    split; [reflexivity|]. split; [exact Hz|]. split; [exact Hlen|].
    split; [|split; discriminate].
    intros _. split; [reflexivity|]. split; [reflexivity|]. split.
    + intros i Hi. apply Hin, Hmem, Hi.
    + intros i Hi. apply Hout. intros Hio. apply Hi, Hmem, Hio.
  - simpl. split; [reflexivity|]. split; [reflexivity|]. split; [reflexivity|].
    split; [discriminate|]. split; [|discriminate].
    intros _. repeat split.
  - simpl. split; [reflexivity|]. split; [reflexivity|]. split; [reflexivity|].
    split; [discriminate|]. split; [discriminate|]. reflexivity.
Qed.

Lemma current_edge_width_reaches_selection_witness :
  edge_width (snd (set_current_edge_width (H := updating) [1%nat] 5
                     second_selected)) !! 1%nat = Some 5%Q /\
  edge_width (snd (set_current_edge_width (H := not_updating) [1%nat] 5
                     second_selected)) = [1; 2]%Q /\
  set_current_edge_width (H := without_attribute) [1%nat] 5 second_selected
  = (Raises AttributeError, with_current_edge_width 5 second_selected).
Proof.
  destruct RegionOrderFacts.second_selected_ready as (Hit & _ & Hrange & _).
  split; [|split].
  - destruct (current_edge_width_reaches_selection (H := updating)
                [1%nat] 5 second_selected Hit Hrange)
      as (_ & _ & _ & Hyes & _).
    destruct (Hyes eq_refl) as (_ & _ & Hsel & _).
    apply Hsel.
    change (_selected_data second_selected) with ({[1%nat]} : gset nat).
    apply elem_of_singleton. reflexivity.
  - destruct (current_edge_width_reaches_selection (H := not_updating)
                [1%nat] 5 second_selected Hit Hrange)
      as (_ & _ & _ & _ & Hno & _).
    apply (Hno eq_refl).
  - destruct (current_edge_width_reaches_selection (H := without_attribute)
                [1%nat] 5 second_selected Hit Hrange)
      as (_ & _ & _ & _ & _ & Hnone).
    apply (Hnone eq_refl).
Defined.

End RegionCurrentFacts.


(** ** The reload widget *)

Module QtReloadFacts.

Import PyStr.
Import QtDev.
Import PyStrFacts.
Import QtReload.

Example reload_of_region :
  _reload (H := sample_reload_host) region_path watching
  = (Returns tt,
     mk (H := sample_reload_host)
        (Changed (H := sample_reload_host) (lit "napari_plot.layers.region") true)
        [Changed (H := sample_reload_host) (lit "napari_plot.layers.region") true]).
Proof. reflexivity. Qed.

Example reload_that_fails :
  _reload (H := sample_reload_host) other_path watching
  = (Returns tt,
     mk (H := sample_reload_host) (Added 2)
        [Failed other_path (lit "napari_plot.layers.other")
           (ValueError "No module of that name")]).
Proof. reflexivity. Qed.

Lemma path_to_module_outside (path : str) :
  ~ occurs package_sep path -> path_to_module path = Raises IndexError.
Proof.
  intros Hno. unfold path_to_module. rewrite QtDevFacts.split_package_sep.
  rewrite (split_go_no_occurrence package_sep _ path Hno). reflexivity.
Qed.

Lemma path_to_module_inside (path : str) :
  occurs package_sep path -> exists module, path_to_module path = Returns module.
Proof.
  intros Hocc. unfold path_to_module. rewrite QtDevFacts.split_package_sep.
  pose proof (split_go_occurs package_sep QtDevFacts.package_sep_nonempty
                (length path) path (le_n _) Hocc) as H2.
  destruct (split_go (length path) package_sep path) as [|p0 [|p1 ps]];
    simpl in H2; try lia.
  simpl. eauto.
Qed.

(** X20.  [_reload] of one path.  A path that does not contain
    ["napari_plot\\"] makes [_reload] raise IndexError, outside the [try],
    with the widget as before.  On every other path the module name is
    computed, and [_reload] does one of three things: when the import and
    the reloader return, it returns, and the label and the output show the
    change; when they raise what derives from [Exception], it returns, the
    label stays and the failure is printed; when they raise SystemExit or
    KeyboardInterrupt, [except Exception] lets it through, and [_reload]
    raises the same with the widget as before. *)
Theorem reload_of_one_path `{ReloadHost} (path : str) (s : t) :
  (~ occurs package_sep path -> _reload path s = (Raises IndexError, s)) /\
  (occurs package_sep path ->
   exists module,
     path_to_module path = Returns module /\
     (forall res, reload_module module = Returns res ->
        _reload path s
        = (Returns tt,
           mk (Changed module res) (printed s ++ [Changed module res]))) /\
     (forall e, reload_module module = Raises e -> is_exception e = true ->
        _reload path s
        = (Returns tt, mk (_info s) (printed s ++ [Failed path module e]))) /\
     (forall e, reload_module module = Raises e -> is_exception e = false ->
        _reload path s = (Raises e, s))).
Proof.
  split.
  - intros Hno. unfold _reload, Py.bind, Py.lift.
    rewrite (path_to_module_outside path Hno). reflexivity.
  - intros Hocc. destruct (path_to_module_inside path Hocc) as [module Hm].
    exists module. split; [exact Hm|].
    unfold _reload, Py.bind, Py.lift. rewrite Hm. cbv beta iota.
    split; [|split].
    + intros res E. rewrite E. reflexivity.
    + intros e E He. rewrite E, He. reflexivity.
    + intros e E He. rewrite E, He. reflexivity.
Qed.

Lemma no_backslash_no_package (path : str) :
  backslash ∉ path -> ~ occurs package_sep path.
Proof.
  intros Hbs (a & b & E). apply Hbs. subst path.
  apply elem_of_app. right. apply elem_of_app. left.
  unfold package_sep. apply elem_of_app. right. left.
Qed.

Lemma other_path_inside : occurs package_sep other_path.
Proof.
  exists (lit "C:" ++ [backslash]), (lit "layers" ++ [backslash] ++ lit "other.py").
  reflexivity.
Qed.

Lemma reload_of_one_path_witness :
  _reload (H := sample_reload_host) forward_slash_path watching
  = (Raises IndexError, watching) /\
  _reload (H := sample_reload_host) other_path watching
  = (Returns tt,
     mk (H := sample_reload_host) (Added 2)
        [Failed other_path (lit "napari_plot.layers.other")
           (ValueError "No module of that name")]) /\
  _reload (H := interrupted_reload_host) other_path interrupted
  = (Raises KeyboardInterrupt, interrupted).
Proof.
  split; [|split].
  - apply (proj1 (reload_of_one_path (H := sample_reload_host)
                    forward_slash_path watching)).
    intros Hocc. apply occurs_split in Hocc; [|discriminate].
    apply Hocc. reflexivity.
  - destruct (proj2 (reload_of_one_path (H := sample_reload_host)
                       other_path watching) other_path_inside)
      as (module & Hm & _ & Hfail & _).
    assert (E : module = lit "napari_plot.layers.other").
    { vm_compute in Hm. injection Hm as <-. reflexivity. }
    subst module.
    apply (Hfail (ValueError "No module of that name")); reflexivity.
  - destruct (proj2 (reload_of_one_path (H := interrupted_reload_host)
                       other_path interrupted) other_path_inside)
      as (module & _ & _ & _ & Hthrough).
    apply (Hthrough KeyboardInterrupt); reflexivity.
Defined.

(** Paths inside the package, whose imports raise nothing but what
    derives from [Exception], are all reloaded, one message each. *)
Lemma reload_inside `{ReloadHost} (paths : list str) : forall s : t,
  Forall (occurs package_sep) paths ->
  Forall raises_exceptions_only paths ->
  exists (msgs : list message) (s' : t),
    reload paths s = (Returns tt, s') /\
    printed s' = printed s ++ msgs /\
    length msgs = length paths.
Proof.
  unfold reload.
  induction paths as [|path paths IH]; intros s Hall Hexn.
  - exists [], s. simpl. rewrite app_nil_r. auto.
  - apply Forall_cons in Hall as [Hocc Hall].
    apply Forall_cons in Hexn as [Hpath Hexn].
    destruct (path_to_module_inside path Hocc) as [module Hm].
    specialize (Hpath module).
    cbn [for_each]. unfold Py.bind at 1. unfold _reload at 1.
    unfold Py.bind at 1. unfold Py.lift at 1. rewrite Hm.
    destruct (reload_module module) as [res|e].
    + destruct (IH (mk (Changed module res) (printed s ++ [Changed module res]))
                  Hall Hexn) as (msgs & s' & Hrun & Hpr & Hlen).
      exists (Changed module res :: msgs), s'.
      split; [exact Hrun|]. split; [|simpl; lia].
      rewrite Hpr. simpl. rewrite <- app_assoc. reflexivity.
    + rewrite (Hpath e Hm eq_refl). cbv beta iota.
      destruct (IH (mk (_info s) (printed s ++ [Failed path module e]))
                  Hall Hexn) as (msgs & s' & Hrun & Hpr & Hlen).
      exists (Failed path module e :: msgs), s'.
      split; [exact Hrun|]. split; [|simpl; lia].
      rewrite Hpr. simpl. rewrite <- app_assoc. reflexivity.
Qed.

Lemma for_each_app {S A} (body : A -> M S unit) (l1 l2 : list A) (s : S) :
  for_each (l1 ++ l2) body s
  = Py.bind (for_each l1 body) (fun _ => for_each l2 body) s.
Proof.
  revert s. induction l1 as [|x l1 IH]; intros s; simpl.
  - reflexivity.
  - unfold Py.bind. destruct (body x s) as [[[]|e] s1]; [|reflexivity].
    rewrite IH. reflexivity.
Qed.

(** X21.  [reload] over the watched paths, where the imports of the
    paths [inside] raise nothing but what derives from [Exception].  The
    loop stops at the first path that does not contain ["napari_plot\\"]:
    the paths before it are reloaded, with one message printed for each,
    then IndexError is raised and the paths behind are not visited.  It
    stops in the same way at the first path whose import raises SystemExit
    or KeyboardInterrupt, with that exception.  With no such path,
    [reload] returns after one message per path.  So where paths are
    written with forward slashes, [reload] over a non-empty list raises at
    once and reloads nothing. *)
Theorem reload_stops_at_first_foreign_path `{ReloadHost}
    (inside : list str) (s : t) :
  Forall (occurs package_sep) inside ->
  Forall raises_exceptions_only inside ->
  (exists msgs : list message,
     fst (reload inside s) = Returns tt /\
     printed (snd (reload inside s)) = printed s ++ msgs /\
     length msgs = length inside) /\
  (forall (foreign : str) (behind : list str),
     ~ occurs package_sep foreign ->
     exists msgs : list message,
       fst (reload (inside ++ foreign :: behind) s) = Raises IndexError /\
       printed (snd (reload (inside ++ foreign :: behind) s)) = printed s ++ msgs /\
       length msgs = length inside) /\
  (forall (path : str) (behind : list str) (module : str) (e : exn),
     path_to_module path = Returns module ->
     reload_module module = Raises e ->
     is_exception e = false ->
     exists msgs : list message,
       fst (reload (inside ++ path :: behind) s) = Raises e /\
       printed (snd (reload (inside ++ path :: behind) s)) = printed s ++ msgs /\
       length msgs = length inside).
Proof.
  intros Hall Hexn.
  destruct (reload_inside inside s Hall Hexn) as (msgs & s' & Hrun & Hpr & Hlen).
  split; [|split].
  - exists msgs. rewrite Hrun. auto.
  - intros foreign behind Hno. exists msgs.
    assert (Hstop : reload (inside ++ foreign :: behind) s = (Raises IndexError, s')).
    { unfold reload in *. rewrite for_each_app. unfold Py.bind at 1.
      rewrite Hrun. cbn [for_each]. unfold Py.bind at 1. unfold _reload at 1.
      unfold Py.bind, Py.lift. rewrite (path_to_module_outside foreign Hno).
      reflexivity. }
    rewrite Hstop. auto.
  - intros path behind module e Hm He Hbase. exists msgs.
    assert (Hstop : reload (inside ++ path :: behind) s = (Raises e, s')).
    { unfold reload in *. rewrite for_each_app. unfold Py.bind at 1.
      rewrite Hrun. cbn [for_each]. unfold Py.bind at 1. unfold _reload at 1.
      unfold Py.bind, Py.lift. rewrite Hm. cbv beta iota.
      rewrite He, Hbase. reflexivity. }
    rewrite Hstop. auto.
Qed.

Lemma reload_stops_at_first_foreign_path_witness :
  fst (reload (H := sample_reload_host)
         ([region_path] ++ forward_slash_path :: [other_path]) watching)
  = Raises IndexError /\
  length (printed (snd (reload (H := sample_reload_host)
                          ([region_path] ++ forward_slash_path :: [other_path])
                          watching)))
  = 1%nat.
Proof.
  assert (Hin : Forall (occurs package_sep) [region_path]).
  { constructor; [|constructor].
    exists (lit "C:" ++ [backslash]),
      (lit "layers" ++ [backslash] ++ lit "region.py").
    reflexivity. }
  assert (Hexn : Forall (raises_exceptions_only (H := sample_reload_host))
                   [region_path]).
  { constructor; [|constructor].
    intros module e _ Hraise. cbn [reload_module sample_reload_host] in Hraise.
    destruct (decide (module = lit "napari_plot.layers.region"));
      [discriminate|].
    injection Hraise as <-. reflexivity. }
  destruct (proj1 (proj2 (reload_stops_at_first_foreign_path
                            (H := sample_reload_host)
                            [region_path] watching Hin Hexn))
              forward_slash_path [other_path]) as (msgs & Hret & Hpr & Hlen).
  - intros Hocc. apply occurs_split in Hocc; [|discriminate].
    apply Hocc. reflexivity.
  - split; [exact Hret|]. rewrite Hpr. simpl. exact Hlen.
Defined.

End QtReloadFacts.


(** ** Region: [_finish_drawing] *)

Module RegionDrawingFacts.

Import Region.
Import RegionDrawing.

Lemma sample_dims_host_spec : DimsHostSpec sample_dims_host.
Proof. split; intros s; reflexivity. Qed.

Example highlight_fails_while_moving :
  _compute_vertices_and_box (H := Samples.SampleShapes.sample_shapes)
    (layer moving_selection)
  = Raises TypeError.
Proof. reflexivity. Qed.

(** X22.  After [_finish_drawing] nothing is highlighted: it returns,
    the selection is empty and no drag selection is under way, so
    [_compute_vertices_and_box] returns the empty highlight -- no vertices,
    white colours, no outline, width 0 -- whatever the layer was like
    before, also where [_compute_vertices_and_box] raised. *)
Theorem nothing_is_highlighted_after_finish_drawing
    `{H : DimsHost} `{ShapesHost} (HS : DimsHostSpec H) (s : RegionDrawing.t) :
  let s' := snd (_finish_drawing s) in
  fst (_finish_drawing s) = Returns tt /\
  _selected_data (layer s') = ∅ /\
  _is_selecting (layer s') = false /\
  _compute_vertices_and_box (layer s')
  = Returns (mk_highlight (empty0 2) (ColorName "white") (ColorName "white")
               None 0).
Proof.
  intros s'.
  set (s0 := RegionDrawing.mk (drawing_reset (layer s)) false None (None, None)).
  assert (Hrun : _finish_drawing s = _update_dims s0) by reflexivity.
  assert (Hsel : _selected_data (layer s') = ∅).
  { unfold s'. rewrite Hrun, update_dims_selected_data. reflexivity. }
  assert (Hdrag : _is_selecting (layer s') = false).
  { unfold s'. rewrite Hrun, update_dims_is_selecting. reflexivity. }
  split; [rewrite Hrun; apply update_dims_returns|].
  split; [exact Hsel|]. split; [exact Hdrag|].
  unfold _compute_vertices_and_box. rewrite Hsel, Hdrag.
  destruct (decide (0 < size (∅ : gset nat))%nat) as [Hpos|_]; [|reflexivity].
  rewrite size_empty in Hpos. lia.
Qed.

Lemma nothing_is_highlighted_after_finish_drawing_witness :
  _compute_vertices_and_box (H := Samples.SampleShapes.sample_shapes)
    (layer (snd (_finish_drawing (H := sample_dims_host) moving_selection)))
  = Returns (mk_highlight (empty0 2) (ColorName "white") (ColorName "white")
               None 0).
Proof.
  apply (nothing_is_highlighted_after_finish_drawing
           (H := sample_dims_host) (H0 := Samples.SampleShapes.sample_shapes)
           sample_dims_host_spec moving_selection).
Defined.

End RegionDrawingFacts.


(** ** Region: [_init_regions] *)

Module RegionInitFacts.

Import Region.
Import RegionInputs.
Import RegionInit.
Import RegionAddFacts.

Example init_with_z_index_zero :
  let s' := snd (sample_init_regions [[10; 20]; [30; 40]]%Q (Scalar VERTICAL)
                   (Some (Scalar 1%Q)) (ColorName "red") (ColorName "white")
                   (Some (Scalar 0)) before_init_regions) in
  z_index (layer s') = [0; 0] /\ edge_width (layer s') = [1; 1]%Q /\
  _allow_thumbnail_update s' = true /\ events (layer s') = ["set_data"].
Proof. repeat split. Qed.







(** X24.  [block_thumbnail_update] around a method of the layer: when
    the method returns, thumbnail updates are allowed afterwards; when it
    raises, the exception goes on and thumbnail updates stay blocked --
    the generator has no [finally], so the flag is not set back.  The
    layer itself is as the method left it. *)
Theorem block_thumbnail_update_is_not_undone {A} (m : M Region.t A)
    (s : RegionInit.t) :
  let r := block_thumbnail_update (on_layer m) s in
  fst r = fst (m (layer s)) /\
  layer (snd r) = snd (m (layer s)) /\
  (forall a, fst (m (layer s)) = Returns a ->
             _allow_thumbnail_update (snd r) = true) /\
  (forall e, fst (m (layer s)) = Raises e ->
             _allow_thumbnail_update (snd r) = false).
Proof.
  unfold block_thumbnail_update, set_allow_thumbnail_update. py_unfold.
  unfold on_layer. cbn [layer _allow_thumbnail_update].
  destruct (m (layer s)) as [[a|e] l]; simpl.
  - repeat split. intros e E. discriminate.
  - repeat split. intros a E. discriminate.
Qed.

Lemma block_thumbnail_update_is_not_undone_witness :
  _allow_thumbnail_update
    (snd (block_thumbnail_update
            (on_layer (set_z_index (PyList [1; 2; 3])))
            (RegionInit.mk Samples.two_regions true)))
  = false.
Proof.
  destruct (block_thumbnail_update_is_not_undone
              (set_z_index (PyList [1; 2; 3]))
              (RegionInit.mk Samples.two_regions true))
    as (_ & _ & _ & Hraise).
  apply (Hraise length_error). reflexivity.
Defined.

End RegionInitFacts.
